(** * CloudCopilot: the tool executor, the policy reviewer and the
      conversation orchestrator

    A shallow embedding of
      - [app/schemas/base.py]          (request and response records),
      - [app/tools/aws_tools.py]       ([AWSResponse], [AWSTools]),
      - [app/agents/bedrock_agent.py]  ([BedrockAgent]),
      - [app/agents/orchestrator.py]   ([OrchestratorAgent]),
      - [app/main.py]                  (start-up check and the [/chat] route).

    The Python code talks to three outside parties: the Python runtime and
    its libraries (json, pydantic, float formatting), the AWS SDK, and the
    OpenAI client.  Each is an interface (a type class) here; the functions
    of the repository are written once over these interfaces, in a state and
    exception monad whose state carries the outside world, the [session]
    attributes of the two agent objects and a trace of every outside call. *)

From Stdlib Require Import String Ascii List ZArith QArith Bool Lia DecimalString.
Import ListNotations.
Open Scope list_scope.
Open Scope string_scope.

Set Implicit Arguments.

(* ================================================================== *)
(** ** Python strings *)
(* ================================================================== *)

(** [str.lower()] on the ASCII letters.  The two words the orchestrator looks
    for after lowering are ASCII, and no other character lowers to one of
    their letters next to the rest of the word, so the test below agrees with
    Python's on the UTF-8 bytes of a message. *)
Definition lower_ascii (c : ascii) : ascii :=
  let n := nat_of_ascii c in
  if (65 <=? n)%nat && (n <=? 90)%nat then ascii_of_nat (n + 32) else c.

Fixpoint lower (s : string) : string :=
  match s with
  | EmptyString => EmptyString
  | String c r => String (lower_ascii c) (lower r)
  end.

(** [needle in hay] *)
Definition str_in (needle hay : string) : bool :=
  match index 0 needle hay with Some _ => true | None => false end.

(** [name in names] for a list (or the keys of a dict) of strings *)
Definition mem (name : string) (names : list string) : bool :=
  existsb (String.eqb name) names.

Definition str_of_nat (n : nat) : string := NilZero.string_of_uint (Nat.to_uint n).
Definition str_of_Z (z : Z) : string := NilZero.string_of_int (Z.to_int z).

(** the double quote, for the texts that contain one *)
Definition dq : string := String (ascii_of_nat 34) EmptyString.
Definition nl : string := String (ascii_of_nat 10) EmptyString.

(* ================================================================== *)
(** ** app/schemas/base.py *)
(* ================================================================== *)

Inductive MessageRole := USER | ASSISTANT | SYSTEM.

Definition role_value (r : MessageRole) : string :=
  match r with USER => "user" | ASSISTANT => "assistant" | SYSTEM => "system" end.

Definition MessageRole_eqb (a b : MessageRole) : bool :=
  match a, b with
  | USER, USER | ASSISTANT, ASSISTANT | SYSTEM, SYSTEM => true
  | _, _ => false
  end.

Record Message := mkMessage { role : MessageRole; content : string }.

Record AWSCredentials := mkCredentials {
  accessKeyId : string;
  secretAccessKey : string;
  region : string
}.

(** [region: str = "ap-south-1"] *)
Definition default_region : string := "ap-south-1".

(* ================================================================== *)
(** ** Python values *)
(* ================================================================== *)

(** What [json.loads] returns, what the tools put in [data], and the two
    kinds of object that travel with them: the credentials object the
    orchestrator stores under ['credentials'], and the [datetime] fields of
    an IAM role description.  [F] is the type of Python floats. *)
#[warnings="-register-all"] Inductive Value (F : Type) : Type :=
| VNone
| VBool (b : bool)
| VInt (z : Z)
| VFloat (f : F)
| VStr (s : string)
| VList (l : list (Value F))
| VDict (d : list (string * Value F))
| VCreds (c : AWSCredentials)
| VDatetime (iso : string).

Arguments VNone {F}.
Arguments VBool {F} b.
Arguments VInt {F} z.
Arguments VStr {F} s.
Arguments VCreds {F} c.
Arguments VDatetime {F} iso.

(** [type(v).__name__] *)
Definition type_name {F} (v : Value F) : string :=
  match v with
  | VNone => "NoneType"
  | VBool _ => "bool"
  | VInt _ => "int"
  | VFloat _ => "float"
  | VStr _ => "str"
  | VList _ => "list"
  | VDict _ => "dict"
  | VCreds _ => "AWSCredentials"
  | VDatetime _ => "datetime"
  end.

(** A dict keeps insertion order; assigning to a present key keeps its place. *)
Fixpoint dict_set {F} (k : string) (v : Value F) (d : list (string * Value F))
  : list (string * Value F) :=
  match d with
  | [] => [(k, v)]
  | (k', v') :: r => if k' =? k then (k, v) :: r else (k', v') :: dict_set k v r
  end.

Fixpoint dict_get {F} (k : string) (d : list (string * Value F)) : option (Value F) :=
  match d with
  | [] => None
  | (k', v') :: r => if k' =? k then Some v' else dict_get k r
  end.

Definition dict_keys {F} (d : list (string * Value F)) : list string := map fst d.

(** [{k: v for k, v in d.items() if k != key}] *)
Definition dict_without {F} (key : string) (d : list (string * Value F))
  : list (string * Value F) :=
  filter (fun kv => negb (fst kv =? key)) d.

(** [d.get(k, default)] *)
Definition dict_get_default {F} (k : string) (default : Value F)
    (d : list (string * Value F)) : Value F :=
  match dict_get k d with Some v => v | None => default end.

(* ================================================================== *)
(** ** Exceptions *)
(* ================================================================== *)

Inductive ExnClass :=
| ClientError (code : string)   (* botocore: e.response['Error']['Code'] *)
| BotoCoreError
| JSONDecodeError
| TypeError
| AttributeError
| ValidationError               (* pydantic *)
| AuthenticationError           (* openai *)
| RateLimitError
| BadRequestError
| APIError
| PlainException.               (* raise Exception(...) *)

(** An exception: its class and [str(e)]. *)
Record Exn := mkExn { exn_class : ExnClass; exn_text : string }.

Definition Exception (text : string) : Exn := mkExn PlainException text.

(** The name CPython's own error messages give the type of [v]: a type
    written in C comes with its module, so a datetime is a
    [datetime.datetime]; the builtins and the classes of the program come
    bare. *)
Definition tp_name {F} (v : Value F) : string :=
  match v with
  | VDatetime _ => "datetime.datetime"
  | _ => type_name v
  end.

(** ['X' object has no attribute 'a'] *)
Definition no_attribute {F} (v : Value F) (attr : string) : Exn :=
  mkExn AttributeError ("'" ++ tp_name v ++ "' object has no attribute '" ++ attr ++ "'").

(* ================================================================== *)
(** ** The Python runtime *)
(* ================================================================== *)

(** What the code takes from the interpreter and its libraries and this
    development does not compute: float arithmetic and formatting, the
    [repr] of containers, the json module, the texts of the interpreter's own
    errors, and the attributes every object inherits. *)
Class PythonRuntime := {
  Float : Type;
  (** [round(size / (1024 * 1024), 2)] *)
  py_round_mb : Z -> Float;
  (** [int + float], [float + float] as [sum] adds them up from the int 0 *)
  py_float_of_int : Z -> Float;
  py_float_add : Float -> Float -> Float;
  (** [bool(x)] *)
  py_float_truthy : Float -> bool;
  (** [f"{x}"] and [f"{x:.2f}"] *)
  py_float_str : Float -> string;
  py_float_2f : Float -> string;
  (** [str(v)] for a list, a dict, a credentials object or a datetime *)
  py_repr : Value Float -> string;
  (** [json.loads(s)]: the value, or the text of the JSONDecodeError *)
  json_loads : string -> string + Value Float;
  (** [json.dumps(v)]: the text, or the TypeError raised on an object json
      cannot serialise *)
  json_dumps : Value Float -> string + string;
  (** [json.dumps(v, indent=2)] *)
  json_dumps_indent2 : Value Float -> string + string;
  (** the TypeError text when a call that unpacks [arguments] as keywords
      does not fit the signature of the function named, or when [arguments]
      is no mapping *)
  py_bind_error : string -> Value Float -> string;
  (** the exception raised by [await getattr(aws_tools, name)(...)] when
      [name] is an attribute that is not one of the four coroutines: calling
      or awaiting it fails *)
  py_not_awaitable : string -> Value Float -> Exn;
  (** the attributes an [AWSTools] instance inherits from [object] *)
  py_object_attr : string -> bool;
  py_object_attr_dunder : forall n, py_object_attr n = true -> prefix "__" n = true;
  (** the text of pydantic's ValidationError for [response=None] *)
  py_validation_error : string
}.

Abbreviation Val := (Value Float).

Section Python.
Context {PY : PythonRuntime}.

(** [bool(v)] *)
Definition truthy (v : Val) : bool :=
  match v with
  | VNone => false
  | VBool b => b
  | VInt z => negb (z =? 0)%Z
  | VFloat f => py_float_truthy f
  | VStr s => negb (s =? EmptyString)
  | VList l => match l with [] => false | _ => true end
  | VDict d => match d with [] => false | _ => true end
  | VCreds _ => true
  | VDatetime _ => true
  end.

(** [str(v)], as an f-string renders [{v}] *)
Definition py_str (v : Val) : string :=
  match v with
  | VNone => "None"
  | VBool true => "True"
  | VBool false => "False"
  | VInt z => str_of_Z z
  | VFloat f => py_float_str f
  | VStr s => s
  | _ => py_repr v
  end.

(** [sum(xs)] over floats: Python starts from the int 0 *)
Definition py_sum (xs : list Float) : Float :=
  fold_left py_float_add xs (py_float_of_int 0).

End Python.

(* ================================================================== *)
(** ** The OpenAI client's data *)
(* ================================================================== *)

(** [tool_call.id], [tool_call.function.name], [tool_call.function.arguments] *)
Record ToolCall := mkToolCall {
  tc_id : string;
  tc_name : string;
  tc_arguments : string
}.

(** The three shapes of entry [process_request] puts in [openai_messages]. *)
Inductive OpenAIMessage :=
| ChatMsg (role : MessageRole) (content : string)
| AssistantToolCallMsg (tool_call_id name : string) (tool_calls : list ToolCall)
| ToolMsg (content : string) (tool_call_id : string).

(** [response.choices[0].message]: [content] may be None; a [tool_calls] that
    is None or empty is the empty list. *)
Record CompletionMessage := mkCompletion {
  msg_content : option string;
  msg_tool_calls : list ToolCall
}.

(** One entry of [self.tools]. *)
Record ToolParam := mkParam {
  param_name : string;
  param_type : string;
  param_description : string
}.

Record ToolSchema := mkTool {
  tool_name : string;
  tool_description : string;
  tool_properties : list ToolParam;
  tool_required : option (list string)
}.

(* ================================================================== *)
(** ** The AWS SDK's data *)
(* ================================================================== *)

(** A client made by [session.client(service)]. *)
Record Client := mkClient {
  client_session : AWSCredentials;
  client_service : string
}.

(** A page of [list_objects_v2]: the [Size] of each object under
    ['Contents'], or no ['Contents'] key. *)
Definition Page := option (list Z).

(** An entry of [reservation['Instances']]. *)
Record Instance := mkInstance {
  InstanceId : string;
  InstanceType : string;
  StateName : string;
  PublicIpAddress : option string;
  PrivateIpAddress : option string
}.

(** The request [_invoke_bedrock] serialises as the body. *)
Record BedrockRequest := mkBedrockRequest {
  prompt : string;
  max_tokens_to_sample : Z;
  temperature : Z;
  top_p : Q
}.

(* ================================================================== *)
(** ** The outside world: AWS and OpenAI *)
(* ================================================================== *)

Section Outside.
Context {PY : PythonRuntime}.

(** Every call that leaves the process, the exception an AWS or OpenAI
    request answers with ([Raised], right after the call's own event), and
    the line [_execute_function] logs before it calls a tool. *)
Inductive Event :=
| BotoSession (c : AWSCredentials)
| BotoClient (session : AWSCredentials) (service : string)
| S3ListBuckets (cl : Client)
| S3ListObjectsV2 (cl : Client) (bucket : Val)
| EC2DescribeInstances (cl : Client)
| IAMGetRole (cl : Client) (role_name : Val)
| IAMListAttachedRolePolicies (cl : Client) (role_name : Val)
| STSGetCallerIdentity (cl : Client)
| BedrockInvokeModel (cl : Client) (model_id : string) (request : BedrockRequest)
| ChatCompletionsCreate (model : string) (messages : list OpenAIMessage)
    (tools : option (list ToolSchema))
| LogExecuting (name : string) (arguments : Val)
| Raised (e : Exn).

(** The events that reach AWS (or boto3). *)
Definition is_aws_call (e : Event) : bool :=
  match e with
  | ChatCompletionsCreate _ _ _ | LogExecuting _ _ | Raised _ => false
  | _ => true
  end.

Definition is_raised (e : Event) : bool :=
  match e with Raised _ => true | _ => false end.

Definition is_model_call (e : Event) : bool :=
  match e with ChatCompletionsCreate _ _ _ => true | _ => false end.

Definition is_tool_dispatch (e : Event) : bool :=
  match e with LogExecuting _ _ => true | _ => false end.

(** The AWS SDK over a world [W].  Making a session or a client sends no
    request, so neither raises a ClientError: each returns the text of its
    exception, if any.  A paginator yields pages and may then raise. *)
Class AWSSDK (W : Type) := {
  boto3_Session : AWSCredentials -> W -> option string * W;
  session_client : AWSCredentials -> string -> W -> option string * W;
  list_buckets : Client -> W -> (Exn + list string) * W;
  paginate_list_objects_v2 : Client -> Val -> W -> (list Page * option Exn) * W;
  describe_instances : Client -> W -> (Exn + list (list Instance)) * W;
  get_role : Client -> Val -> W -> (Exn + Val) * W;
  list_attached_role_policies : Client -> Val -> W -> (Exn + Val) * W;
  get_caller_identity : Client -> W -> (Exn + string) * W;
  invoke_model : Client -> string -> BedrockRequest -> W -> (Exn + string) * W
}.

(** [client.chat.completions.create] *)
Class OpenAIClient (W : Type) := {
  chat_completions_create :
    string -> list OpenAIMessage -> option (list ToolSchema) -> W ->
    (Exn + CompletionMessage) * W
}.

End Outside.

(* ================================================================== *)
(** ** The monad of the program *)
(* ================================================================== *)

Section Monad.
Context {PY : PythonRuntime} {W : Type}.

(** The world, the trace of outside calls so far, and the mutable attributes
    of the agent objects: [AWSTools.session], [BedrockAgent.session] and
    [BedrockAgent.model_id]. *)
Record State := mkState {
  world : W;
  trace : list Event;
  tools_session : option AWSCredentials;
  bedrock_session : option AWSCredentials;
  bedrock_model_id : string
}.

(** A computation returns a value or raises; the state it leaves is kept in
    both cases. *)
Definition M (A : Type) : Type := State -> (Exn + A) * State.

Definition ret {A} (a : A) : M A := fun st => (inr a, st).

Definition raise {A} (e : Exn) : M A := fun st => (inl e, st).

Definition bind {A B} (m : M A) (k : A -> M B) : M B :=
  fun st =>
    match m st with
    | (inr a, st') => k a st'
    | (inl e, st') => (inl e, st')
    end.

(** [try: m  except Exception as e: h e] *)
Definition try_except {A} (m : M A) (h : Exn -> M A) : M A :=
  fun st =>
    match m st with
    | (inr a, st') => (inr a, st')
    | (inl e, st') => h e st'
    end.

(** An outside call: the world answers, the trace grows by one event. *)
Definition call {A} (ev : Event) (f : W -> A * W) : M A :=
  fun st =>
    let (a, w') := f (world st) in
    (inr a, mkState w' (trace st ++ [ev])%list (tools_session st)
                    (bedrock_session st) (bedrock_model_id st)).

Definition log (ev : Event) : M unit :=
  fun st => (inr tt, mkState (world st) (trace st ++ [ev])%list (tools_session st)
                             (bedrock_session st) (bedrock_model_id st)).

(** The request came back as an exception. *)
Definition raised {A} (e : Exn) : M A :=
  bind (log (Raised e)) (fun _ => raise e).

(** An outside request that may raise. *)
Definition call_exn {A} (ev : Event) (f : W -> (Exn + A) * W) : M A :=
  bind (call ev f) (fun r => match r with inl e => raised e | inr a => ret a end).

Definition get_tools_session : M (option AWSCredentials) :=
  fun st => (inr (tools_session st), st).

Definition set_tools_session (c : AWSCredentials) : M unit :=
  fun st => (inr tt, mkState (world st) (trace st) (Some c)
                             (bedrock_session st) (bedrock_model_id st)).

Definition get_bedrock_session : M (option AWSCredentials) :=
  fun st => (inr (bedrock_session st), st).

Definition set_bedrock_session (c : AWSCredentials) : M unit :=
  fun st => (inr tt, mkState (world st) (trace st) (tools_session st)
                             (Some c) (bedrock_model_id st)).

Definition get_model_id : M string :=
  fun st => (inr (bedrock_model_id st), st).

(** [for x in xs: ys.append(f x)] *)
Fixpoint for_each {A B} (f : A -> M B) (xs : list A) : M (list B) :=
  match xs with
  | [] => ret []
  | x :: r => bind (f x) (fun y => bind (for_each f r) (fun ys => ret (y :: ys)))
  end.

End Monad.

Arguments State {PY} W.
Arguments M {PY} W A.

Declare Scope prog_scope.
Delimit Scope prog_scope with prog.
Notation "x <- m ;; k" := (bind m (fun x => k))
  (at level 100, m at next level, right associativity) : prog_scope.
Notation "m ;;; k" := (bind m (fun _ => k))
  (at level 100, right associativity) : prog_scope.
Open Scope prog_scope.

(* ================================================================== *)
(** ** app/tools/aws_tools.py *)
(* ================================================================== *)

Section AWSResponse.
Context {PY : PythonRuntime}.

(** [class AWSResponse]: [data] and [message] default to None,
    [requires_credentials] to False. *)
Record AWSResponse := mkAWSResponse {
  success : bool;
  data : Val;
  message : option string;
  requires_credentials : bool
}.

End AWSResponse.

(** [if error:] on an [Union[str, None]] *)
Definition error_set (error : option string) : bool :=
  match error with
  | Some e => negb (e =? EmptyString)
  | None => false
  end.

Module AWSTools.
Section AWSTools.
Context {PY : PythonRuntime} {W : Type} {SDK : AWSSDK W}.

Definition _init_session (credentials : Val) : M W (option string) :=
  if truthy credentials then
    match credentials with
    | VCreds c =>
        failure <- call (BotoSession c) (boto3_Session c) ;;
        match failure with
        | Some text => ret (Some ("Failed to initialize AWS session: " ++ text))
        | None => set_tools_session c ;;; ret None
        end
    | v =>
        ret (Some ("Failed to initialize AWS session: "
                   ++ exn_text (no_attribute v "accessKeyId")))
    end
  else ret (Some "AWS credentials are required for this operation").

Definition _get_client (service : string) (credentials : Val) : M W Client :=
  error <- _init_session credentials ;;
  if error_set error then
    raise (Exception (match error with Some e => e | None => EmptyString end))
  else
    session <- get_tools_session ;;
    match session with
    | None => raise (no_attribute (@VNone Float) "client")
    | Some s =>
        failure <- call (BotoClient s service) (session_client s service) ;;
        match failure with
        | Some text => raise (mkExn BotoCoreError text)
        | None => ret (mkClient s service)
        end
    end.

(** [for page in paginator.paginate(Bucket=bucket)]: the pages, unless the
    iteration raises. *)
Definition paginate (s3 : Client) (bucket : Val) : M W (list Page) :=
  r <- call (S3ListObjectsV2 s3 bucket) (paginate_list_objects_v2 s3 bucket) ;;
  match snd r with
  | Some e => raised e
  | None => ret (fst r)
  end.

(** [size += obj['Size']] over the pages that have ['Contents'] *)
Definition pages_size (pages : list Page) : Z :=
  fold_left (fun size page =>
               match page with
               | Some objs => fold_left Z.add objs size
               | None => size
               end) pages 0%Z.

(** [file_count += len(page['Contents'])] *)
Definition pages_count (pages : list Page) : nat :=
  fold_left (fun n page =>
               match page with
               | Some objs => (n + length objs)%nat
               | None => n
               end) pages 0%nat.

(** *** get_s3_bucket_sizes *)

Definition bucket_size_entry (s3 : Client) (name : string) : M W Val :=
  pages <- paginate s3 (VStr name) ;;
  let size := pages_size pages in
  ret (VDict [("name", VStr name);
              ("size_bytes", VInt size);
              ("size_mb", VFloat (py_round_mb size))]).

Definition get_s3_bucket_sizes_try (credentials : Val) : M W AWSResponse :=
  s3 <- _get_client "s3" credentials ;;
  response <- call_exn (S3ListBuckets s3) (list_buckets s3) ;;
  buckets <- for_each (bucket_size_entry s3) response ;;
  ret (mkAWSResponse true (VList buckets)
         (Some ("Successfully retrieved information for "
                ++ str_of_nat (length buckets) ++ " bucket(s)"))
         false).

Definition get_s3_bucket_sizes_except (e : Exn) : AWSResponse :=
  match exn_class e with
  | ClientError error_code =>
      if error_code =? "InvalidAccessKeyId" then
        mkAWSResponse false VNone
          (Some "The AWS Access Key ID you provided is invalid. Please check your credentials.")
          true
      else if error_code =? "SignatureDoesNotMatch" then
        mkAWSResponse false VNone
          (Some "The AWS Secret Access Key you provided is invalid. Please check your credentials.")
          true
      else if error_code =? "AccessDenied" then
        mkAWSResponse false VNone
          (Some "Your AWS credentials don't have permission to list S3 buckets. Please check your IAM permissions.")
          true
      else
        mkAWSResponse false VNone (Some ("AWS error: " ++ exn_text e)) false
  | _ =>
      mkAWSResponse false VNone
        (Some ("Error getting S3 bucket sizes: " ++ exn_text e)) false
  end.

Definition get_s3_bucket_sizes (credentials : Val) : M W AWSResponse :=
  if negb (truthy credentials) then
    ret (mkAWSResponse false VNone
           (Some "To list your S3 buckets and their sizes, I'll need your AWS credentials. Please provide them securely.")
           true)
  else
    try_except (get_s3_bucket_sizes_try credentials)
               (fun e => ret (get_s3_bucket_sizes_except e)).

(** *** list_ec2_instances *)

Definition instance_entry (instance : Instance) : Val :=
  VDict [("id", VStr (InstanceId instance));
         ("type", VStr (InstanceType instance));
         ("state", VStr (StateName instance));
         ("public_ip", VStr (match PublicIpAddress instance with
                             | Some ip => ip | None => "N/A" end));
         ("private_ip", VStr (match PrivateIpAddress instance with
                              | Some ip => ip | None => "N/A" end))].

Definition list_ec2_instances_try (credentials : Val) : M W AWSResponse :=
  ec2 <- _get_client "ec2" credentials ;;
  response <- call_exn (EC2DescribeInstances ec2) (describe_instances ec2) ;;
  let instances := map instance_entry (concat response) in
  ret (mkAWSResponse true (VList instances)
         (Some ("Successfully retrieved information for "
                ++ str_of_nat (length instances) ++ " instance(s)"))
         false).

Definition invalid_credentials_message : string :=
  "Invalid AWS credentials provided. Please check your Access Key ID and Secret Access Key.".

Definition list_ec2_instances_except (e : Exn) : AWSResponse :=
  match exn_class e with
  | ClientError error_code =>
      if mem error_code ["InvalidAccessKeyId"; "SignatureDoesNotMatch"] then
        mkAWSResponse false VNone (Some invalid_credentials_message) true
      else if error_code =? "AccessDenied" then
        mkAWSResponse false VNone
          (Some "Your AWS credentials don't have permission to list EC2 instances. Please check your IAM permissions.")
          true
      else
        mkAWSResponse false VNone (Some ("AWS error: " ++ exn_text e)) false
  | _ =>
      mkAWSResponse false VNone
        (Some ("Error listing EC2 instances: " ++ exn_text e)) false
  end.

Definition list_ec2_instances (credentials : Val) : M W AWSResponse :=
  if negb (truthy credentials) then
    ret (mkAWSResponse false VNone
           (Some "To list your EC2 instances, I'll need your AWS credentials. Please provide them securely.")
           true)
  else
    try_except (list_ec2_instances_try credentials)
               (fun e => ret (list_ec2_instances_except e)).

(** *** describe_iam_role *)

Definition describe_iam_role_try (role_name credentials : Val) : M W AWSResponse :=
  iam <- _get_client "iam" credentials ;;
  role <- call_exn (IAMGetRole iam role_name) (get_role iam role_name) ;;
  policies <- call_exn (IAMListAttachedRolePolicies iam role_name)
                       (list_attached_role_policies iam role_name) ;;
  ret (mkAWSResponse true
         (VDict [("role", role); ("attached_policies", policies)])
         (Some ("Successfully retrieved details for IAM role '"
                ++ py_str role_name ++ "'"))
         false).

Definition describe_iam_role_except (e : Exn) : AWSResponse :=
  match exn_class e with
  | ClientError error_code =>
      if mem error_code ["InvalidAccessKeyId"; "SignatureDoesNotMatch"] then
        mkAWSResponse false VNone (Some invalid_credentials_message) true
      else if error_code =? "AccessDenied" then
        mkAWSResponse false VNone
          (Some "Your AWS credentials don't have permission to access IAM roles. Please check your IAM permissions.")
          true
      else
        mkAWSResponse false VNone (Some ("AWS error: " ++ exn_text e)) false
  | _ =>
      mkAWSResponse false VNone
        (Some ("Error describing IAM role: " ++ exn_text e)) false
  end.

Definition describe_iam_role (role_name credentials : Val) : M W AWSResponse :=
  if negb (truthy credentials) then
    ret (mkAWSResponse false VNone
           (Some ("To describe the IAM role '" ++ py_str role_name
                  ++ "', I'll need your AWS credentials. Please provide them securely."))
           true)
  else
    try_except (describe_iam_role_try role_name credentials)
               (fun e => ret (describe_iam_role_except e)).

(** *** get_s3_bucket_file_count *)

(** An entry of [bucket_stats]. *)
Record BucketStat := mkBucketStat {
  bucket_name : Val;
  file_count : nat;
  total_size_bytes : Z;
  total_size_mb : Float
}.

Definition bucket_stat_entry (b : BucketStat) : Val :=
  VDict [("bucket_name", bucket_name b);
         ("file_count", VInt (Z.of_nat (file_count b)));
         ("total_size_bytes", VInt (total_size_bytes b));
         ("total_size_mb", VFloat (total_size_mb b))].

Definition no_such_bucket (bucket : Val) : AWSResponse :=
  mkAWSResponse false VNone
    (Some ("The specified bucket '" ++ py_str bucket ++ "' does not exist"))
    false.

(** The body of [for bucket in buckets]: the bucket's statistics, or the
    response the innermost handler returns on NoSuchBucket; it re-raises
    every other ClientError. *)
Definition count_bucket (s3 : Client) (bucket : Val)
  : M W (AWSResponse + BucketStat) :=
  try_except
    (pages <- paginate s3 bucket ;;
     let total_size := pages_size pages in
     ret (inr (mkBucketStat bucket (pages_count pages) total_size
                            (py_round_mb total_size))))
    (fun e =>
       match exn_class e with
       | ClientError code =>
           if code =? "NoSuchBucket" then ret (inl (no_such_bucket bucket))
           else raise e
       | _ => raise e
       end).

Fixpoint count_buckets (s3 : Client) (buckets : list Val)
    (bucket_stats : list BucketStat) : M W (AWSResponse + list BucketStat) :=
  match buckets with
  | [] => ret (inr bucket_stats)
  | bucket :: rest =>
      r <- count_bucket s3 bucket ;;
      match r with
      | inl response => ret (inl response)
      | inr stat => count_buckets s3 rest (bucket_stats ++ [stat])%list
      end
  end.

Definition file_count_message (bucket_stats : list BucketStat) : string :=
  match bucket_stats with
  | [bucket] =>
      "Bucket '" ++ py_str (bucket_name bucket) ++ "' contains "
      ++ str_of_nat (file_count bucket) ++ " files ("
      ++ py_float_str (total_size_mb bucket) ++ " MB)"
  | _ =>
      let total_files := fold_left Nat.add (map file_count bucket_stats) 0%nat in
      let total := py_sum (map total_size_mb bucket_stats) in
      "Found " ++ str_of_nat total_files ++ " files across "
      ++ str_of_nat (length bucket_stats) ++ " buckets (Total size: "
      ++ py_float_2f total ++ " MB)"
  end.

(** The block under the second [try]. *)
Definition get_s3_bucket_file_count_try (s3 : Client) (bucket_name : Val)
  : M W AWSResponse :=
  buckets <- (if negb (truthy bucket_name) then
                response <- call_exn (S3ListBuckets s3) (list_buckets s3) ;;
                ret (map (@VStr Float) response)
              else ret [bucket_name]) ;;
  r <- count_buckets s3 buckets [] ;;
  match r with
  | inl response => ret response
  | inr bucket_stats =>
      ret (mkAWSResponse true (VList (map bucket_stat_entry bucket_stats))
             (Some (file_count_message bucket_stats)) false)
  end.

(** [except ClientError as e] of the second [try]; other exceptions pass. *)
Definition get_s3_bucket_file_count_except (bucket_name : Val) (e : Exn)
  : M W AWSResponse :=
  match exn_class e with
  | ClientError error_code =>
      if error_code =? "NoSuchBucket" then ret (no_such_bucket bucket_name)
      else if mem error_code ["InvalidAccessKeyId"; "SignatureDoesNotMatch"] then
        ret (mkAWSResponse false VNone (Some invalid_credentials_message) true)
      else if error_code =? "AccessDenied" then
        ret (mkAWSResponse false VNone
               (Some "Your AWS credentials don't have permission to list objects in S3 buckets. Please check your IAM permissions.")
               true)
      else
        ret (mkAWSResponse false VNone (Some ("AWS error: " ++ exn_text e)) false)
  | _ => raise e
  end.

Definition get_s3_bucket_file_count (bucket_name credentials : Val)
  : M W AWSResponse :=
  if negb (truthy credentials) then
    ret (mkAWSResponse false VNone
           (Some "To count files in your S3 buckets, I'll need your AWS credentials. Please provide them securely.")
           true)
  else
    try_except
      (s3 <- _get_client "s3" credentials ;;
       try_except (get_s3_bucket_file_count_try s3 bucket_name)
                  (get_s3_bucket_file_count_except bucket_name))
      (fun e =>
         ret (mkAWSResponse false VNone
                (Some ("Error counting S3 files: " ++ exn_text e)) false)).

(** *** The four operations, as one family *)

Inductive Operation :=
| GetS3BucketSizes
| ListEC2Instances
| DescribeIAMRole (role_name : Val)
| GetS3BucketFileCount (bucket_name : Val).

Definition operation_name (op : Operation) : string :=
  match op with
  | GetS3BucketSizes => "get_s3_bucket_sizes"
  | ListEC2Instances => "list_ec2_instances"
  | DescribeIAMRole _ => "describe_iam_role"
  | GetS3BucketFileCount _ => "get_s3_bucket_file_count"
  end.

Definition invoke (op : Operation) (credentials : Val) : M W AWSResponse :=
  match op with
  | GetS3BucketSizes => get_s3_bucket_sizes credentials
  | ListEC2Instances => list_ec2_instances credentials
  | DescribeIAMRole role_name => describe_iam_role role_name credentials
  | GetS3BucketFileCount bucket_name => get_s3_bucket_file_count bucket_name credentials
  end.

End AWSTools.
End AWSTools.

(* ================================================================== *)
(** ** app/agents/bedrock_agent.py *)
(* ================================================================== *)

Module BedrockAgent.
Section BedrockAgent.
Context {PY : PythonRuntime} {W : Type} {SDK : AWSSDK W}.

(** [os.environ.get('AWS_BEDROCK_MODEL_ID', 'anthropic.claude-v2')] *)
Definition model_id_of (environ : string -> option string) : string :=
  match environ "AWS_BEDROCK_MODEL_ID" with
  | Some m => m
  | None => "anthropic.claude-v2"
  end.

Definition _init_session (credentials : Val) : M W (option string) :=
  if truthy credentials then
    match credentials with
    | VCreds c =>
        failure <- call (BotoSession c) (boto3_Session c) ;;
        match failure with
        | Some text => ret (Some text)
        | None => set_bedrock_session c ;;; ret None
        end
    | v => ret (Some (exn_text (no_attribute v "accessKeyId")))
    end
  else ret (Some "AWS credentials are required for this operation").

(** [self.session.client(service)] *)
Definition session_client_of (service : string) : M W Client :=
  session <- get_bedrock_session ;;
  match session with
  | None => raise (no_attribute (@VNone Float) "client")
  | Some s =>
      failure <- call (BotoClient s service) (session_client s service) ;;
      match failure with
      | Some text => raise (mkExn BotoCoreError text)
      | None => ret (mkClient s service)
      end
  end.

Definition _get_bedrock_client (credentials : Val) : M W Client :=
  error <- _init_session credentials ;;
  if error_set error then
    raise (Exception (match error with Some e => e | None => EmptyString end))
  else session_client_of "bedrock-runtime".

(** [json.loads(x)] on a Python value: only text is parsed. *)
Definition loads (x : Val) : M W Val :=
  match x with
  | VStr s =>
      match json_loads s with
      | inl text => raise (mkExn JSONDecodeError text)
      | inr v => ret v
      end
  | v => raise (mkExn TypeError
                  ("the JSON object must be str, bytes or bytearray, not " ++ type_name v))
  end.

Definition bedrock_request (prompt : string) : BedrockRequest :=
  mkBedrockRequest (nl ++ nl ++ "Human: " ++ prompt ++ nl ++ nl ++ "Assistant:")
                   2048 0 (9 # 10)%Q.

Definition _invoke_bedrock (prompt : string) (credentials : Val) : M W Val :=
  try_except
    (let request := bedrock_request prompt in
     response <-
       try_except
         (bedrock <- _get_bedrock_client credentials ;;
          model_id <- get_model_id ;;
          call_exn (BedrockInvokeModel bedrock model_id request)
                   (invoke_model bedrock model_id request))
         (fun e =>
            match exn_class e with
            | ClientError error_code =>
                if error_code =? "AccessDeniedException" then
                  raise (Exception "Access denied to AWS Bedrock. Please check your IAM permissions.")
                else if error_code =? "ValidationException" then
                  raise (Exception ("Invalid request to Bedrock: " ++ exn_text e))
                else if error_code =? "ThrottlingException" then
                  raise (Exception "AWS Bedrock request was throttled. Please try again later.")
                else
                  raise (Exception ("AWS Bedrock error: " ++ exn_text e))
            | BotoCoreError =>
                raise (Exception ("AWS Bedrock connection error: " ++ exn_text e))
            | _ => raise e
            end) ;;
     try_except
       (response_body <- loads (VStr response) ;;
        completion <- match response_body with
                      | VDict d => ret (dict_get_default "completion" (VStr EmptyString) d)
                      | v => raise (no_attribute v "get")
                      end ;;
        if negb (truthy completion) then raise (Exception "Empty response from Bedrock")
        else ret completion)
       (fun e =>
          match exn_class e with
          | JSONDecodeError =>
              raise (Exception ("Failed to parse Bedrock response: " ++ exn_text e))
          | _ => raise e
          end))
    (fun e => raise (Exception ("Error in _invoke_bedrock: " ++ exn_text e))).

(** The lines of the two prompt templates: twelve spaces, the text, a newline. *)
Definition indent12 : string := "            ".
Definition ln (text : string) : string := indent12 ++ text ++ nl.

Definition validation_prompt (operation_json : string) : string :=
  nl
  ++ ln "Please analyze this AWS operation for potential security issues, best practices, and validate its parameters:"
  ++ nl
  ++ ln ("Operation: " ++ operation_json)
  ++ nl
  ++ ln "Provide your analysis in the following JSON format:"
  ++ ln "{"
  ++ ln ("    " ++ dq ++ "is_valid" ++ dq ++ ": boolean,")
  ++ ln ("    " ++ dq ++ "security_concerns" ++ dq ++ ": [list of strings],")
  ++ ln ("    " ++ dq ++ "best_practice_suggestions" ++ dq ++ ": [list of strings],")
  ++ ln ("    " ++ dq ++ "parameter_validation" ++ dq ++ ": {")
  ++ ln ("        " ++ dq ++ "valid_parameters" ++ dq ++ ": [list of strings],")
  ++ ln ("        " ++ dq ++ "invalid_parameters" ++ dq ++ ": [list of strings],")
  ++ ln ("        " ++ dq ++ "missing_parameters" ++ dq ++ ": [list of strings]")
  ++ ln "    },"
  ++ ln ("    " ++ dq ++ "recommendation" ++ dq ++ ": " ++ dq ++ "string" ++ dq)
  ++ ln "}"
  ++ ln EmptyString
  ++ ln "Consider these security aspects:"
  ++ ln "1. Principle of least privilege"
  ++ ln "2. Resource naming conventions"
  ++ ln "3. Access control settings"
  ++ ln "4. Data security implications"
  ++ ln "5. Cost implications"
  ++ indent12.

Definition policy_prompt (description : string) : string :=
  nl
  ++ ln "Please suggest an AWS IAM policy based on this description of required permissions:"
  ++ nl
  ++ ln ("Description: " ++ description)
  ++ nl
  ++ ln "Provide your response as a valid IAM policy JSON document with minimal required permissions following the principle of least privilege."
  ++ ln "Include comments explaining each permission."
  ++ nl
  ++ ln "Consider:"
  ++ ln "1. Use specific resource ARNs where possible"
  ++ ln ("2. Avoid overly permissive actions (e.g., '*'" ++ ")")
  ++ ln "3. Include necessary conditions"
  ++ ln "4. Follow AWS security best practices"
  ++ indent12.

(** The verdict returned when the identity check raises [e]. *)
Definition invalid_credentials_verdict (e : Exn) : Val :=
  VDict [("is_valid", VBool false);
         ("security_concerns", VList [VStr "Unable to validate AWS credentials"]);
         ("best_practice_suggestions",
          VList [VStr "Ensure the provided credentials are valid";
                 VStr "Ensure the credentials have sufficient permissions"]);
         ("parameter_validation",
          VDict [("valid_parameters", VList []);
                 ("invalid_parameters", VList [VStr "credentials"]);
                 ("missing_parameters", VList [])]);
         ("recommendation",
          VStr ("Please provide valid AWS credentials. Error: " ++ exn_text e))].

(** The block under [if credentials:]: None when the identity call went
    through, the verdict when anything in it raised. *)
Definition identity_check : M W (option Val) :=
  try_except
    (sts <- session_client_of "sts" ;;
     identity <- call_exn (STSGetCallerIdentity sts) (get_caller_identity sts) ;;
     ret None)
    (fun e => ret (Some (invalid_credentials_verdict e))).

(** What follows the identity check: the prompt, the model, the parse. *)
Definition review (operation credentials : Val) : M W Val :=
  match json_dumps_indent2 operation with
  | inl text => raise (mkExn TypeError text)
  | inr operation_json =>
      response <- _invoke_bedrock (validation_prompt operation_json) credentials ;;
      validation_result <- loads response ;;
      match validation_result with
      | VDict d =>
          if mem "is_valid" (dict_keys d) then ret validation_result
          else raise (Exception "Invalid validation response format")
      | _ => raise (Exception "Invalid validation response format")
      end
  end.

Definition validate_aws_operation (operation credentials : Val) : M W Val :=
  if truthy credentials then
    checked <- identity_check ;;
    match checked with
    | Some verdict => ret verdict
    | None => review operation credentials
    end
  else review operation credentials.

Definition suggest_iam_policy (description : string) (credentials : Val) : M W Val :=
  response <- _invoke_bedrock (policy_prompt description) credentials ;;
  try_except
    (loads response)
    (fun e =>
       match exn_class e with
       | JSONDecodeError =>
           ret (VDict [("error", VStr "Could not parse policy");
                       ("response", response)])
       | _ => raise e
       end).

End BedrockAgent.
End BedrockAgent.

(* ================================================================== *)
(** ** app/schemas/base.py: ChatResponse *)
(* ================================================================== *)

Section ChatResponse.
Context {PY : PythonRuntime} {W : Type}.

Record ChatResponse := mkChatResponse {
  response : string;
  actions_taken : list string;
  aws_resources_affected : list Val;
  validation_results : option Val;
  requiresCredentials : option bool;
  error : option string
}.

(** [ChatResponse(response=..., actions_taken=..., aws_resources_affected=...,
    requiresCredentials=...)]: pydantic refuses a [response] that is None;
    the fields not passed take their defaults. *)
Definition new_ChatResponse (response : option string) (actions_taken : list string)
    (aws_resources_affected : list Val) (requiresCredentials : option bool)
  : M W ChatResponse :=
  match response with
  | Some text =>
      ret (mkChatResponse text actions_taken aws_resources_affected None
                          requiresCredentials None)
  | None => raise (mkExn ValidationError py_validation_error)
  end.

End ChatResponse.

(* ================================================================== *)
(** ** app/agents/orchestrator.py *)
(* ================================================================== *)

Module OrchestratorAgent.
Section OrchestratorAgent.
Context {PY : PythonRuntime} {W : Type} {SDK : AWSSDK W} {AI : OpenAIClient W}.

Definition model : string := "gpt-4-1106-preview".

(** The keys of [self.aws_operations]; every value is True. *)
Definition aws_operations : list string :=
  ["get_s3_bucket_sizes";
   "list_ec2_instances";
   "describe_iam_role";
   "create_s3_bucket";
   "create_lambda_function";
   "create_iam_role";
   "assign_policy_to_role";
   "get_s3_bucket_file_count"].

Definition tools : list ToolSchema :=
  [ mkTool "get_s3_bucket_file_count"
      "Returns the number of files in an S3 bucket or all buckets"
      [mkParam "bucket_name" "string"
         "Optional. Name of the specific S3 bucket to check. If not provided, checks all buckets."]
      None;
    mkTool "get_s3_bucket_sizes"
      "Returns total size of all accessible S3 buckets" [] None;
    mkTool "list_ec2_instances"
      "Returns list of EC2 instances with their details" [] None;
    mkTool "describe_iam_role"
      "Returns details about an IAM role"
      [mkParam "role_name" "string" "Name of the IAM role"]
      (Some ["role_name"]);
    mkTool "suggest_iam_policy"
      "Suggests an IAM policy based on a description of required permissions"
      [mkParam "description" "string" "Description of the required permissions"]
      (Some ["description"]);
    mkTool "create_s3_bucket"
      "Creates a new S3 bucket"
      [mkParam "bucket_name" "string" "Name of the S3 bucket to create"]
      (Some ["bucket_name"]);
    mkTool "create_lambda_function"
      "Creates a new Lambda function"
      [mkParam "name" "string" "Name of the Lambda function";
       mkParam "role_arn" "string" "ARN of the IAM role for the function";
       mkParam "runtime" "string" "Runtime environment (e.g., python3.9)";
       mkParam "handler" "string" "Function handler (e.g., index.handler)";
       mkParam "zip_file_path" "string" "Path to the zip file containing function code"]
      (Some ["name"; "role_arn"; "runtime"; "handler"; "zip_file_path"]);
    mkTool "create_iam_role"
      "Creates a new IAM role"
      [mkParam "name" "string" "Name of the IAM role";
       mkParam "policy_document" "object" "IAM policy document"]
      (Some ["name"; "policy_document"]);
    mkTool "assign_policy_to_role"
      "Attaches an existing policy to an IAM role"
      [mkParam "role_name" "string" "Name of the IAM role";
       mkParam "policy_arn" "string" "ARN of the policy to attach"]
      (Some ["role_name"; "policy_arn"]) ].

(** [self.aws_operations.get(function_name, False)] *)
Definition _requires_aws_credentials (function_name : string) : bool :=
  mem function_name aws_operations.

(** What [_execute_function] may hand back: an [AWSResponse] or anything
    else. *)
Inductive Result :=
| ResAWS (r : AWSResponse)
| ResOther (v : Val).

(** The attributes that [class AWSTools] and its [__init__] define. *)
Definition aws_tools_attributes : list string :=
  ["session"; "_init_session"; "_get_client"; "get_s3_bucket_sizes";
   "list_ec2_instances"; "describe_iam_role"; "get_s3_bucket_file_count"].

(** [hasattr(self.aws_tools, name)] *)
Definition hasattr_aws_tools (name : string) : bool :=
  mem name aws_tools_attributes || py_object_attr name.

(** The keyword arguments of a call that unpacks [arguments] (or passes
    nothing when [arguments] is falsy) to a coroutine whose parameters after
    [self] are [params], of which [required] have no default. *)
Definition bind_arguments (name : string) (params required : list string)
    (arguments : Val) : M W (list (string * Val)) :=
  let fits (d : list (string * Val)) :=
    forallb (fun k => mem k params) (dict_keys d)
    && forallb (fun r => mem r (dict_keys d)) required in
  let refuse := raise (mkExn TypeError (py_bind_error name arguments)) in
  if truthy arguments then
    match arguments with
    | VDict d => if fits d then ret d else refuse
    | _ => refuse
    end
  else if fits [] then ret [] else refuse.

Definition _execute_function (function_name : string) (arguments : Val)
  : M W Result :=
  if negb (hasattr_aws_tools function_name) then
    raise (Exception ("Unknown function: " ++ function_name))
  else
    log (LogExecuting function_name arguments) ;;;
    if function_name =? "get_s3_bucket_sizes" then
      kw <- bind_arguments function_name ["credentials"] [] arguments ;;
      r <- AWSTools.get_s3_bucket_sizes (dict_get_default "credentials" VNone kw) ;;
      ret (ResAWS r)
    else if function_name =? "list_ec2_instances" then
      kw <- bind_arguments function_name ["credentials"] [] arguments ;;
      r <- AWSTools.list_ec2_instances (dict_get_default "credentials" VNone kw) ;;
      ret (ResAWS r)
    else if function_name =? "describe_iam_role" then
      kw <- bind_arguments function_name ["role_name"; "credentials"] ["role_name"]
                           arguments ;;
      r <- AWSTools.describe_iam_role
             (dict_get_default "role_name" VNone kw)
             (dict_get_default "credentials" VNone kw) ;;
      ret (ResAWS r)
    else if function_name =? "get_s3_bucket_file_count" then
      kw <- bind_arguments function_name ["bucket_name"; "credentials"] [] arguments ;;
      r <- AWSTools.get_s3_bucket_file_count
             (dict_get_default "bucket_name" VNone kw)
             (dict_get_default "credentials" VNone kw) ;;
      ret (ResAWS r)
    else raise (py_not_awaitable function_name arguments).

(** The three locals the loop over the tool calls updates. *)
Record Locals := mkLocals {
  l_actions_taken : list string;
  l_aws_resources_affected : list Val;
  l_openai_messages : list OpenAIMessage
}.

(** One round of the loop either returns from [process_request] or goes on
    to the next tool call. *)
Inductive Flow :=
| Return (r : ChatResponse)
| Next (l : Locals).

(** [arguments['credentials'] = aws_credentials] *)
Definition set_credentials (arguments : Val) (c : AWSCredentials) : M W Val :=
  match arguments with
  | VDict d => ret (VDict (dict_set "credentials" (VCreds c) d))
  | VList _ => raise (mkExn TypeError "list indices must be integers or slices, not str")
  | v => raise (mkExn TypeError
                  ("'" ++ tp_name v ++ "' object does not support item assignment"))
  end.

(** [{'operation': function_name, 'parameters': {...minus credentials}}] *)
Definition resource_entry (function_name : string) (arguments : Val) : M W Val :=
  match arguments with
  | VDict d =>
      ret (VDict [("operation", VStr function_name);
                  ("parameters", VDict (dict_without "credentials" d))])
  | v => raise (no_attribute v "items")
  end.

Definition credentials_prompt : string :=
  "I'll need your AWS credentials to perform this operation. Don't worry - your credentials will be used securely and only for this specific task. Please provide them in the prompt.".

(** The inner [try] of the loop body, from [_execute_function] to the two
    appends. *)
Definition execute_and_record (tool_call : ToolCall) (function_name : string)
    (arguments : Val) (l : Locals) : M W Flow :=
  result <- _execute_function function_name arguments ;;
  let proceed (actions_taken : list string) (result : Val) : M W Flow :=
    resources <-
      (if mem function_name aws_operations then
         entry <- resource_entry function_name arguments ;;
         ret (l_aws_resources_affected l ++ [entry])%list
       else ret (l_aws_resources_affected l)) ;;
    match json_dumps result with
    | inl text => raise (mkExn TypeError text)
    | inr serialized =>
        ret (Next (mkLocals actions_taken resources
                     (l_openai_messages l
                      ++ [AssistantToolCallMsg (tc_id tool_call) function_name [tool_call];
                          ToolMsg serialized (tc_id tool_call)])%list))
    end in
  match result with
  | ResAWS r =>
      if requires_credentials r then
        resp <- new_ChatResponse (message r) [] [] (Some true) ;;
        ret (Return resp)
      else if negb (success r) then
        resp <- new_ChatResponse (message r) (l_actions_taken l) [] None ;;
        ret (Return resp)
      else
        proceed (l_actions_taken l ++ [("Successfully executed " ++ function_name)%string])%list
                (data r)
  | ResOther v => proceed (l_actions_taken l) v
  end.

(** [except Exception as e] of the inner [try] *)
Definition execute_except (e : Exn) : M W Flow :=
  let error_msg := exn_text e in
  if str_in "credentials" (lower error_msg) || str_in "access" (lower error_msg) then
    resp <- new_ChatResponse
              (Some ("I need valid AWS credentials to perform this operation: " ++ error_msg))
              [] [] (Some true) ;;
    ret (Return resp)
  else raise e.

(** The head of the loop body: the arguments as they will be dispatched, or
    the response [process_request] returns at once when the operation needs
    credentials and the request has none. *)
Definition prepare_arguments (aws_credentials : option AWSCredentials)
    (tool_call : ToolCall) : M W (ChatResponse + Val) :=
  match json_loads (tc_arguments tool_call) with
  | inl text => raise (mkExn JSONDecodeError text)
  | inr arguments =>
      if _requires_aws_credentials (tc_name tool_call) then
        match aws_credentials with
        | None =>
            resp <- new_ChatResponse (Some credentials_prompt) [] [] (Some true) ;;
            ret (inl resp)
        | Some c =>
            arguments <- set_credentials arguments c ;;
            ret (inr arguments)
        end
      else ret (inr arguments)
  end.

(** The body of [for tool_call in message.tool_calls]. *)
Definition process_tool_call (aws_credentials : option AWSCredentials)
    (tool_call : ToolCall) (l : Locals) : M W Flow :=
  prepared <- prepare_arguments aws_credentials tool_call ;;
  match prepared with
  | inl resp => ret (Return resp)
  | inr arguments =>
      try_except (execute_and_record tool_call (tc_name tool_call) arguments l)
                 execute_except
  end.

Fixpoint process_tool_calls (aws_credentials : option AWSCredentials)
    (tool_calls : list ToolCall) (l : Locals) : M W Flow :=
  match tool_calls with
  | [] => ret (Next l)
  | tool_call :: rest =>
      flow <- process_tool_call aws_credentials tool_call l ;;
      match flow with
      | Return r => ret (Return r)
      | Next l' => process_tool_calls aws_credentials rest l'
      end
  end.

Definition create (messages : list OpenAIMessage) (with_tools : option (list ToolSchema))
  : M W CompletionMessage :=
  call_exn (ChatCompletionsCreate model messages with_tools)
           (chat_completions_create model messages with_tools).

Definition process_request (messages : list Message)
    (aws_credentials : option AWSCredentials) : M W ChatResponse :=
  try_except
    (let openai_messages := map (fun msg => ChatMsg (role msg) (content msg)) messages in
     message <- create openai_messages (Some tools) ;;
     match msg_tool_calls message with
     | [] => new_ChatResponse (msg_content message) [] [] (Some false)
     | tool_calls =>
         flow <- process_tool_calls aws_credentials tool_calls
                   (mkLocals [] [] openai_messages) ;;
         match flow with
         | Return r => ret r
         | Next l =>
             final_response <- create (l_openai_messages l) None ;;
             new_ChatResponse (msg_content final_response) (l_actions_taken l)
                              (l_aws_resources_affected l) (Some false)
         end
     end)
    (fun e => raise (Exception ("Error in process_request: " ++ exn_text e))).

End OrchestratorAgent.
End OrchestratorAgent.

(* ================================================================== *)
(** ** app/main.py *)
(* ================================================================== *)

Module Main.
Section Main.
Context {PY : PythonRuntime} {W : Type} {SDK : AWSSDK W} {AI : OpenAIClient W}.

Definition required_env_vars : list string :=
  ["OPENAI_API_KEY"; "AWS_ACCESS_KEY_ID"; "AWS_SECRET_ACCESS_KEY"; "AWS_REGION"].

(** [[var for var in required_env_vars if not os.environ.get(var)]] *)
Definition missing_vars (environ : string -> option string) : list string :=
  filter (fun var => negb (error_set (environ var))) required_env_vars.

(** The module body up to the two agents: it raises when a variable is
    missing; otherwise the agents start with no session, on the world [w]. *)
Definition startup (environ : string -> option string) (w : W) : Exn + State W :=
  match missing_vars environ with
  | [] => inr (mkState w [] None None (BedrockAgent.model_id_of environ))
  | missing =>
      inl (Exception ("Missing required environment variables: "
                      ++ String.concat ", " missing))
  end.

Record ChatRequest := mkChatRequest {
  messages : list Message;
  user_id : option string;
  aws_context : option Val;
  awsCredentials : option AWSCredentials
}.

Definition system_message : Message :=
  mkMessage SYSTEM
    ("You are CloudPilot, an AI assistant specialized in AWS cloud operations. "
     ++ "You can help with AWS infrastructure management, security best practices, "
     ++ "and resource optimization.").

(** The [/chat] route up to the orchestrator's answer.  What the route makes
    of an exception (an HTTP error) is the web framework's part and is not
    modelled: an exception of [process_request] is left as it is. *)
Definition chat (request : ChatRequest) : M W ChatResponse :=
  let messages :=
    if existsb (fun msg => MessageRole_eqb (role msg) SYSTEM) (messages request)
    then messages request
    else system_message :: messages request in
  OrchestratorAgent.process_request messages (awsCredentials request).

End Main.
End Main.

(* ================================================================== *)
(** ** A small concrete world *)
(* ================================================================== *)

(** One runtime, one AWS account and one model, small enough to run: the
    scenarios below are evaluated on them.  Floats are counted in hundredths;
    the json functions know the few texts the scenarios exchange and write
    strings without escapes. *)
Module Scenario.

Definition float_text (f : Z) : string :=
  let cents := (f mod 100)%Z in
  str_of_Z (f / 100) ++ "." ++ (if (cents <? 10)%Z then "0" else EmptyString)
  ++ str_of_Z cents.

Definition q (s : string) : string := dq ++ s ++ dq.

Definition role_arguments : string := "{" ++ q "role_name" ++ ": " ++ q "ghost" ++ "}".
Definition admin_arguments : string := "{" ++ q "role_name" ++ ": " ++ q "admin" ++ "}".
Definition bucket_arguments : string := "{" ++ q "bucket_name" ++ ": " ++ q "new-bucket" ++ "}".
Definition reply_text : string := " Here is a policy you could use.".
Definition bedrock_body : string := "{" ++ q "completion" ++ ": " ++ q reply_text ++ "}".

Definition json_table : list (string * Value Z) :=
  [("{}", VDict []);
   (role_arguments, VDict [("role_name", VStr "ghost")]);
   (admin_arguments, VDict [("role_name", VStr "admin")]);
   (bucket_arguments, VDict [("bucket_name", VStr "new-bucket")]);
   (bedrock_body, VDict [("completion", VStr reply_text)])].

Definition parse (s : string) : string + Value Z :=
  match dict_get s json_table with
  | Some v => inr v
  | None => inl "Expecting value: line 1 column 1 (char 0)"
  end.

Fixpoint dumps (v : Value Z) : option string :=
  match v with
  | VNone => Some "null"
  | VBool true => Some "true"
  | VBool false => Some "false"
  | VInt z => Some (str_of_Z z)
  | VFloat f => Some (float_text f)
  | VStr s => Some (q s)
  | VList l =>
      let fix items (l : list (Value Z)) : option (list string) :=
        match l with
        | [] => Some []
        | x :: r =>
            match dumps x, items r with
            | Some a, Some b => Some (a :: b)
            | _, _ => None
            end
        end in
      match items l with
      | Some texts => Some ("[" ++ String.concat ", " texts ++ "]")
      | None => None
      end
  | VDict d =>
      let fix items (d : list (string * Value Z)) : option (list string) :=
        match d with
        | [] => Some []
        | (k, x) :: r =>
            match dumps x, items r with
            | Some a, Some b => Some ((q k ++ ": " ++ a) :: b)
            | _, _ => None
            end
        end in
      match items d with
      | Some texts => Some ("{" ++ String.concat ", " texts ++ "}")
      | None => None
      end
  | VCreds _ => None
  | VDatetime _ => None
  end.

Definition dumps_or_raise (v : Value Z) : string + string :=
  match dumps v with
  | Some text => inr text
  | None => inl "Object is not JSON serializable"
  end.

Definition object_attributes : list string :=
  ["__class__"; "__delattr__"; "__dict__"; "__dir__"; "__doc__"; "__eq__";
   "__format__"; "__ge__"; "__getattribute__"; "__gt__"; "__hash__";
   "__init__"; "__init_subclass__"; "__le__"; "__lt__"; "__module__";
   "__ne__"; "__new__"; "__reduce__"; "__reduce_ex__"; "__repr__";
   "__setattr__"; "__sizeof__"; "__str__"; "__subclasshook__"; "__weakref__"].

Lemma object_attributes_dunder :
  forall n, mem n object_attributes = true -> prefix "__" n = true.
Proof.
  intros n H. unfold mem, object_attributes in H.
  repeat (cbn [existsb] in H;
          apply orb_true_iff in H; destruct H as [H | H];
          [apply String.eqb_eq in H; subst n; reflexivity |]).
  discriminate H.
Qed.

Definition python : PythonRuntime := {|
  Float := Z;
  py_round_mb := fun size => ((size * 100 + 524288) / 1048576)%Z;
  py_float_of_int := fun z => (z * 100)%Z;
  py_float_add := Z.add;
  py_float_truthy := fun f => negb (f =? 0)%Z;
  py_float_str := float_text;
  py_float_2f := float_text;
  py_repr := fun v => "<" ++ type_name v ++ ">";
  json_loads := parse;
  json_dumps := dumps_or_raise;
  json_dumps_indent2 := dumps_or_raise;
  py_bind_error := fun name _ => name ++ "() got an unexpected keyword argument";
  py_not_awaitable := fun name _ =>
    mkExn TypeError ("object " ++ name ++ " can't be used in 'await' expression");
  py_object_attr := fun n => mem n object_attributes;
  py_object_attr_dunder := object_attributes_dunder;
  py_validation_error := "1 validation error for ChatResponse"
|}.

(** The account: one bucket, [photos], with ten objects of 524288 bytes; one
    role, [admin]; no permission to list instances. The key [AKIAEXPIRED] is
    not known to AWS. The world counts the requests served. *)
Definition client_error (code operation text : string) : Exn :=
  mkExn (ClientError code)
        ("An error occurred (" ++ code ++ ") when calling the " ++ operation
         ++ " operation: " ++ text).

Definition known (cl : Client) : bool :=
  negb (accessKeyId (client_session cl) =? "AKIAEXPIRED").

Definition unknown_key (operation : string) : Exn :=
  client_error "InvalidAccessKeyId" operation
    "The AWS Access Key Id you provided does not exist in our records.".

Definition aws : @AWSSDK python nat := {|
  boto3_Session := fun _ w => (None, w);
  session_client := fun _ _ w => (None, w);
  list_buckets := fun cl w =>
    (if known cl then inr ["photos"] else inl (unknown_key "ListBuckets"), S w);
  paginate_list_objects_v2 := fun cl bucket w =>
    (if known cl then
       match bucket with
       | VStr "photos" => ([Some (repeat 524288%Z 10)], None)
       | _ => ([], Some (client_error "NoSuchBucket" "ListObjectsV2"
                                      "The specified bucket does not exist"))
       end
     else ([], Some (unknown_key "ListObjectsV2")), S w);
  describe_instances := fun cl w =>
    (if known cl then
       inl (client_error "AccessDenied" "DescribeInstances"
                         "You are not authorized to perform this operation.")
     else inl (unknown_key "DescribeInstances"), S w);
  get_role := fun cl role_name w =>
    (if known cl then
       match role_name with
       | VStr "admin" =>
           inr (VDict [("RoleName", VStr "admin");
                       ("CreateDate", VDatetime "2024-01-01T00:00:00+00:00")])
       | _ => inl (client_error "NoSuchEntity" "GetRole"
                                "The role cannot be found.")
       end
     else inl (unknown_key "GetRole"), S w);
  list_attached_role_policies := fun cl _ w =>
    (if known cl then inr (VList []) else inl (unknown_key "ListAttachedRolePolicies"), S w);
  get_caller_identity := fun cl w =>
    (if known cl then inr "arn:aws:iam::123456789012:user/alice"
     else inl (unknown_key "GetCallerIdentity"), S w);
  invoke_model := fun cl _ _ w =>
    (if known cl then inr bedrock_body else inl (unknown_key "InvokeModel"), S w)
|}.

(** The model picks its tool calls by the last thing the user said. *)
Fixpoint last_user_text (messages : list OpenAIMessage) (found : string) : string :=
  match messages with
  | [] => found
  | ChatMsg USER text :: r => last_user_text r text
  | _ :: r => last_user_text r found
  end.

Definition call_sizes : ToolCall := mkToolCall "call_1" "get_s3_bucket_sizes" "{}".
Definition call_instances : ToolCall := mkToolCall "call_2" "list_ec2_instances" "{}".
Definition call_role : ToolCall := mkToolCall "call_3" "describe_iam_role" role_arguments.
Definition call_count : ToolCall := mkToolCall "call_4" "get_s3_bucket_file_count" "{}".
Definition call_create : ToolCall := mkToolCall "call_5" "create_s3_bucket" bucket_arguments.

Definition plan (text : string) : CompletionMessage :=
  if text =? "list my buckets" then mkCompletion None [call_sizes]
  else if text =? "bucket sizes, then my instances, then count the files" then
    mkCompletion None [call_sizes; call_instances; call_count]
  else if text =? "bucket sizes, then the role ghost, then count the files" then
    mkCompletion None [call_sizes; call_role; call_count]
  else if text =? "create a bucket" then mkCompletion None [call_create]
  else mkCompletion (Some "Hello, how can I help with AWS?") [].

Definition openai : OpenAIClient nat := {|
  chat_completions_create := fun _ messages with_tools w =>
    (match with_tools with
     | Some _ => inr (plan (last_user_text messages EmptyString))
     | None => inr (mkCompletion (Some "Here is what I found.") [])
     end, S w)
|}.

Definition alice : AWSCredentials := mkCredentials "AKIAALICE" "secret" default_region.
Definition expired : AWSCredentials := mkCredentials "AKIAEXPIRED" "secret" default_region.

(** The process environment of a deployment that sets everything
    [main.py] asks for. *)
Definition environ (var : string) : option string :=
  if var =? "OPENAI_API_KEY" then Some "sk-test"
  else if var =? "AWS_ACCESS_KEY_ID" then Some "AKIAALICE"
  else if var =? "AWS_SECRET_ACCESS_KEY" then Some "secret"
  else if var =? "AWS_REGION" then Some "ap-south-1"
  else None.

(** The state after start-up. *)
Definition fresh : @State python nat := mkState 0%nat [] None None "anthropic.claude-v2".

Definition ask (text : string) : list Message := [mkMessage USER text].

End Scenario.

(* ================================================================== *)
(** ** Vocabulary of the properties *)
(* ================================================================== *)

Section Vocabulary.
Context {PY : PythonRuntime} {W : Type} {SDK : AWSSDK W} {AI : OpenAIClient W}.

Import AWSTools OrchestratorAgent.

(** The prompt each operation answers with when it has no credentials. *)
Definition credentials_request (op : Operation) : string :=
  match op with
  | GetS3BucketSizes =>
      "To list your S3 buckets and their sizes, I'll need your AWS credentials. Please provide them securely."
  | ListEC2Instances =>
      "To list your EC2 instances, I'll need your AWS credentials. Please provide them securely."
  | DescribeIAMRole role_name =>
      "To describe the IAM role '" ++ py_str role_name
      ++ "', I'll need your AWS credentials. Please provide them securely."
  | GetS3BucketFileCount _ =>
      "To count files in your S3 buckets, I'll need your AWS credentials. Please provide them securely."
  end.

(** The error codes that mean the identity or its permissions are at fault. *)
Definition credential_codes : list string :=
  ["InvalidAccessKeyId"; "SignatureDoesNotMatch"; "AccessDenied"].

(** The text each operation answers a credential code with: it depends on
    the operation and the code only. *)
Definition credential_error_message (op : Operation) (code : string) : string :=
  match op with
  | GetS3BucketSizes =>
      if code =? "InvalidAccessKeyId" then
        "The AWS Access Key ID you provided is invalid. Please check your credentials."
      else if code =? "SignatureDoesNotMatch" then
        "The AWS Secret Access Key you provided is invalid. Please check your credentials."
      else
        "Your AWS credentials don't have permission to list S3 buckets. Please check your IAM permissions."
  | ListEC2Instances =>
      if code =? "AccessDenied" then
        "Your AWS credentials don't have permission to list EC2 instances. Please check your IAM permissions."
      else invalid_credentials_message
  | DescribeIAMRole _ =>
      if code =? "AccessDenied" then
        "Your AWS credentials don't have permission to access IAM roles. Please check your IAM permissions."
      else invalid_credentials_message
  | GetS3BucketFileCount _ =>
      if code =? "AccessDenied" then
        "Your AWS credentials don't have permission to list objects in S3 buckets. Please check your IAM permissions."
      else invalid_credentials_message
  end.

(** The codes an operation has a text of its own for, besides the
    credential codes. *)
Definition not_found_code (op : Operation) (code : string) : bool :=
  match op with
  | GetS3BucketFileCount _ => code =? "NoSuchBucket"
  | _ => false
  end.

(** A response carries a message, and does not ask for credentials while
    reporting success. *)
Definition well_formed (r : AWSResponse) : Prop :=
  (exists text, message r = Some text)
  /\ (requires_credentials r = true -> success r = false).

(** No event of [evs] is a [Raised]. *)
Definition quiet (evs : list Event) : bool :=
  forallb (fun e => negb (is_raised e)) evs.

Definition is_client_error (e : Exn) : bool :=
  match exn_class e with ClientError _ => true | _ => false end.

(** The events a tool can add to the trace. *)
Definition tool_event (e : Event) : bool := is_aws_call e || is_raised e.

(** [m] only adds events that satisfy [p]. *)
Definition emits (p : Event -> bool) {A} (m : M W A) : Prop :=
  forall st, exists evs,
    trace (snd (m st)) = (trace st ++ evs)%list /\ forallb p evs = true.

(** [m] adds a [Raised e] exactly when an outside request answered with [e],
    as the last event, and then raises [e]; an exception of its own making
    is no ClientError. *)
Definition sound {A} (m : M W A) : Prop :=
  forall st, exists evs, quiet evs = true /\
    match m st with
    | (inr _, st') => trace st' = (trace st ++ evs)%list
    | (inl e, st') =>
        trace st' = (trace st ++ evs ++ [Raised e])%list
        \/ (trace st' = (trace st ++ evs)%list /\ is_client_error e = false)
    end.

(** The file count has a handler inside its loop: a computation under it
    may also return right after a NoSuchBucket answer, and then what it
    returns satisfies [early]. *)
Definition handled {A} (early : A -> Prop) (m : M W A) : Prop :=
  forall st, exists evs, quiet evs = true /\
    match m st with
    | (inr a, st') =>
        trace st' = (trace st ++ evs)%list
        \/ (exists e, trace st' = (trace st ++ evs ++ [Raised e])%list
                      /\ exn_class e = ClientError "NoSuchBucket" /\ early a)
    | (inl e, st') =>
        trace st' = (trace st ++ evs ++ [Raised e])%list
        \/ (trace st' = (trace st ++ evs)%list /\ is_client_error e = false)
    end.

Definition early_response {A} (x : AWSResponse + A) : Prop :=
  exists b, x = inl (no_such_bucket b).

Definition early_no_such_bucket (r : AWSResponse) : Prop :=
  exists b, r = no_such_bucket b.

(** What the error mapping promises of the response [r] to a ClientError
    [e] of code [code]. *)
Definition mapped (op : Operation) (code : string) (e : Exn) (r : AWSResponse) : Prop :=
  success r = false
  /\ requires_credentials r = mem code credential_codes
  /\ (mem code credential_codes = true ->
      message r = Some (credential_error_message op code))
  /\ (mem code credential_codes = false -> not_found_code op code = false ->
      message r = Some ("AWS error: " ++ exn_text e)).

Definition count_events (p : Event -> bool) (st : State W) : nat :=
  length (filter p (trace st)).

(** The conversation [process_request] opens with. *)
Definition initial (messages : list Message) : list OpenAIMessage :=
  map (fun msg => ChatMsg (role msg) (content msg)) messages.

(** The label [actions_taken] gets for a tool call that succeeded. *)
Definition executed (tool_call : ToolCall) : string :=
  "Successfully executed " ++ tc_name tool_call.

(** The two entries a tool call makes in the conversation once its result,
    [serialized], is known. *)
Definition recorded (tool_call : ToolCall) (serialized : string) : list OpenAIMessage :=
  [AssistantToolCallMsg (tc_id tool_call) (tc_name tool_call) [tool_call];
   ToolMsg serialized (tc_id tool_call)].

(** [process_request messages aws_credentials], started in [st0], got a
    reply asking for the tool calls [pre ++ tool_call :: post], in this
    order, and every call of [pre] went through: the loop reached
    [tool_call] with the locals [l] in the state [st]. *)
Definition reaches (messages : list Message) (aws_credentials : option AWSCredentials)
    (st0 : State W) (pre : list ToolCall) (tool_call : ToolCall)
    (post : list ToolCall) (l : Locals) (st : State W) : Prop :=
  exists reply st1,
    create (initial messages) (Some tools) st0 = (inr reply, st1)
    /\ msg_tool_calls reply = (pre ++ tool_call :: post)%list
    /\ process_tool_calls aws_credentials pre (mkLocals [] [] (initial messages)) st1
       = (inr (Next l), st).

(** In the state [st], [tool_call] is dispatched with [arguments] and the
    tool returns [r], leaving the state [st']. *)
Definition dispatched (aws_credentials : option AWSCredentials) (tool_call : ToolCall)
    (st : State W) (arguments : Val) (r : AWSResponse) (st' : State W) : Prop :=
  exists st1,
    prepare_arguments aws_credentials tool_call st = (inr (inr arguments), st1)
    /\ _execute_function (tc_name tool_call) arguments st1 = (inr (ResAWS r), st').

End Vocabulary.

(* ================================================================== *)
(** ** Runs on the concrete world *)
(* ================================================================== *)

Module Runs.
Import Scenario AWSTools OrchestratorAgent.
#[local] Existing Instance python.
#[local] Existing Instance aws.
#[local] Existing Instance openai.

Definition no_locals : Locals := mkLocals [] [] [].
Definition no_response : AWSResponse := mkAWSResponse false VNone None false.

(** The locals and the state in which the loop, for the request [text],
    has gone through the first [n] tool calls of the reply. *)
Definition reached (aws_credentials : option AWSCredentials) (text : string) (n : nat)
  : Locals * State nat :=
  match create (initial (ask text)) (Some tools) fresh with
  | (inr reply, st1) =>
      match process_tool_calls aws_credentials (firstn n (msg_tool_calls reply))
                               (mkLocals [] [] (initial (ask text))) st1 with
      | (inr (Next l), st) => (l, st)
      | (_, st) => (no_locals, st)
      end
  | (_, st1) => (no_locals, st1)
  end.

(** The arguments, the result and the state left by dispatching
    [tool_call] in [st]. *)
Definition dispatch (aws_credentials : option AWSCredentials) (tool_call : ToolCall)
    (st : State nat) : Val * AWSResponse * State nat :=
  match prepare_arguments aws_credentials tool_call st with
  | (inr (inr arguments), st1) =>
      match _execute_function (tc_name tool_call) arguments st1 with
      | (inr (ResAWS r), st') => (arguments, r, st')
      | (_, st') => (arguments, no_response, st')
      end
  | (_, st1) => (VNone, no_response, st1)
  end.

(** The response of a tool run. *)
Definition response_of (run : (Exn + AWSResponse) * State nat) : AWSResponse :=
  match fst run with
  | inr r => r
  | inl _ => no_response
  end.

Definition ghost_request : string :=
  "bucket sizes, then the role ghost, then count the files".
Definition instances_request : string :=
  "bucket sizes, then my instances, then count the files".

End Runs.


(* ================================================================== *)
(** ** app/agents/orchestrator.py: validate_aws_operation *)
(* ================================================================== *)

Module Orchestrator.
Section Orchestrator.
Context {PY : PythonRuntime} {W : Type} {SDK : AWSSDK W}.

(** The orchestrator asks its own reviewer and returns
    [validation_result.get('is_valid', False)]. *)
Definition validate_aws_operation (operation credentials : Val) : M W Val :=
  try_except
    (validation_result <- BedrockAgent.validate_aws_operation operation credentials ;;
     match validation_result with
     | VDict d => ret (dict_get_default "is_valid" (VBool false) d)
     | v => raise (no_attribute v "get")
     end)
    (fun e => raise (Exception ("Error validating AWS operation: " ++ exn_text e))).

End Orchestrator.
End Orchestrator.

(* ================================================================== *)
(** ** app/main.py: the routes *)
(* ================================================================== *)

Module Routes.
Section Routes.
Context {PY : PythonRuntime} {W : Type} {SDK : AWSSDK W} {AI : OpenAIClient W}.

(** What the web framework, pydantic and boto3 contribute to the routes:
    [str(e)] of an HTTPException with a status and a detail; the check of
    [policy_document: Dict[str, Any]] (the document, or the text of the
    ValidationError); and whether [boto3.exceptions] has the attribute an
    [except] clause of [chat] names. *)
Variable str_HTTPException : nat -> Val -> string.
Variable validate_policy_document : Val -> string + list (string * Val).
Variable boto3_exceptions_has : string -> bool.

Record HTTPException := mkHTTPException {
  status_code : nat;
  detail : Val
}.

(** What can be in flight in a route: an HTTPException, which is an
    Exception too, the KeyError of a missing key, or an exception of the
    program. *)
Inductive InFlight :=
| RaisedHTTP (h : HTTPException)
| RaisedKeyError (key : string)
| RaisedExn (e : Exn).

(** [str(e)] *)
Definition str_in_flight (x : InFlight) : string :=
  match x with
  | RaisedHTTP h => str_HTTPException (status_code h) (detail h)
  | RaisedKeyError key => "'" ++ key ++ "'"
  | RaisedExn e => exn_text e
  end.

(** A route answers with a value or with an HTTPException. *)
Definition Route (A : Type) : Type := State W -> (HTTPException + A) * State W.

(** [except Exception as e: raise HTTPException(status_code=500, detail=str(e))] *)
Definition answer_500 {A} (body : State W -> (InFlight + A) * State W) : Route A :=
  fun st =>
    match body st with
    | (inr a, st') => (inr a, st')
    | (inl x, st') => (inl (mkHTTPException 500 (VStr (str_in_flight x))), st')
    end.

Record IAMPolicyRequest := mkIAMPolicyRequest {
  description : string;
  service : option string;
  resource_arns : option (list string);
  policy_credentials : option AWSCredentials   (* awsCredentials *)
}.

Record IAMPolicyResponse := mkIAMPolicyResponse {
  policy_document : list (string * Val);
  explanation : option string;
  warnings : list string;
  policy_requiresCredentials : option bool
}.

(** An [Optional[AWSCredentials]] as the agents receive it. *)
Definition credentials_value (c : option AWSCredentials) : Val :=
  match c with
  | Some c => VCreds c
  | None => VNone
  end.

(** The [try] block of [POST /suggest-iam-policy]. *)
Definition suggest_iam_policy_try (request : IAMPolicyRequest)
  : State W -> (InFlight + IAMPolicyResponse) * State W :=
  fun st =>
    match BedrockAgent.suggest_iam_policy (description request)
            (credentials_value (policy_credentials request)) st with
    | (inl e, st') => (inl (RaisedExn e), st')
    | (inr policy_suggestion, st') =>
        let respond :=
          match validate_policy_document policy_suggestion with
          | inl text => (inl (RaisedExn (mkExn ValidationError text)), st')
          | inr document =>
              (inr (mkIAMPolicyResponse document
                      (Some "Policy generated based on provided description") [] None),
               st')
          end in
        match policy_suggestion with
        | VDict d =>
            if mem "error" (dict_keys d) then
              match dict_get "response" d with
              | Some reply => (inl (RaisedHTTP (mkHTTPException 400 reply)), st')
              | None => (inl (RaisedKeyError "response"), st')
              end
            else respond
        | _ => respond
        end
    end.

Definition suggest_iam_policy (request : IAMPolicyRequest) : Route IAMPolicyResponse :=
  answer_500 (suggest_iam_policy_try request).

(** [POST /validate-aws-operation]: the body is a dict, the credentials are
    what it holds under ['awsCredentials']. *)
Definition validate_aws_operation (operation : list (string * Val)) : Route Val :=
  answer_500
    (fun st =>
       match BedrockAgent.validate_aws_operation (VDict operation)
               (dict_get_default "awsCredentials" VNone operation) st with
       | (inl e, st') => (inl (RaisedExn e), st')
       | (inr validation_result, st') => (inr validation_result, st')
       end).

(** [except Exception as e] of the outer [try] of [chat] *)
Definition unexpected (text : string) : HTTPException :=
  mkHTTPException 500 (VStr ("An unexpected error occurred: " ++ text)).

(** Naming an absent attribute of [boto3.exceptions] in an [except] clause
    raises this while the clauses are tried. *)
Definition no_module_attribute (name : string) : string :=
  "module 'boto3.exceptions' has no attribute '" ++ name ++ "'".

Definition credentials_response (text : string) : ChatResponse :=
  mkChatResponse text [] [] None (Some true) None.

(** The [except] clauses of the inner [try] of [chat], in their order, for
    the exception [e] of [process_request]; an HTTPException they raise
    passes the outer [try] unchanged. *)
Definition chat_except (e : Exn) : HTTPException + ChatResponse :=
  match exn_class e with
  | AuthenticationError => inl (mkHTTPException 401 (VStr "Invalid OpenAI API key"))
  | RateLimitError =>
      inl (mkHTTPException 429
             (VStr "OpenAI rate limit exceeded. Please try again later."))
  | BadRequestError =>
      inl (mkHTTPException 400 (VStr ("Invalid request to OpenAI API: " ++ exn_text e)))
  | APIError => inl (mkHTTPException 500 (VStr ("OpenAI API error: " ++ exn_text e)))
  | other =>
      if negb (boto3_exceptions_has "BotoCoreError") then
        inl (unexpected (no_module_attribute "BotoCoreError"))
      else
        match other with
        | BotoCoreError =>
            inl (mkHTTPException 500 (VStr ("AWS API error: " ++ exn_text e)))
        | _ =>
            if negb (boto3_exceptions_has "ClientError") then
              inl (unexpected (no_module_attribute "ClientError"))
            else
              match other with
              | ClientError error_code =>
                  if error_code =? "InvalidClientTokenId" then
                    inr (credentials_response
                           "Your AWS credentials appear to be invalid. Please provide valid credentials.")
                  else if error_code =? "AccessDenied" then
                    inr (credentials_response
                           "Your AWS credentials don't have sufficient permissions for this operation.")
                  else inl (mkHTTPException 500 (VStr ("AWS error: " ++ exn_text e)))
              | _ => inl (mkHTTPException 500 (VStr (exn_text e)))
              end
        end
  end.

(** [POST /chat], with what it makes of an exception. *)
Definition chat (request : Main.ChatRequest) : Route ChatResponse :=
  fun st =>
    match Main.chat request st with
    | (inr response, st') => (inr response, st')
    | (inl e, st') => (chat_except e, st')
    end.

End Routes.
End Routes.

(* ================================================================== *)
(** ** Vocabulary of further properties *)
(* ================================================================== *)

Section MoreVocabulary.
Context {PY : PythonRuntime} {W : Type} {SDK : AWSSDK W} {AI : OpenAIClient W}.

Import AWSTools OrchestratorAgent.

Definition credentials_eqb (a b : AWSCredentials) : bool :=
  (accessKeyId a =? accessKeyId b)
  && (secretAccessKey a =? secretAccessKey b)
  && (region a =? region b).

(** The event, if it is a call to boto3 or AWS, is made with [c]. *)
Definition made_with (c : AWSCredentials) (ev : Event) : bool :=
  match ev with
  | BotoSession c' => credentials_eqb c' c
  | BotoClient session _ => credentials_eqb session c
  | S3ListBuckets cl
  | S3ListObjectsV2 cl _
  | EC2DescribeInstances cl
  | IAMGetRole cl _
  | IAMListAttachedRolePolicies cl _
  | STSGetCallerIdentity cl
  | BedrockInvokeModel cl _ _ => credentials_eqb (client_session cl) c
  | ChatCompletionsCreate _ _ _ | LogExecuting _ _ | Raised _ => true
  end.

Definition any_event (ev : Event) : bool := true.

(** The keyword arguments a call receives from [arguments]. *)
Definition kwargs_of (arguments : Val) : list (string * Val) :=
  match arguments with
  | VDict d => d
  | _ => []
  end.

(** All the objects of the pages of a listing. *)
Definition contents (pages : list Page) : list Z :=
  concat (map (fun page => match page with Some objs => objs | None => [] end) pages).

Definition total (sizes : list Z) : Z := fold_right Z.add 0%Z sizes.

(** An entry of [aws_resources_affected] names an operation and holds its
    parameters, with no ['credentials'] among them. *)
Definition clean_entry (entry : Val) : Prop :=
  exists name parameters,
    entry = VDict [("operation", VStr name); ("parameters", VDict parameters)]
    /\ mem "credentials" (dict_keys parameters) = false.

(** An entry of the [data] of [get_s3_bucket_sizes]. *)
Definition size_entry (row : string * Z) : Val :=
  VDict [("name", VStr (fst row));
         ("size_bytes", VInt (snd row));
         ("size_mb", VFloat (py_round_mb (snd row)))].

(** The text the generic handler of an operation puts before [str(e)]. *)
Definition error_prefix (op : Operation) : string :=
  match op with
  | GetS3BucketSizes => "Error getting S3 bucket sizes: "
  | ListEC2Instances => "Error listing EC2 instances: "
  | DescribeIAMRole _ => "Error describing IAM role: "
  | GetS3BucketFileCount _ => "Error counting S3 files: "
  end.

(** The four operations [AWSTools] defines. *)
Definition read_operations : list string :=
  ["get_s3_bucket_sizes"; "list_ec2_instances"; "describe_iam_role";
   "get_s3_bucket_file_count"].

(** The caption [_invoke_bedrock] gives an exception of the provider. *)
Definition bedrock_caption (e : Exn) : string :=
  match exn_class e with
  | ClientError error_code =>
      if error_code =? "AccessDeniedException" then
        "Access denied to AWS Bedrock. Please check your IAM permissions."
      else if error_code =? "ValidationException" then
        "Invalid request to Bedrock: " ++ exn_text e
      else if error_code =? "ThrottlingException" then
        "AWS Bedrock request was throttled. Please try again later."
      else "AWS Bedrock error: " ++ exn_text e
  | BotoCoreError => "AWS Bedrock connection error: " ++ exn_text e
  | _ => exn_text e
  end.

(** What [_invoke_bedrock] raises when the credentials are None or falsy. *)
Definition credentials_required : Exn :=
  Exception "Error in _invoke_bedrock: AWS credentials are required for this operation".

(** The value is an [AWSCredentials] object, not a value of a JSON body. *)
Definition is_credentials_object (v : Val) : bool :=
  match v with
  | VCreds _ => true
  | _ => false
  end.

Definition is_invoke_model (ev : Event) : bool :=
  match ev with
  | BedrockInvokeModel _ _ _ => true
  | _ => false
  end.

Definition is_system (m : OpenAIMessage) : bool :=
  match m with
  | ChatMsg SYSTEM _ => true
  | _ => false
  end.

End MoreVocabulary.

(* ================================================================== *)
(** ** What the SDK answered *)
(* ================================================================== *)

(** To speak of what AWS answered, apart from what the program made of it,
    the SDK is run over a world that keeps, next to its own, the exceptions
    its requests have raised, in their order. *)
Section Recording.
Context {PY : PythonRuntime} {W : Type}.

(** A call that raises nothing leaves the record as it is. *)
Definition keep {A} (f : W -> A * W) (wl : W * list Exn) : A * (W * list Exn) :=
  let (a, w') := f (fst wl) in (a, (w', snd wl)).

(** A request: the exception it raises, if any, is recorded. *)
Definition note {A} (f : W -> (Exn + A) * W) (wl : W * list Exn)
  : (Exn + A) * (W * list Exn) :=
  match f (fst wl) with
  | (inl e, w') => (inl e, (w', snd wl ++ [e])%list)
  | (inr a, w') => (inr a, (w', snd wl))
  end.

(** A paginated request: the exception that ends the iteration, if any, is
    recorded. *)
Definition note_pages (f : W -> (list Page * option Exn) * W) (wl : W * list Exn)
  : (list Page * option Exn) * (W * list Exn) :=
  match f (fst wl) with
  | ((pages, Some e), w') => ((pages, Some e), (w', snd wl ++ [e])%list)
  | ((pages, None), w') => ((pages, None), (w', snd wl))
  end.

Definition recording (SDK : AWSSDK W) : AWSSDK (W * list Exn) := {|
  boto3_Session := fun c => keep (boto3_Session c);
  session_client := fun c service => keep (session_client c service);
  list_buckets := fun cl => note (list_buckets cl);
  paginate_list_objects_v2 := fun cl bucket =>
    note_pages (paginate_list_objects_v2 cl bucket);
  describe_instances := fun cl => note (describe_instances cl);
  get_role := fun cl role_name => note (get_role cl role_name);
  list_attached_role_policies := fun cl role_name =>
    note (list_attached_role_policies cl role_name);
  get_caller_identity := fun cl => note (get_caller_identity cl);
  invoke_model := fun cl model_id request => note (invoke_model cl model_id request)
|}.

(** A request the SDK served between the states [st] and [st'] raised [e]. *)
Definition sdk_raised (st st' : State (W * list Exn)) (e : Exn) : Prop :=
  exists errs,
    snd (world st') = (snd (world st) ++ errs)%list /\ In e errs.

(** The exceptions of the [Raised] events of a trace. *)
Definition raised_of (evs : list Event) : list Exn :=
  flat_map (fun ev => match ev with Raised e => [e] | _ => [] end) evs.

(** [m], run on a recording SDK, adds a [Raised e] to the trace for each
    exception the SDK records, and for nothing else. *)
Definition noted {A} (m : M (W * list Exn) A) : Prop :=
  forall st, exists evs,
    trace (snd (m st)) = (trace st ++ evs)%list
    /\ snd (world (snd (m st))) = (snd (world st) ++ raised_of evs)%list.

End Recording.

Section Listings.
Context {PY : PythonRuntime} {W : Type} {SDK : AWSSDK W}.

(** What the SDK answers when the objects of [buckets] are listed one
    bucket after the other from the world [w]: the pages of each listing,
    or nothing when a listing raises. *)
Fixpoint listings (s3 : Client) (buckets : list Val) (w : W)
  : option (list (list Page)) * W :=
  match buckets with
  | [] => (Some [], w)
  | bucket :: rest =>
      match paginate_list_objects_v2 s3 bucket w with
      | ((pages, None), w1) =>
          match listings s3 rest w1 with
          | (Some more, w2) => (Some (pages :: more), w2)
          | (None, w2) => (None, w2)
          end
      | ((_, Some _), w1) => (None, w1)
      end
  end.

(** The entry [get_s3_bucket_file_count] makes for a bucket whose listing
    came as [pages]. *)
Definition stat_of (bucket : Val) (pages : list Page) : AWSTools.BucketStat :=
  AWSTools.mkBucketStat bucket (length (contents pages)) (total (contents pages))
                        (py_round_mb (total (contents pages))).

End Listings.

Section Forgetting.
Context {PY : PythonRuntime} {W : Type}.

(** The state without the record. *)
Definition forget (st : State (W * list Exn)) : State W :=
  mkState (fst (world st)) (trace st) (tools_session st) (bedrock_session st)
          (bedrock_model_id st).

(** [m'], on the recording SDK, does what [m] does on the SDK itself. *)
Definition same_run {A} (m : M W A) (m' : M (W * list Exn) A) : Prop :=
  forall st, m (forget st) = (fst (m' st), forget (snd (m' st))).

End Forgetting.

(* ================================================================== *)
(** ** Further cases on the concrete world *)
(* ================================================================== *)

Module Cases.
Import Scenario.
#[local] Existing Instance python.

(** A second account, the same but for two reservations of instances that
    its keys may list. *)
Definition web : Instance :=
  mkInstance "i-0a1" "t3.micro" "running" (Some "203.0.113.7") (Some "10.0.0.7").
Definition worker : Instance :=
  mkInstance "i-0b2" "t3.large" "stopped" None (Some "10.0.0.8").
Definition batch : Instance :=
  mkInstance "i-0c3" "c5.xlarge" "running" None None.

Definition fleet : @AWSSDK python nat := {|
  boto3_Session := @boto3_Session python nat aws;
  session_client := @session_client python nat aws;
  list_buckets := @list_buckets python nat aws;
  paginate_list_objects_v2 := @paginate_list_objects_v2 python nat aws;
  describe_instances := fun cl w =>
    (if known cl then inr [[web]; [worker; batch]]
     else inl (unknown_key "DescribeInstances"), S w);
  get_role := @get_role python nat aws;
  list_attached_role_policies := @list_attached_role_policies python nat aws;
  get_caller_identity := @get_caller_identity python nat aws;
  invoke_model := @invoke_model python nat aws
|}.

(** [str(e)] of an HTTPException: the status, a colon, the detail. *)
Definition str_HTTPException (status : nat) (detail : Value Z) : string :=
  str_of_nat status ++ ": " ++ py_str detail.

(** [policy_document: Dict[str, Any]] accepts a dict. *)
Definition validate_policy_document (v : Value Z) : string + list (string * Value Z) :=
  match v with
  | VDict d => inr d
  | _ => inl "1 validation error for IAMPolicyResponse"
  end.

(** The body of a request to validate an operation, with the credentials
    as a JSON object. *)
Definition validation_body : list (string * Value Z) :=
  [("operation", VStr "create_s3_bucket");
   ("awsCredentials",
    VDict [("accessKeyId", VStr "AKIAALICE");
           ("secretAccessKey", VStr "secret");
           ("region", VStr "ap-south-1")])].

(** The state after start-up, over a world that also records what the
    SDK raises. *)
Definition fresh_recording : @State python (nat * list Exn) :=
  mkState (0%nat, []) [] None None "anthropic.claude-v2".

Definition call_admin : ToolCall :=
  mkToolCall "call_6" "describe_iam_role" admin_arguments.

(** A model that asks for the role [admin], whatever it is told. *)
Definition analyst : OpenAIClient nat := {|
  chat_completions_create := fun _ _ with_tools w =>
    (match with_tools with
     | Some _ => inr (mkCompletion None [call_admin])
     | None => inr (mkCompletion (Some "Here is what I found.") [])
     end, S w)
|}.

End Cases.
(* ================================================================== *)
(** ** The monad *)
(* ================================================================== *)

Section MonadFacts.
Context {PY : PythonRuntime} {W : Type}.

Lemma bind_inr {A B} (m : M W A) (k : A -> M W B) st b st' :
  bind m k st = (inr b, st') ->
  exists a st1, m st = (inr a, st1) /\ k a st1 = (inr b, st').
Proof.
  unfold bind. destruct (m st) as [[e | a] st1]; intros H.
  - discriminate H.
  - exists a, st1. split; [reflexivity | exact H].
Qed.

Lemma bind_returns {A B} (m : M W A) (k : A -> M W B) st a st1 :
  m st = (inr a, st1) -> bind m k st = k a st1.
Proof. intros H. unfold bind. rewrite H. reflexivity. Qed.

Lemma bind_raises {A B} (m : M W A) (k : A -> M W B) st e st1 :
  m st = (inl e, st1) -> bind m k st = (inl e, st1).
Proof. intros H. unfold bind. rewrite H. reflexivity. Qed.

Lemma try_except_returns {A} (m : M W A) h st a st1 :
  m st = (inr a, st1) -> try_except m h st = (inr a, st1).
Proof. intros H. unfold try_except. rewrite H. reflexivity. Qed.

Lemma try_except_raises {A} (m : M W A) h st e st1 :
  m st = (inl e, st1) -> try_except m h st = h e st1.
Proof. intros H. unfold try_except. rewrite H. reflexivity. Qed.

Lemma ret_inv {A} (a b : A) (st st' : State W) :
  ret a st = (inr b, st') -> a = b /\ st = st'.
Proof. unfold ret. intros H. inversion H. split; reflexivity. Qed.

End MonadFacts.

Tactic Notation "bind_inv" hyp(H) "as" ident(a) ident(st) ident(Ha) :=
  apply bind_inr in H; destruct H as (a & st & Ha & H).

Ltac ret_inv H :=
  apply ret_inv in H;
  let E := fresh "E" in
  destruct H as [E ?]; try (inversion E; clear E); subst.

(* ================================================================== *)
(** ** The responses of the tools *)
(* ================================================================== *)

Section ToolResponses.
Context {PY : PythonRuntime} {W : Type} {SDK : AWSSDK W}.
Import AWSTools.

Lemma well_formed_intro success data text requires_credentials :
  (requires_credentials = true -> success = false) ->
  well_formed (mkAWSResponse success data (Some text) requires_credentials).
Proof. intros H. split; [exists text; reflexivity | exact H]. Qed.

Lemma get_s3_bucket_sizes_except_well_formed e :
  well_formed (get_s3_bucket_sizes_except e).
Proof.
  unfold get_s3_bucket_sizes_except.
  destruct (exn_class e); try (apply well_formed_intro; reflexivity).
  repeat match goal with
         | |- context [if ?b then _ else _] => destruct b
         end; apply well_formed_intro; reflexivity.
Qed.

Lemma list_ec2_instances_except_well_formed e :
  well_formed (list_ec2_instances_except e).
Proof.
  unfold list_ec2_instances_except.
  destruct (exn_class e); try (apply well_formed_intro; reflexivity).
  repeat match goal with
         | |- context [if ?b then _ else _] => destruct b
         end; apply well_formed_intro; reflexivity.
Qed.

Lemma describe_iam_role_except_well_formed e :
  well_formed (describe_iam_role_except e).
Proof.
  unfold describe_iam_role_except.
  destruct (exn_class e); try (apply well_formed_intro; reflexivity).
  repeat match goal with
         | |- context [if ?b then _ else _] => destruct b
         end; apply well_formed_intro; reflexivity.
Qed.

Lemma get_s3_bucket_sizes_try_well_formed c st r st' :
  get_s3_bucket_sizes_try c st = (inr r, st') -> well_formed r.
Proof.
  unfold get_s3_bucket_sizes_try. intros H.
  bind_inv H as s3 st1 H1. bind_inv H as bs st2 H2. bind_inv H as xs st3 H3.
  ret_inv H. apply well_formed_intro. discriminate.
Qed.

Lemma list_ec2_instances_try_well_formed c st r st' :
  list_ec2_instances_try c st = (inr r, st') -> well_formed r.
Proof.
  unfold list_ec2_instances_try. intros H.
  bind_inv H as ec2 st1 H1. bind_inv H as rs st2 H2.
  ret_inv H. apply well_formed_intro. discriminate.
Qed.

Lemma describe_iam_role_try_well_formed n c st r st' :
  describe_iam_role_try n c st = (inr r, st') -> well_formed r.
Proof.
  unfold describe_iam_role_try. intros H.
  bind_inv H as iam st1 H1. bind_inv H as rl st2 H2. bind_inv H as ps st3 H3.
  ret_inv H. apply well_formed_intro. discriminate.
Qed.

Lemma no_such_bucket_well_formed b : well_formed (no_such_bucket b).
Proof. apply well_formed_intro. reflexivity. Qed.

Lemma count_bucket_response s3 b st resp st' :
  count_bucket s3 b st = (inr (inl resp), st') -> resp = no_such_bucket b.
Proof.
  unfold count_bucket, try_except. intros H.
  destruct (bind (paginate s3 b) _ st) as [[e | x] st1] eqn:Hb.
  - destruct (exn_class e); try discriminate H.
    destruct (code =? "NoSuchBucket"); [| discriminate H].
    ret_inv H. reflexivity.
  - bind_inv Hb as pages st2 Hp. ret_inv Hb. inversion H.
Qed.

Lemma count_buckets_response s3 bs : forall acc st resp st',
  count_buckets s3 bs acc st = (inr (inl resp), st') ->
  exists b, resp = no_such_bucket b.
Proof.
  induction bs as [| b bs IH]; intros acc st resp st' H; cbn [count_buckets] in H.
  - ret_inv H.
  - bind_inv H as a st1 H1. destruct a as [resp0 | stat].
    + ret_inv H. exists b.
      eapply count_bucket_response; eassumption.
    + eapply IH; eassumption.
Qed.

Lemma get_s3_bucket_file_count_try_well_formed s3 b st r st' :
  get_s3_bucket_file_count_try s3 b st = (inr r, st') -> well_formed r.
Proof.
  unfold get_s3_bucket_file_count_try. intros H.
  bind_inv H as bs st1 H1. bind_inv H as a st2 H2.
  destruct a as [resp | stats]; ret_inv H.
  - apply count_buckets_response in H2. destruct H2 as [b' ->].
    apply no_such_bucket_well_formed.
  - apply well_formed_intro. discriminate.
Qed.

Lemma get_s3_bucket_file_count_except_well_formed b e (st : State W) r st' :
  get_s3_bucket_file_count_except b e st = (inr r, st') -> well_formed r.
Proof.
  unfold get_s3_bucket_file_count_except.
  destruct (exn_class e); try discriminate.
  repeat match goal with
         | |- context [if ?b then _ else _] => destruct b
         end; intros H; ret_inv H;
    first [apply no_such_bucket_well_formed | apply well_formed_intro; reflexivity].
Qed.

(** A tool never raises, and what it returns is well formed. *)
Lemma invoke_returns op credentials st :
  exists r st', invoke op credentials st = (inr r, st') /\ well_formed r.
Proof.
  destruct op as [ | | role_name | bucket_name]; cbn [invoke].
  - unfold get_s3_bucket_sizes. destruct (truthy credentials); cbn [negb].
    + unfold try_except.
      destruct (get_s3_bucket_sizes_try credentials st) as [[e | r] st'] eqn:Hb.
      * eexists _, _. split; [reflexivity | apply get_s3_bucket_sizes_except_well_formed].
      * eexists _, _. split; [reflexivity |].
        eapply get_s3_bucket_sizes_try_well_formed; eassumption.
    + eexists _, _. split; [reflexivity | apply well_formed_intro; reflexivity].
  - unfold list_ec2_instances. destruct (truthy credentials); cbn [negb].
    + unfold try_except.
      destruct (list_ec2_instances_try credentials st) as [[e | r] st'] eqn:Hb.
      * eexists _, _. split; [reflexivity | apply list_ec2_instances_except_well_formed].
      * eexists _, _. split; [reflexivity |].
        eapply list_ec2_instances_try_well_formed; eassumption.
    + eexists _, _. split; [reflexivity | apply well_formed_intro; reflexivity].
  - unfold describe_iam_role. destruct (truthy credentials); cbn [negb].
    + unfold try_except.
      destruct (describe_iam_role_try role_name credentials st) as [[e | r] st'] eqn:Hb.
      * eexists _, _. split; [reflexivity | apply describe_iam_role_except_well_formed].
      * eexists _, _. split; [reflexivity |].
        eapply describe_iam_role_try_well_formed; eassumption.
    + eexists _, _. split; [reflexivity | apply well_formed_intro; reflexivity].
  - unfold get_s3_bucket_file_count. destruct (truthy credentials); cbn [negb].
    + unfold try_except at 1.
      match goal with
      | |- context [match ?m st with _ => _ end] => destruct (m st) as [[e | r] st'] eqn:Hb
      end.
      * eexists _, _. split; [reflexivity | apply well_formed_intro; reflexivity].
      * eexists _, _. split; [reflexivity |].
        bind_inv Hb as s3 st1 H1. unfold try_except in Hb.
        destruct (get_s3_bucket_file_count_try s3 bucket_name st1) as [[e | r0] st2] eqn:Ht.
        -- eapply get_s3_bucket_file_count_except_well_formed; eassumption.
        -- inversion Hb; subst.
           eapply get_s3_bucket_file_count_try_well_formed; eassumption.
    + eexists _, _. split; [reflexivity | apply well_formed_intro; reflexivity].
Qed.

End ToolResponses.

(* ================================================================== *)
(** ** What a computation adds to the trace *)
(* ================================================================== *)

Section Emits.
Context {PY : PythonRuntime} {W : Type}.
Variable p : Event -> bool.

Lemma emits_ret {A} (a : A) : emits (W := W) p (ret a).
Proof. intros st. exists []. split; [symmetry; apply app_nil_r | reflexivity]. Qed.

Lemma emits_raise {A} e : emits (W := W) p (@raise _ _ A e).
Proof. intros st. exists []. split; [symmetry; apply app_nil_r | reflexivity]. Qed.

Lemma emits_bind {A B} (m : M W A) (k : A -> M W B) :
  emits p m -> (forall a, emits p (k a)) -> emits p (bind m k).
Proof.
  intros Hm Hk st. unfold bind.
  destruct (Hm st) as (evs1 & E1 & P1).
  destruct (m st) as [[e | a] st1]; cbn [snd] in *.
  - exists evs1. split; assumption.
  - destruct (Hk a st1) as (evs2 & E2 & P2).
    exists (evs1 ++ evs2)%list. split.
    + rewrite E2, E1. symmetry. apply app_assoc.
    + rewrite forallb_app, P1, P2. reflexivity.
Qed.

Lemma emits_try_except {A} (m : M W A) h :
  emits p m -> (forall e, emits p (h e)) -> emits p (try_except m h).
Proof.
  intros Hm Hh st. unfold try_except.
  destruct (Hm st) as (evs1 & E1 & P1).
  destruct (m st) as [[e | a] st1]; cbn [snd] in *.
  - destruct (Hh e st1) as (evs2 & E2 & P2).
    exists (evs1 ++ evs2)%list. split.
    + rewrite E2, E1. symmetry. apply app_assoc.
    + rewrite forallb_app, P1, P2. reflexivity.
  - exists evs1. split; assumption.
Qed.

Lemma emits_call {A} ev (f : W -> A * W) : p ev = true -> emits p (call ev f).
Proof.
  intros Hp st. unfold call. destruct (f (world st)) as [a w'].
  exists [ev]. split; [reflexivity | cbn; rewrite Hp; reflexivity].
Qed.

Lemma emits_log ev : p ev = true -> emits (W := W) p (log ev).
Proof.
  intros Hp st. exists [ev]. split; [reflexivity | cbn; rewrite Hp; reflexivity].
Qed.

Lemma emits_raised {A} e : p (Raised e) = true -> emits (W := W) p (@raised _ _ A e).
Proof.
  intros Hp. unfold raised. apply emits_bind.
  - apply emits_log, Hp.
  - intros _. apply emits_raise.
Qed.

Lemma emits_call_exn {A} ev (f : W -> (Exn + A) * W) :
  p ev = true -> (forall e, p (Raised e) = true) -> emits p (call_exn ev f).
Proof.
  intros Hp Hr. unfold call_exn. apply emits_bind.
  - apply emits_call, Hp.
  - intros [e | a]; [apply emits_raised, Hr | apply emits_ret].
Qed.

Lemma emits_for_each {A B} (f : A -> M W B) xs :
  (forall x, emits p (f x)) -> emits p (for_each f xs).
Proof.
  intros Hf. induction xs as [| x xs IH]; cbn [for_each].
  - apply emits_ret.
  - apply emits_bind; [apply Hf |]. intros y.
    apply emits_bind; [apply IH |]. intros ys. apply emits_ret.
Qed.

Lemma emits_silent {A} (m : M W A) :
  (forall st, trace (snd (m st)) = trace st) -> emits p m.
Proof.
  intros H st. exists []. split; [rewrite H; symmetry; apply app_nil_r | reflexivity].
Qed.

Lemma emits_get_tools_session : emits (W := W) p get_tools_session.
Proof. apply emits_silent. reflexivity. Qed.

Lemma emits_set_tools_session c : emits (W := W) p (set_tools_session c).
Proof. apply emits_silent. reflexivity. Qed.

Lemma emits_get_bedrock_session : emits (W := W) p get_bedrock_session.
Proof. apply emits_silent. reflexivity. Qed.

Lemma emits_set_bedrock_session c : emits (W := W) p (set_bedrock_session c).
Proof. apply emits_silent. reflexivity. Qed.

Lemma emits_get_model_id : emits (W := W) p get_model_id.
Proof. apply emits_silent. reflexivity. Qed.

End Emits.

(** One step of a proof that a computation emits only [p]-events: the
    structure of the computation decides the lemma. *)
Ltac emits_step :=
  match goal with
  | |- emits _ (ret _) => apply emits_ret
  | |- emits _ (raise _) => apply emits_raise
  | |- emits _ (bind _ _) => apply emits_bind; [| intros ?]
  | |- emits _ (try_except _ _) => apply emits_try_except; [| intros ?]
  | |- emits _ (call _ _) => apply emits_call; reflexivity
  | |- emits _ (log _) => apply emits_log; reflexivity
  | |- emits _ (raised _) => apply emits_raised; reflexivity
  | |- emits _ (call_exn _ _) => apply emits_call_exn; [reflexivity | intros ?; reflexivity]
  | |- emits _ get_tools_session => apply emits_get_tools_session
  | |- emits _ (set_tools_session _) => apply emits_set_tools_session
  | |- emits _ get_bedrock_session => apply emits_get_bedrock_session
  | |- emits _ (set_bedrock_session _) => apply emits_set_bedrock_session
  | |- emits _ get_model_id => apply emits_get_model_id
  | |- emits _ (for_each _ _) => apply emits_for_each; intros ?
  | |- emits _ (if ?b then _ else _) => destruct b
  | |- emits _ (match ?x with _ => _ end) => destruct x
  end.

Section ToolEvents.
Context {PY : PythonRuntime} {W : Type} {SDK : AWSSDK W}.
Import AWSTools.

Lemma emits__init_session c : emits tool_event (_init_session c).
Proof. unfold _init_session. repeat emits_step. Qed.

Lemma emits__get_client service c : emits tool_event (_get_client service c).
Proof.
  unfold _get_client. apply emits_bind; [apply emits__init_session |].
  intros error. repeat emits_step.
Qed.

Lemma emits_paginate s3 b : emits tool_event (paginate s3 b).
Proof. unfold paginate. repeat emits_step. Qed.

Lemma emits_count_buckets s3 bs : forall acc, emits tool_event (count_buckets s3 bs acc).
Proof.
  induction bs as [| b bs IH]; intros acc; cbn [count_buckets].
  - apply emits_ret.
  - apply emits_bind.
    + unfold count_bucket. apply emits_try_except.
      * apply emits_bind; [apply emits_paginate | intros ?; apply emits_ret].
      * intros e. repeat emits_step.
    + intros [resp | stat]; [apply emits_ret | apply IH].
Qed.

(** A tool only talks to AWS: it adds no model call and no dispatch line. *)
Lemma emits_invoke op credentials : emits tool_event (invoke op credentials).
Proof.
  destruct op as [ | | role_name | bucket_name]; cbn [invoke].
  - unfold get_s3_bucket_sizes.
    destruct (negb (truthy credentials)); [apply emits_ret |].
    apply emits_try_except; [| intros e; apply emits_ret].
    unfold get_s3_bucket_sizes_try.
    apply emits_bind; [apply emits__get_client | intros s3].
    apply emits_bind; [repeat emits_step | intros names].
    apply emits_bind; [| intros ?; apply emits_ret].
    apply emits_for_each. intros name. unfold bucket_size_entry.
    apply emits_bind; [apply emits_paginate | intros ?; apply emits_ret].
  - unfold list_ec2_instances.
    destruct (negb (truthy credentials)); [apply emits_ret |].
    apply emits_try_except; [| intros e; apply emits_ret].
    unfold list_ec2_instances_try.
    apply emits_bind; [apply emits__get_client | intros ec2].
    repeat emits_step.
  - unfold describe_iam_role.
    destruct (negb (truthy credentials)); [apply emits_ret |].
    apply emits_try_except; [| intros e; apply emits_ret].
    unfold describe_iam_role_try.
    apply emits_bind; [apply emits__get_client | intros iam].
    repeat emits_step.
  - unfold get_s3_bucket_file_count.
    destruct (negb (truthy credentials)); [apply emits_ret |].
    apply emits_try_except; [| intros e; apply emits_ret].
    apply emits_bind; [apply emits__get_client | intros s3].
    apply emits_try_except.
    + unfold get_s3_bucket_file_count_try.
      apply emits_bind; [repeat emits_step | intros bs].
      apply emits_bind; [apply emits_count_buckets |].
      intros [resp | stats]; apply emits_ret.
    + intros e. unfold get_s3_bucket_file_count_except. repeat emits_step.
Qed.

End ToolEvents.

(* ================================================================== *)
(** ** Where a raised exception comes from *)
(* ================================================================== *)

Section Sound.
Context {PY : PythonRuntime} {W : Type}.

Lemma quiet_app evs1 evs2 :
  quiet evs1 = true -> quiet evs2 = true -> quiet (evs1 ++ evs2) = true.
Proof. unfold quiet. intros H1 H2. rewrite forallb_app, H1, H2. reflexivity. Qed.

Lemma quiet_last evs e : quiet (evs ++ [Raised e]) = false.
Proof.
  unfold quiet. rewrite forallb_app. cbn. apply andb_false_r.
Qed.

(** A trace that grew by quiet events did not grow by a [Raised]. *)
Lemma quiet_not_raised (t : list Event) evs evs' e :
  quiet evs = true -> (t ++ evs)%list = (t ++ evs' ++ [Raised e])%list -> False.
Proof.
  intros Hq H. apply app_inv_head in H. subst evs.
  rewrite quiet_last in Hq. discriminate Hq.
Qed.

(** The last event of a trace is determined. *)
Lemma raised_last (t : list Event) evs evs' e e' :
  (t ++ evs ++ [Raised e])%list = (t ++ evs' ++ [Raised e'])%list -> e = e'.
Proof.
  intros H. apply app_inv_head in H. apply app_inj_tail in H.
  destruct H as [_ H]. inversion H. reflexivity.
Qed.

Lemma sound_ret {A} (a : A) : sound (W := W) (ret a).
Proof. intros st. exists []. split; [reflexivity | symmetry; apply app_nil_r]. Qed.

Lemma sound_raise {A} e : is_client_error e = false -> sound (W := W) (@raise _ _ A e).
Proof.
  intros He st. exists []. split; [reflexivity |].
  right. split; [symmetry; apply app_nil_r | exact He].
Qed.

Lemma sound_bind {A B} (m : M W A) (k : A -> M W B) :
  sound m -> (forall a, sound (k a)) -> sound (bind m k).
Proof.
  intros Hm Hk st. unfold bind.
  destruct (Hm st) as (evs1 & Q1 & E1).
  destruct (m st) as [[e | a] st1].
  - exists evs1. split; assumption.
  - destruct (Hk a st1) as (evs2 & Q2 & E2).
    exists (evs1 ++ evs2)%list. split; [apply quiet_app; assumption |].
    destruct (k a st1) as [[e | b] st2].
    + destruct E2 as [E2 | [E2 He]].
      * left. rewrite E2, E1. rewrite <- !app_assoc. reflexivity.
      * right. split; [rewrite E2, E1; symmetry; apply app_assoc | exact He].
    + rewrite E2, E1. symmetry. apply app_assoc.
Qed.

Lemma sound_call {A} ev (f : W -> A * W) : is_raised ev = false -> sound (call ev f).
Proof.
  intros Hp st. unfold call. destruct (f (world st)) as [a w'].
  exists [ev]. split; [unfold quiet; cbn; rewrite Hp; reflexivity | reflexivity].
Qed.

Lemma sound_raised {A} e : sound (W := W) (@raised _ _ A e).
Proof.
  intros st. exists []. split; [reflexivity |]. left. reflexivity.
Qed.

Lemma sound_call_exn {A} ev (f : W -> (Exn + A) * W) :
  is_raised ev = false -> sound (call_exn ev f).
Proof.
  intros Hp. unfold call_exn. apply sound_bind.
  - apply sound_call, Hp.
  - intros [e | a]; [apply sound_raised | apply sound_ret].
Qed.

Lemma sound_for_each {A B} (f : A -> M W B) xs :
  (forall x, sound (f x)) -> sound (for_each f xs).
Proof.
  intros Hf. induction xs as [| x xs IH]; cbn [for_each].
  - apply sound_ret.
  - apply sound_bind; [apply Hf |]. intros y.
    apply sound_bind; [apply IH |]. intros ys. apply sound_ret.
Qed.

Lemma sound_silent {A} (m : M W A) :
  (forall st, exists a, m st = (inr a, st)) -> sound m.
Proof.
  intros H st. exists []. split; [reflexivity |].
  destruct (H st) as [a ->]. symmetry. apply app_nil_r.
Qed.

Lemma sound_get_tools_session : sound (W := W) get_tools_session.
Proof. apply sound_silent. intros st. eexists. reflexivity. Qed.

Lemma sound_set_tools_session c : sound (W := W) (set_tools_session c).
Proof.
  intros st. exists []. split; [reflexivity |]. symmetry. apply app_nil_r.
Qed.

End Sound.

Ltac sound_step :=
  match goal with
  | |- sound (ret _) => apply sound_ret
  | |- sound (raise _) => apply sound_raise; reflexivity
  | |- sound (bind _ _) => apply sound_bind; [| intros ?]
  | |- sound (call _ _) => apply sound_call; reflexivity
  | |- sound (raised _) => apply sound_raised
  | |- sound (call_exn _ _) => apply sound_call_exn; reflexivity
  | |- sound get_tools_session => apply sound_get_tools_session
  | |- sound (set_tools_session _) => apply sound_set_tools_session
  | |- sound (for_each _ _) => apply sound_for_each; intros ?
  | |- sound (if ?b then _ else _) => destruct b
  | |- sound (match ?x with _ => _ end) => destruct x
  end.

Section ToolExceptions.
Context {PY : PythonRuntime} {W : Type} {SDK : AWSSDK W}.
Import AWSTools.

Lemma sound__init_session c : sound (_init_session c).
Proof. unfold _init_session. repeat sound_step. Qed.

Lemma sound__get_client service c : sound (_get_client service c).
Proof.
  unfold _get_client. apply sound_bind; [apply sound__init_session |].
  intros error. repeat sound_step.
Qed.

Lemma sound_paginate s3 b : sound (paginate s3 b).
Proof. unfold paginate. repeat sound_step. Qed.

Lemma sound_get_s3_bucket_sizes_try c : sound (get_s3_bucket_sizes_try c).
Proof.
  unfold get_s3_bucket_sizes_try.
  apply sound_bind; [apply sound__get_client | intros s3].
  apply sound_bind; [repeat sound_step | intros names].
  apply sound_bind; [| intros ?; apply sound_ret].
  apply sound_for_each. intros name. unfold bucket_size_entry.
  apply sound_bind; [apply sound_paginate | intros ?; apply sound_ret].
Qed.

Lemma sound_list_ec2_instances_try c : sound (list_ec2_instances_try c).
Proof.
  unfold list_ec2_instances_try.
  apply sound_bind; [apply sound__get_client | intros ec2].
  repeat sound_step.
Qed.

Lemma sound_describe_iam_role_try n c : sound (describe_iam_role_try n c).
Proof.
  unfold describe_iam_role_try.
  apply sound_bind; [apply sound__get_client | intros iam].
  repeat sound_step.
Qed.

Lemma handled_count_bucket s3 b :
  handled (early_response (A := BucketStat)) (count_bucket s3 b).
Proof.
  intros st. unfold count_bucket, try_except.
  assert (Hs : sound (pages <- paginate s3 b ;;
                      let total_size := pages_size pages in
                      ret (inr (A := AWSResponse)
                             (mkBucketStat b (pages_count pages) total_size
                                           (py_round_mb total_size))))).
  { apply sound_bind; [apply sound_paginate | intros ?; apply sound_ret]. }
  destruct (Hs st) as (evs & Q & E). exists evs. split; [exact Q |].
  match goal with
  | |- context [match ?m st with _ => _ end] => destruct (m st) as [[e | x] st1]
  end.
  - destruct (exn_class e) eqn:Hc; try exact E.
    destruct (code =? "NoSuchBucket") eqn:Hcode; [| exact E].
    cbn [ret]. destruct E as [E | [E He]].
    + right. exists e. split; [exact E |]. split.
      * apply String.eqb_eq in Hcode. subst code. exact Hc.
      * exists b. reflexivity.
    + unfold is_client_error in He. rewrite Hc in He. discriminate He.
  - left. exact E.
Qed.

Lemma handled_count_buckets s3 bs :
  forall acc, handled (early_response (A := list BucketStat)) (count_buckets s3 bs acc).
Proof.
  induction bs as [| b bs IH]; intros acc st; cbn [count_buckets].
  - exists []. split; [reflexivity |]. left. symmetry. apply app_nil_r.
  - unfold bind. destruct (handled_count_bucket s3 b st) as (evs1 & Q1 & E1).
    destruct (count_bucket s3 b st) as [[e | [resp | stat]] st1].
    + exists evs1. split; assumption.
    + exists evs1. split; [exact Q1 |]. cbn [ret].
      destruct E1 as [E1 | (e & E1 & Hc & (b' & Hb))]; [left; exact E1 |].
      right. exists e. split; [exact E1 |]. split; [exact Hc |].
      exists b'. inversion Hb. reflexivity.
    + destruct E1 as [E1 | (e & _ & _ & (b' & Hb))]; [| discriminate Hb].
      destruct (IH (acc ++ [stat])%list st1) as (evs2 & Q2 & E2).
      exists (evs1 ++ evs2)%list. split; [apply quiet_app; assumption |].
      destruct (count_buckets s3 bs (acc ++ [stat]) st1) as [[e | x] st2].
      * destruct E2 as [E2 | [E2 He]].
        -- left. rewrite E2, E1, <- !app_assoc. reflexivity.
        -- right. split; [rewrite E2, E1; symmetry; apply app_assoc | exact He].
      * destruct E2 as [E2 | (e & E2 & Hc & Hx)].
        -- left. rewrite E2, E1. symmetry. apply app_assoc.
        -- right. exists e. split; [| split; assumption].
           rewrite E2, E1, <- !app_assoc. reflexivity.
Qed.

Lemma handled_get_s3_bucket_file_count_try s3 bucket_name :
  handled early_no_such_bucket (get_s3_bucket_file_count_try s3 bucket_name).
Proof.
  intros st. unfold get_s3_bucket_file_count_try.
  assert (Hs : sound (if negb (truthy bucket_name) then
                        response <- call_exn (S3ListBuckets s3) (list_buckets s3) ;;
                        ret (map (@VStr Float) response)
                      else ret [bucket_name])).
  { repeat sound_step. }
  unfold bind at 1.
  destruct (Hs st) as (evs1 & Q1 & E1).
  match goal with
  | |- context [match ?m st with _ => _ end] => destruct (m st) as [[e | bs] st1]
  end.
  - exists evs1. split; assumption.
  - unfold bind.
    destruct (handled_count_buckets s3 bs [] st1) as (evs2 & Q2 & E2).
    exists (evs1 ++ evs2)%list. split; [apply quiet_app; assumption |].
    destruct (count_buckets s3 bs [] st1) as [[e | [resp | stats]] st2].
    + destruct E2 as [E2 | [E2 He]].
      * left. rewrite E2, E1, <- !app_assoc. reflexivity.
      * right. split; [rewrite E2, E1; symmetry; apply app_assoc | exact He].
    + cbn [ret]. destruct E2 as [E2 | (e & E2 & Hc & (b' & Hb))].
      * left. rewrite E2, E1. symmetry. apply app_assoc.
      * right. exists e. split; [rewrite E2, E1, <- !app_assoc; reflexivity |].
        split; [exact Hc |]. exists b'. inversion Hb. reflexivity.
    + cbn [ret]. destruct E2 as [E2 | (e & _ & _ & (b' & Hb))]; [| discriminate Hb].
      left. rewrite E2, E1. symmetry. apply app_assoc.
Qed.

End ToolExceptions.

(* ================================================================== *)
(** ** The tool executor: the claims *)
(* ================================================================== *)

Section ToolClaims.
Context {PY : PythonRuntime} {W : Type} {SDK : AWSSDK W}.
Import AWSTools.

Lemma trace_unchanged (t evs : list Event) e : t = (t ++ evs ++ [Raised e])%list -> False.
Proof.
  intros H. rewrite <- (app_nil_r t) in H at 1. apply app_inv_head in H.
  symmetry in H. apply app_eq_nil in H. destruct H as [_ H]. discriminate H.
Qed.

Lemma quiet__get_client service c :
  emits (fun ev => negb (is_raised ev)) (_get_client service c).
Proof.
  unfold _get_client, _init_session. repeat emits_step.
Qed.

Ltac by_value :=
  unfold mapped, mem, credential_codes, credential_error_message, not_found_code;
  cbn; repeat split; intros; solve [reflexivity | discriminate].

Ltac by_code code :=
  unfold mapped, mem, credential_codes, credential_error_message, not_found_code;
  cbn [existsb success requires_credentials message];
  destruct (String.eqb_spec code "InvalidAccessKeyId") as [-> | ?];
  [| destruct (String.eqb_spec code "SignatureDoesNotMatch") as [-> | ?];
     [| destruct (String.eqb_spec code "AccessDenied") as [-> | ?];
        [| destruct (String.eqb_spec code "NoSuchBucket") as [-> | ?]]]];
  cbn; repeat split; intros; solve [reflexivity | discriminate | congruence].

Lemma get_s3_bucket_sizes_except_mapped e code :
  exn_class e = ClientError code ->
  mapped GetS3BucketSizes code e (get_s3_bucket_sizes_except e).
Proof.
  intros Hc. unfold get_s3_bucket_sizes_except. rewrite Hc. by_code code.
Qed.

Lemma list_ec2_instances_except_mapped e code :
  exn_class e = ClientError code ->
  mapped ListEC2Instances code e (list_ec2_instances_except e).
Proof.
  intros Hc. unfold list_ec2_instances_except. rewrite Hc. by_code code.
Qed.

Lemma describe_iam_role_except_mapped n e code :
  exn_class e = ClientError code ->
  mapped (DescribeIAMRole n) code e (describe_iam_role_except e).
Proof.
  intros Hc. unfold describe_iam_role_except. rewrite Hc. by_code code.
Qed.

Lemma get_s3_bucket_file_count_except_mapped b e code (st : State W) :
  exn_class e = ClientError code ->
  exists r, get_s3_bucket_file_count_except b e st = (inr r, st)
            /\ mapped (GetS3BucketFileCount b) code e r.
Proof.
  intros Hc. unfold get_s3_bucket_file_count_except. rewrite Hc.
  unfold no_such_bucket.
  destruct (String.eqb_spec code "NoSuchBucket") as [-> | ?];
    [eexists; split; [reflexivity | by_value] |].
  unfold mem. cbn [existsb].
  destruct (String.eqb_spec code "InvalidAccessKeyId") as [-> | ?];
    [eexists; split; [reflexivity | by_value] |].
  destruct (String.eqb_spec code "SignatureDoesNotMatch") as [-> | ?];
    [eexists; split; [reflexivity | by_value] |].
  destruct (String.eqb_spec code "AccessDenied") as [-> | ?];
    [eexists; split; [reflexivity | by_value] |].
  eexists; split; [reflexivity | by_code code].
Qed.

Lemma get_s3_bucket_file_count_except_state b e (st : State W) res st' :
  get_s3_bucket_file_count_except b e st = (res, st') -> st' = st.
Proof.
  unfold get_s3_bucket_file_count_except.
  destruct (exn_class e);
    repeat match goal with
           | |- context [if ?c then _ else _] => destruct c
           end;
    intros H; inversion H; reflexivity.
Qed.

(** An operation of the first three kinds: the guarded block is sound and
    one handler maps what it raises. *)
Lemma guarded_mapped op code e (body : M W AWSResponse) (handler : Exn -> AWSResponse)
    (st : State W) r st' evs :
  sound body ->
  (exn_class e = ClientError code -> mapped op code e (handler e)) ->
  try_except body (fun e => ret (handler e)) st = (inr r, st') ->
  trace st' = (trace st ++ evs ++ [Raised e])%list ->
  exn_class e = ClientError code ->
  mapped op code e r.
Proof.
  intros Hs Hh Hrun Htrace Hc. unfold try_except in Hrun.
  destruct (Hs st) as (evs0 & Q & E).
  destruct (body st) as [[e0 | r0] st1].
  - ret_inv Hrun. destruct E as [E | [E _]].
    + rewrite E in Htrace. apply raised_last in Htrace. subst e0. exact (Hh Hc).
    + rewrite E in Htrace. exfalso. eapply quiet_not_raised; eassumption.
  - inversion Hrun; subst. rewrite E in Htrace.
    exfalso. eapply quiet_not_raised; eassumption.
Qed.

(** The mapping, read off the trace: when the run of an operation ends on
    a [Raised e] with a ClientError [e] of code [code], the response is the
    one the handlers make for that code. *)
Lemma raised_error_mapped (op : Operation) (credentials : Val) (st : State W)
    (r : AWSResponse) (st' : State W) (evs : list Event) (e : Exn) (code : string) :
  invoke op credentials st = (inr r, st') ->
  trace st' = (trace st ++ evs ++ [Raised e])%list ->
  exn_class e = ClientError code ->
  success r = false
  /\ requires_credentials r = mem code credential_codes
  /\ (mem code credential_codes = true ->
      message r = Some (credential_error_message op code))
  /\ (mem code credential_codes = false -> not_found_code op code = false ->
      message r = Some ("AWS error: " ++ exn_text e)).
Proof.
  intros Hrun Htrace Hc. change (mapped op code e r).
  destruct op as [ | | role_name | bucket_name]; cbn [invoke] in Hrun.
  - unfold get_s3_bucket_sizes in Hrun. destruct (negb (truthy credentials)).
    + ret_inv Hrun. exfalso. eapply trace_unchanged; eassumption.
    + eapply guarded_mapped; try eassumption.
      * apply sound_get_s3_bucket_sizes_try.
      * apply get_s3_bucket_sizes_except_mapped.
  - unfold list_ec2_instances in Hrun. destruct (negb (truthy credentials)).
    + ret_inv Hrun. exfalso. eapply trace_unchanged; eassumption.
    + eapply guarded_mapped; try eassumption.
      * apply sound_list_ec2_instances_try.
      * apply list_ec2_instances_except_mapped.
  - unfold describe_iam_role in Hrun. destruct (negb (truthy credentials)).
    + ret_inv Hrun. exfalso. eapply trace_unchanged; eassumption.
    + eapply guarded_mapped; try eassumption.
      * apply sound_describe_iam_role_try.
      * apply describe_iam_role_except_mapped.
  - unfold get_s3_bucket_file_count in Hrun. destruct (negb (truthy credentials)).
    + ret_inv Hrun. exfalso. eapply trace_unchanged; eassumption.
    + unfold try_except at 1, bind in Hrun.
      destruct (quiet__get_client "s3" credentials st) as (evs0 & E0 & Q0).
      destruct (_get_client "s3" credentials st) as [[e0 | s3] st1]; cbn [snd] in E0.
      * ret_inv Hrun. rewrite E0 in Htrace.
        exfalso. eapply quiet_not_raised; eassumption.
      * unfold try_except in Hrun.
        destruct (handled_get_s3_bucket_file_count_try s3 bucket_name st1)
          as (evs1 & Q1 & E1).
        destruct (get_s3_bucket_file_count_try s3 bucket_name st1) as [[e1 | r1] st2].
        -- destruct (get_s3_bucket_file_count_except bucket_name e1 st2)
             as [res st3] eqn:Hx.
           pose proof (get_s3_bucket_file_count_except_state _ _ _ Hx) as ->.
           assert (st' = st2) as ->
               by (destruct res; cbn [ret] in Hrun; inversion Hrun; reflexivity).
           destruct E1 as [E1 | [E1 _]].
           ++ assert (e1 = e) as ->.
              { rewrite E1, E0, <- app_assoc, (app_assoc evs0) in Htrace.
                apply raised_last in Htrace. congruence. }
              destruct (get_s3_bucket_file_count_except_mapped bucket_name e st2 Hc)
                as (r2 & Hr2 & Hm).
              rewrite Hr2 in Hx. inversion Hx; subst res.
              inversion Hrun; subst. exact Hm.
           ++ exfalso. rewrite E1, E0, <- app_assoc in Htrace.
              eapply quiet_not_raised; [| exact Htrace].
              apply quiet_app; assumption.
        -- inversion Hrun; subst.
           destruct E1 as [E1 | (e1 & E1 & Hc1 & (b' & ->))].
           ++ exfalso. rewrite E1, E0, <- app_assoc in Htrace.
              eapply quiet_not_raised; [| exact Htrace].
              apply quiet_app; assumption.
           ++ assert (e1 = e) as ->.
              { rewrite E1, E0, <- app_assoc, (app_assoc evs0) in Htrace.
                apply raised_last in Htrace. congruence. }
              assert (code = "NoSuchBucket") as -> by congruence.
              unfold no_such_bucket. by_value.
Qed.

(** C1. Called with no credentials, each of the four operations returns
    [success = False], [requires_credentials = True] and its own prompt for
    credentials, and leaves the state as it was: the world is not touched
    and the trace has no new call. *)
Theorem no_credentials_no_call (op : Operation) (st : State W) :
  invoke op VNone st
  = (inr (mkAWSResponse false VNone (Some (credentials_request op)) true), st).
Proof. destruct op; reflexivity. Qed.

(** C9. Whatever the operation, the credentials and the answers of AWS, the
    tool returns a response, and a response that asks for credentials does
    not report success. *)
Theorem requires_credentials_implies_failure (op : Operation) (credentials : Val)
    (st : State W) :
  exists r st',
    invoke op credentials st = (inr r, st')
    /\ (requires_credentials r = true -> success r = false).
Proof.
  destruct (invoke_returns op credentials st) as (r & st' & Hrun & _ & Hwf).
  exists r, st'. split; assumption.
Qed.

End ToolClaims.

(* ================================================================== *)
(** ** The tool executor and what the SDK answered *)
(* ================================================================== *)

Section InvokeTrace.
Context {PY : PythonRuntime} {W : Type} {SDK : AWSSDK W}.
Import AWSTools.

(** A guarded block that is sound, under a handler that returns. *)
Lemma guarded_trace (body : M W AWSResponse) (handler : Exn -> AWSResponse)
    (st : State W) res st' :
  sound body ->
  try_except body (fun e => ret (handler e)) st = (res, st') ->
  exists evs, quiet evs = true
    /\ (trace st' = (trace st ++ evs)%list
        \/ exists e, trace st' = (trace st ++ evs ++ [Raised e])%list).
Proof.
  intros Hs Hrun. destruct (Hs st) as (evs & Q & E). exists evs. split; [exact Q |].
  unfold try_except in Hrun. destruct (body st) as [[e | r] st1].
  - inversion Hrun; subst.
    destruct E as [E | [E _]]; [right; exists e; exact E | left; exact E].
  - inversion Hrun; subst. left. exact E.
Qed.

(** The events an operation adds hold at most one [Raised], the last. *)
Lemma invoke_trace op credentials (st : State W) res st' :
  invoke op credentials st = (res, st') ->
  exists evs, quiet evs = true
    /\ (trace st' = (trace st ++ evs)%list
        \/ exists e, trace st' = (trace st ++ evs ++ [Raised e])%list).
Proof.
  assert (Hnone : forall a, ret a st = (res, st') ->
             exists evs, quiet evs = true
             /\ (trace st' = (trace st ++ evs)%list
                 \/ exists e, trace st' = (trace st ++ evs ++ [Raised e])%list)).
  { intros a H. inversion H. exists []. split; [reflexivity |].
    left. symmetry. apply app_nil_r. }
  intros Hrun.
  destruct op as [ | | role_name | bucket_name]; cbn [invoke] in Hrun.
  - unfold get_s3_bucket_sizes in Hrun.
    destruct (negb (truthy credentials)); [eapply Hnone; exact Hrun |].
    eapply guarded_trace; [apply sound_get_s3_bucket_sizes_try | exact Hrun].
  - unfold list_ec2_instances in Hrun.
    destruct (negb (truthy credentials)); [eapply Hnone; exact Hrun |].
    eapply guarded_trace; [apply sound_list_ec2_instances_try | exact Hrun].
  - unfold describe_iam_role in Hrun.
    destruct (negb (truthy credentials)); [eapply Hnone; exact Hrun |].
    eapply guarded_trace; [apply sound_describe_iam_role_try | exact Hrun].
  - unfold get_s3_bucket_file_count in Hrun.
    destruct (negb (truthy credentials)); [eapply Hnone; exact Hrun |].
    unfold try_except at 1, bind in Hrun.
    destruct (quiet__get_client "s3" credentials st) as (evs0 & E0 & Q0).
    destruct (_get_client "s3" credentials st) as [[e0 | s3] st1]; cbn [snd] in E0.
    + cbn [ret] in Hrun. inversion Hrun; subst.
      exists evs0. split; [exact Q0 |]. left. exact E0.
    + unfold try_except in Hrun.
      destruct (handled_get_s3_bucket_file_count_try s3 bucket_name st1)
        as (evs1 & Q1 & E1).
      exists (evs0 ++ evs1)%list. split; [apply quiet_app; assumption |].
      destruct (get_s3_bucket_file_count_try s3 bucket_name st1) as [[e1 | r1] st2].
      * destruct (get_s3_bucket_file_count_except bucket_name e1 st2)
          as [res2 st3] eqn:Hx.
        pose proof (get_s3_bucket_file_count_except_state _ _ _ Hx) as ->.
        assert (st' = st2) as ->
            by (destruct res2; cbn [ret] in Hrun; inversion Hrun; reflexivity).
        destruct E1 as [E1 | [E1 _]].
        -- right. exists e1. rewrite E1, E0, <- !app_assoc. reflexivity.
        -- left. rewrite E1, E0. symmetry. apply app_assoc.
      * inversion Hrun; subst. destruct E1 as [E1 | (e1 & E1 & _)].
        -- left. rewrite E1, E0. symmetry. apply app_assoc.
        -- right. exists e1. rewrite E1, E0, <- !app_assoc. reflexivity.
Qed.

End InvokeTrace.

Section Noted.
Context {PY : PythonRuntime} {W : Type}.

Lemma raised_of_app evs1 evs2 :
  raised_of (evs1 ++ evs2) = (raised_of evs1 ++ raised_of evs2)%list.
Proof. unfold raised_of. apply flat_map_app. Qed.

Lemma raised_of_quiet evs : quiet evs = true -> raised_of evs = [].
Proof.
  unfold quiet. induction evs as [| ev evs IH]; [reflexivity |].
  cbn [forallb raised_of flat_map]. intros H. apply andb_true_iff in H.
  destruct H as [Hev H]. fold (raised_of evs). rewrite (IH H).
  destruct ev; try reflexivity. discriminate Hev.
Qed.

Lemma noted_ret {A} (a : A) : noted (W := W) (ret a).
Proof.
  intros st. exists []. cbn. split; symmetry; apply app_nil_r.
Qed.

Lemma noted_raise {A} e : noted (W := W) (@raise _ _ A e).
Proof.
  intros st. exists []. cbn. split; symmetry; apply app_nil_r.
Qed.

Lemma noted_bind {A B} (m : M (W * list Exn) A) (k : A -> M (W * list Exn) B) :
  noted m -> (forall a, noted (k a)) -> noted (bind m k).
Proof.
  intros Hm Hk st. unfold bind.
  destruct (Hm st) as (evs1 & E1 & L1).
  destruct (m st) as [[e | a] st1]; cbn [snd] in *.
  - exists evs1. split; assumption.
  - destruct (Hk a st1) as (evs2 & E2 & L2).
    exists (evs1 ++ evs2)%list. split.
    + rewrite E2, E1. symmetry. apply app_assoc.
    + rewrite L2, L1, raised_of_app. symmetry. apply app_assoc.
Qed.

Lemma noted_try_except {A} (m : M (W * list Exn) A) h :
  noted m -> (forall e, noted (h e)) -> noted (try_except m h).
Proof.
  intros Hm Hh st. unfold try_except.
  destruct (Hm st) as (evs1 & E1 & L1).
  destruct (m st) as [[e | a] st1]; cbn [snd] in *.
  - destruct (Hh e st1) as (evs2 & E2 & L2).
    exists (evs1 ++ evs2)%list. split.
    + rewrite E2, E1. symmetry. apply app_assoc.
    + rewrite L2, L1, raised_of_app. symmetry. apply app_assoc.
  - exists evs1. split; assumption.
Qed.

Lemma noted_for_each {A B} (f : A -> M (W * list Exn) B) xs :
  (forall x, noted (f x)) -> noted (for_each f xs).
Proof.
  intros Hf. induction xs as [| x xs IH]; cbn [for_each].
  - apply noted_ret.
  - apply noted_bind; [apply Hf |]. intros y.
    apply noted_bind; [apply IH |]. intros ys. apply noted_ret.
Qed.

(** A call that cannot raise: the record stays, the event is no [Raised]. *)
Lemma noted_keep {A} ev (f : W -> A * W) :
  is_raised ev = false -> noted (call ev (keep f)).
Proof.
  intros Hev st. unfold call, keep.
  destruct (f (fst (world st))) as [a w']. exists [ev]. cbn. split; [reflexivity |].
  destruct ev; try discriminate Hev; cbn; symmetry; apply app_nil_r.
Qed.

(** A request: the exception it raises is recorded by the SDK and
    reported on the trace by the program. *)
Lemma noted_note {A} ev (f : W -> (Exn + A) * W) :
  is_raised ev = false -> noted (call_exn ev (note f)).
Proof.
  intros Hev st. unfold call_exn, bind, call, note.
  destruct (f (fst (world st))) as [[e | a] w'].
  - exists [ev; Raised e]. cbn. split; [rewrite <- app_assoc; reflexivity |].
    destruct ev; try discriminate Hev; reflexivity.
  - exists [ev]. cbn. split; [reflexivity |].
    destruct ev; try discriminate Hev; cbn; symmetry; apply app_nil_r.
Qed.

Lemma noted_get_tools_session : noted (W := W) get_tools_session.
Proof. intros st. exists []. cbn. split; symmetry; apply app_nil_r. Qed.

Lemma noted_set_tools_session c : noted (W := W) (set_tools_session c).
Proof. intros st. exists []. cbn. split; symmetry; apply app_nil_r. Qed.

End Noted.

Ltac noted_step :=
  match goal with
  | |- noted (ret _) => apply noted_ret
  | |- noted (raise _) => apply noted_raise
  | |- noted (bind _ _) => apply noted_bind; [| intros ?]
  | |- noted (try_except _ _) => apply noted_try_except; [| intros ?]
  | |- noted (call_exn _ _) => apply noted_note; reflexivity
  | |- noted (call _ _) => apply noted_keep; reflexivity
  | |- noted get_tools_session => apply noted_get_tools_session
  | |- noted (set_tools_session _) => apply noted_set_tools_session
  | |- noted (for_each _ _) => apply noted_for_each; intros ?
  | |- noted (if ?b then _ else _) => destruct b
  | |- noted (match ?x with _ => _ end) => destruct x
  end.


Section SameRun.
Context {PY : PythonRuntime} {W : Type}.

Lemma same_ret {A} (a : A) : same_run (W := W) (ret a) (ret a).
Proof. intros st. reflexivity. Qed.

Lemma same_raise {A} e : same_run (W := W) (@raise _ _ A e) (raise e).
Proof. intros st. reflexivity. Qed.

Lemma same_bind {A B} (m : M W A) m' (k : A -> M W B) k' :
  same_run m m' -> (forall a, same_run (k a) (k' a)) -> same_run (bind m k) (bind m' k').
Proof.
  intros Hm Hk st. unfold bind. rewrite (Hm st).
  destruct (m' st) as [[e | a] st1]; cbn [fst snd]; [reflexivity | apply Hk].
Qed.

Lemma same_try_except {A} (m : M W A) m' h h' :
  same_run m m' -> (forall e, same_run (h e) (h' e)) ->
  same_run (try_except m h) (try_except m' h').
Proof.
  intros Hm Hh st. unfold try_except. rewrite (Hm st).
  destruct (m' st) as [[e | a] st1]; cbn [fst snd]; [apply Hh | reflexivity].
Qed.

Lemma same_for_each {A B} (f : A -> M W B) f' xs :
  (forall x, same_run (f x) (f' x)) -> same_run (for_each f xs) (for_each f' xs).
Proof.
  intros Hf. induction xs as [| x xs IH]; cbn [for_each].
  - apply same_ret.
  - apply same_bind; [apply Hf |]. intros y.
    apply same_bind; [apply IH |]. intros ys. apply same_ret.
Qed.

Lemma same_keep {A} ev (f : W -> A * W) : same_run (call ev f) (call ev (keep f)).
Proof.
  intros st. unfold call, keep, forget. cbn [world].
  destruct (f (fst (world st))) as [a w']. reflexivity.
Qed.

Lemma same_note {A} ev (f : W -> (Exn + A) * W) :
  same_run (call_exn ev f) (call_exn ev (note f)).
Proof.
  intros st. unfold call_exn, bind, call, note, forget. cbn [world].
  destruct (f (fst (world st))) as [[e | a] w']; reflexivity.
Qed.

Lemma same_get_tools_session : same_run (W := W) get_tools_session get_tools_session.
Proof. intros st. reflexivity. Qed.

Lemma same_set_tools_session c :
  same_run (W := W) (set_tools_session c) (set_tools_session c).
Proof. intros st. reflexivity. Qed.

End SameRun.

Ltac same_step :=
  match goal with
  | |- same_run (ret _) (ret _) => apply same_ret
  | |- same_run (raise _) (raise _) => apply same_raise
  | |- same_run (bind _ _) (bind _ _) => apply same_bind; [| intros ?]
  | |- same_run (try_except _ _) (try_except _ _) => apply same_try_except; [| intros ?]
  | |- same_run (call_exn _ _) (call_exn _ _) => apply same_note
  | |- same_run (call _ _) (call _ _) => apply same_keep
  | |- same_run get_tools_session get_tools_session => apply same_get_tools_session
  | |- same_run (set_tools_session _) (set_tools_session _) => apply same_set_tools_session
  | |- same_run (for_each _ _) (for_each _ _) => apply same_for_each; intros ?
  | |- same_run (if ?b then _ else _) (if ?b then _ else _) => destruct b
  | |- same_run (match ?x with _ => _ end) (match ?x with _ => _ end) => destruct x
  end.

Section SameTools.
Context {PY : PythonRuntime} {W : Type} (SDK : AWSSDK W).
Import AWSTools.

Lemma same__get_client service c :
  same_run (_get_client service c) (_get_client (SDK := recording SDK) service c).
Proof. unfold _get_client, _init_session. repeat same_step. Qed.

Lemma same_paginate s3 b :
  same_run (paginate s3 b) (paginate (SDK := recording SDK) s3 b).
Proof.
  intros st. unfold paginate, bind, call, forget.
  cbn [paginate_list_objects_v2 recording world]. unfold note_pages.
  destruct (paginate_list_objects_v2 s3 b (fst (world st))) as [[pages [e |]] w'];
    reflexivity.
Qed.

Lemma same_count_buckets s3 bs : forall acc,
  same_run (count_buckets s3 bs acc) (count_buckets (SDK := recording SDK) s3 bs acc).
Proof.
  induction bs as [| b bs IH]; intros acc; cbn [count_buckets].
  - apply same_ret.
  - apply same_bind.
    + unfold count_bucket. apply same_try_except.
      * apply same_bind; [apply same_paginate | intros ?; apply same_ret].
      * intros e. repeat same_step.
    + intros [resp | stat]; [apply same_ret | apply IH].
Qed.

(** An operation does on the recording SDK what it does on the SDK. *)
Lemma same_invoke op credentials :
  same_run (invoke op credentials) (invoke (SDK := recording SDK) op credentials).
Proof.
  destruct op as [ | | role_name | bucket_name]; cbn [invoke].
  - unfold get_s3_bucket_sizes. destruct (negb (truthy credentials)); [apply same_ret |].
    apply same_try_except; [| intros e; apply same_ret].
    unfold get_s3_bucket_sizes_try.
    apply same_bind; [apply same__get_client | intros s3].
    apply same_bind; [repeat same_step | intros names].
    apply same_bind; [| intros ?; apply same_ret].
    apply same_for_each. intros name. unfold bucket_size_entry.
    apply same_bind; [apply same_paginate | intros ?; apply same_ret].
  - unfold list_ec2_instances. destruct (negb (truthy credentials)); [apply same_ret |].
    apply same_try_except; [| intros e; apply same_ret].
    unfold list_ec2_instances_try.
    apply same_bind; [apply same__get_client | intros ec2]. repeat same_step.
  - unfold describe_iam_role. destruct (negb (truthy credentials)); [apply same_ret |].
    apply same_try_except; [| intros e; apply same_ret].
    unfold describe_iam_role_try.
    apply same_bind; [apply same__get_client | intros iam]. repeat same_step.
  - unfold get_s3_bucket_file_count.
    destruct (negb (truthy credentials)); [apply same_ret |].
    apply same_try_except; [| intros e; apply same_ret].
    apply same_bind; [apply same__get_client | intros s3].
    apply same_try_except.
    + unfold get_s3_bucket_file_count_try.
      apply same_bind; [repeat same_step | intros bs].
      apply same_bind; [apply same_count_buckets |].
      intros [resp | stats]; apply same_ret.
    + intros e. unfold get_s3_bucket_file_count_except. repeat same_step.
Qed.

End SameTools.

Section NotedTools.
Context {PY : PythonRuntime} {W : Type} (SDK : AWSSDK W).
Import AWSTools.

Lemma noted__get_client service c :
  noted (_get_client (SDK := recording SDK) service c).
Proof. unfold _get_client, _init_session. repeat noted_step. Qed.

(** The listing: what ends the iteration is recorded by the SDK and
    reported by [paginate]. *)
Lemma noted_paginate s3 b : noted (paginate (SDK := recording SDK) s3 b).
Proof.
  intros st. unfold paginate, bind, call. cbn [paginate_list_objects_v2 recording].
  unfold note_pages.
  destruct (paginate_list_objects_v2 s3 b (fst (world st))) as [[pages [e |]] w'].
  - exists [S3ListObjectsV2 s3 b; Raised e]. cbn.
    split; [rewrite <- app_assoc; reflexivity | reflexivity].
  - exists [S3ListObjectsV2 s3 b]. cbn. split; [reflexivity |].
    symmetry. apply app_nil_r.
Qed.

Lemma noted_count_buckets s3 bs :
  forall acc, noted (count_buckets (SDK := recording SDK) s3 bs acc).
Proof.
  induction bs as [| b bs IH]; intros acc; cbn [count_buckets].
  - apply noted_ret.
  - apply noted_bind.
    + unfold count_bucket. apply noted_try_except.
      * apply noted_bind; [apply noted_paginate | intros ?; apply noted_ret].
      * intros e. repeat noted_step.
    + intros [resp | stat]; [apply noted_ret | apply IH].
Qed.

Lemma noted_invoke op credentials :
  noted (invoke (SDK := recording SDK) op credentials).
Proof.
  destruct op as [ | | role_name | bucket_name]; cbn [invoke].
  - unfold get_s3_bucket_sizes. destruct (negb (truthy credentials)); [apply noted_ret |].
    apply noted_try_except; [| intros e; apply noted_ret].
    unfold get_s3_bucket_sizes_try.
    apply noted_bind; [apply noted__get_client | intros s3].
    apply noted_bind; [repeat noted_step | intros names].
    apply noted_bind; [| intros ?; apply noted_ret].
    apply noted_for_each. intros name. unfold bucket_size_entry.
    apply noted_bind; [apply noted_paginate | intros ?; apply noted_ret].
  - unfold list_ec2_instances. destruct (negb (truthy credentials)); [apply noted_ret |].
    apply noted_try_except; [| intros e; apply noted_ret].
    unfold list_ec2_instances_try.
    apply noted_bind; [apply noted__get_client | intros ec2]. repeat noted_step.
  - unfold describe_iam_role. destruct (negb (truthy credentials)); [apply noted_ret |].
    apply noted_try_except; [| intros e; apply noted_ret].
    unfold describe_iam_role_try.
    apply noted_bind; [apply noted__get_client | intros iam]. repeat noted_step.
  - unfold get_s3_bucket_file_count.
    destruct (negb (truthy credentials)); [apply noted_ret |].
    apply noted_try_except; [| intros e; apply noted_ret].
    apply noted_bind; [apply noted__get_client | intros s3].
    apply noted_try_except.
    + unfold get_s3_bucket_file_count_try.
      apply noted_bind; [repeat noted_step | intros bs].
      apply noted_bind; [apply noted_count_buckets |].
      intros [resp | stats]; apply noted_ret.
    + intros e. unfold get_s3_bucket_file_count_except. repeat noted_step.
Qed.

(** C3. For every tool operation, when a request the operation makes is
    answered by the AWS SDK with a ClientError of code [code]: the operation
    returns a response that reports failure; it asks for credentials
    exactly when [code] is InvalidAccessKeyId, SignatureDoesNotMatch or
    AccessDenied, and then its message is the text fixed for the operation
    and the code; for any other code it does not ask for credentials, and
    unless the operation has a not-found text for the code, the message
    wraps the error text.  What the SDK answered is read off the record the
    SDK itself keeps in the same run on [recording SDK], not off what the
    operation reports; the response is the one of the run on [SDK]. *)
Theorem client_error_mapping (op : Operation) (credentials : Val)
    (st : State (W * list Exn)) (e : Exn) (code : string) :
  sdk_raised st (snd (invoke (SDK := recording SDK) op credentials st)) e ->
  exn_class e = ClientError code ->
  exists r,
    fst (invoke (SDK := SDK) op credentials (forget st)) = inr r
    /\ success r = false
    /\ requires_credentials r = mem code credential_codes
    /\ (mem code credential_codes = true ->
        message r = Some (credential_error_message op code))
    /\ (mem code credential_codes = false -> not_found_code op code = false ->
        message r = Some ("AWS error: " ++ exn_text e)).
Proof.
  intros (errs & Hlog & Hin) Hc.
  destruct (noted_invoke op credentials st) as (evs & E & L).
  pose proof (same_invoke SDK op credentials st) as Hsame.
  destruct (invoke_returns (SDK := recording SDK) op credentials st)
    as (r & st' & Hrun & _).
  rewrite Hrun in *. cbn [fst snd] in *.
  rewrite L in Hlog. apply app_inv_head in Hlog. subst errs.
  destruct (invoke_trace _ _ _ Hrun) as (evs0 & Q & [T | [e' T]]).
  - rewrite E in T. apply app_inv_head in T. subst evs0.
    rewrite (raised_of_quiet _ Q) in Hin. contradiction.
  - rewrite E in T. apply app_inv_head in T. subst evs.
    rewrite raised_of_app, (raised_of_quiet _ Q) in Hin. cbn in Hin.
    destruct Hin as [<- | []].
    exists r. split; [rewrite Hsame; reflexivity |].
    eapply (@raised_error_mapped PY (W * list Exn) (recording SDK));
      [exact Hrun | rewrite E; reflexivity | exact Hc].
Qed.

End NotedTools.

(* ================================================================== *)
(** ** The orchestrator: one tool call *)
(* ================================================================== *)

Section Dispatch.
Context {PY : PythonRuntime} {W : Type} {SDK : AWSSDK W} {AI : OpenAIClient W}.
Import AWSTools OrchestratorAgent.

Lemma bind_arguments_state name params required arguments (st : State W) res st' :
  bind_arguments name params required arguments st = (res, st') -> st' = st.
Proof.
  unfold bind_arguments.
  repeat match goal with
         | |- context [if ?c then _ else _] => destruct c
         | |- context [match ?x with _ => _ end] => destruct x
         end;
    intros H; inversion H; reflexivity.
Qed.

Lemma operation_requires_credentials op :
  mem (operation_name op) aws_operations = true.
Proof. destruct op; reflexivity. Qed.

(** What [_execute_function] returns is what one of the four tools returned,
    called right after the dispatch line was logged. *)
Lemma execute_function_inv name arguments (st : State W) res st' :
  _execute_function name arguments st = (inr res, st') ->
  exists op c r,
    res = ResAWS r /\ name = operation_name op
    /\ invoke op c (snd (log (LogExecuting name arguments) st)) = (inr r, st').
Proof.
  unfold _execute_function. destruct (negb (hasattr_aws_tools name)); [discriminate |].
  intros H. bind_inv H as u st1 Hlog.
  assert (st1 = snd (log (LogExecuting name arguments) st)) as ->
      by (inversion Hlog; reflexivity).
  clear Hlog.
  destruct (String.eqb_spec name "get_s3_bucket_sizes") as [-> | _].
  { bind_inv H as kw st2 Hkw. apply bind_arguments_state in Hkw. subst st2.
    bind_inv H as r st3 Hr. ret_inv H.
    exists GetS3BucketSizes, (dict_get_default "credentials" VNone kw), r.
    repeat split. exact Hr. }
  destruct (String.eqb_spec name "list_ec2_instances") as [-> | _].
  { bind_inv H as kw st2 Hkw. apply bind_arguments_state in Hkw. subst st2.
    bind_inv H as r st3 Hr. ret_inv H.
    exists ListEC2Instances, (dict_get_default "credentials" VNone kw), r.
    repeat split. exact Hr. }
  destruct (String.eqb_spec name "describe_iam_role") as [-> | _].
  { bind_inv H as kw st2 Hkw. apply bind_arguments_state in Hkw. subst st2.
    bind_inv H as r st3 Hr. ret_inv H.
    exists (DescribeIAMRole (dict_get_default "role_name" VNone kw)),
           (dict_get_default "credentials" VNone kw), r.
    repeat split. exact Hr. }
  destruct (String.eqb_spec name "get_s3_bucket_file_count") as [-> | _].
  { bind_inv H as kw st2 Hkw. apply bind_arguments_state in Hkw. subst st2.
    bind_inv H as r st3 Hr. ret_inv H.
    exists (GetS3BucketFileCount (dict_get_default "bucket_name" VNone kw)),
           (dict_get_default "credentials" VNone kw), r.
    repeat split. exact Hr. }
  discriminate H.
Qed.

Lemma execute_function_facts name arguments (st : State W) res st' :
  _execute_function name arguments st = (inr res, st') ->
  exists r evs,
    res = ResAWS r /\ well_formed r
    /\ mem name aws_operations = true
    /\ trace st' = (trace st ++ LogExecuting name arguments :: evs)%list
    /\ forallb tool_event evs = true.
Proof.
  intros H. apply execute_function_inv in H.
  destruct H as (op & c & r & -> & -> & Hrun).
  destruct (invoke_returns op c (snd (log (LogExecuting (operation_name op) arguments) st)))
    as (r' & st'' & Hrun' & Hwf).
  rewrite Hrun in Hrun'. inversion Hrun'; subst r' st''.
  destruct (emits_invoke op c (snd (log (LogExecuting (operation_name op) arguments) st)))
    as (evs & E & P).
  rewrite Hrun in E. cbn [snd log trace] in E.
  exists r, evs.
  split; [reflexivity |]. split; [exact Hwf |].
  split; [apply operation_requires_credentials |].
  split; [| exact P].
  rewrite E, <- app_assoc. reflexivity.
Qed.

Lemma prepare_arguments_state aws_credentials tool_call (st : State W) res st' :
  prepare_arguments aws_credentials tool_call st = (res, st') -> st' = st.
Proof.
  unfold prepare_arguments, set_credentials, new_ChatResponse.
  repeat match goal with
         | |- context [if ?c then _ else _] => destruct c
         | |- context [match ?x with _ => _ end] => destruct x
         end;
    intros H; inversion H; reflexivity.
Qed.

(** An operation that needs credentials is dispatched with a dict of
    arguments. *)
Lemma prepare_arguments_dict aws_credentials tool_call (st : State W) arguments st' :
  prepare_arguments aws_credentials tool_call st = (inr (inr arguments), st') ->
  _requires_aws_credentials (tc_name tool_call) = true ->
  exists d, arguments = VDict d.
Proof.
  unfold prepare_arguments, set_credentials. intros H Hreq. rewrite Hreq in H.
  destruct (json_loads (tc_arguments tool_call)) as [text | v]; [discriminate H |].
  destruct aws_credentials as [c |]; [| discriminate H].
  destruct v; try discriminate H.
  cbn in H. inversion H. eexists. reflexivity.
Qed.

Lemma tool_events_filtered evs :
  forallb tool_event evs = true ->
  filter is_tool_dispatch evs = [] /\ filter is_model_call evs = [].
Proof.
  induction evs as [| ev evs IH]; intros H; [split; reflexivity |].
  cbn [forallb] in H. apply andb_true_iff in H. destruct H as [Hev H].
  destruct (IH H) as [IH1 IH2].
  destruct ev; cbn in Hev; try discriminate Hev; cbn; split; assumption.
Qed.

(** What a dispatched tool call adds to the trace: its dispatch line, then
    calls to AWS only. *)
Lemma dispatched_facts aws_credentials tool_call (st : State W) arguments r st' :
  dispatched aws_credentials tool_call st arguments r st' ->
  well_formed r
  /\ mem (tc_name tool_call) aws_operations = true
  /\ (exists d, arguments = VDict d)
  /\ count_events is_tool_dispatch st' = S (count_events is_tool_dispatch st)
  /\ filter is_model_call (trace st') = filter is_model_call (trace st).
Proof.
  intros (st1 & Hprep & Hexec).
  pose proof (prepare_arguments_state _ _ _ Hprep) as ->.
  destruct (execute_function_facts _ _ _ Hexec) as (r' & evs & Hr & Hwf & Hreq & E & P).
  inversion Hr; subst r'.
  destruct (tool_events_filtered _ P) as [F1 F2].
  split; [exact Hwf |]. split; [exact Hreq |].
  split; [eapply prepare_arguments_dict; eassumption |].
  split.
  - unfold count_events. rewrite E, filter_app. cbn [filter is_tool_dispatch].
    rewrite F1, length_app. cbn. lia.
  - rewrite E, filter_app. cbn [filter is_model_call]. rewrite F2. apply app_nil_r.
Qed.

(** The round of the loop for a dispatched tool call, by the flags of its
    result. *)
Lemma process_tool_call_dispatched aws_credentials tool_call l (st : State W)
    arguments r st' :
  dispatched aws_credentials tool_call st arguments r st' ->
  exists text d,
    message r = Some text /\ arguments = VDict d
    /\ process_tool_call aws_credentials tool_call l st
       = if requires_credentials r then
           (inr (Return (mkChatResponse text [] [] None (Some true) None)), st')
         else if negb (success r) then
           (inr (Return (mkChatResponse text (l_actions_taken l) [] None None None)), st')
         else
           match json_dumps (data r) with
           | inr serialized =>
               (inr (Next (mkLocals
                             (l_actions_taken l
                              ++ [("Successfully executed " ++ tc_name tool_call)%string])
                             (l_aws_resources_affected l
                              ++ [VDict [("operation", VStr (tc_name tool_call));
                                         ("parameters",
                                          VDict (dict_without "credentials" d))]])
                             (l_openai_messages l ++ recorded tool_call serialized))),
                st')
           | inl text => execute_except (mkExn TypeError text) st'
           end.
Proof.
  intros Hd.
  destruct (dispatched_facts Hd) as ([[text Hm] _] & Hreq & [d ->] & _ & _).
  destruct Hd as (st1 & Hprep & Hexec).
  exists text, d. split; [exact Hm |]. split; [reflexivity |].
  unfold process_tool_call. rewrite (bind_returns _ _ _ Hprep).
  unfold try_except, execute_and_record.
  rewrite (bind_returns _ _ _ Hexec).
  rewrite Hm, Hreq. cbn [new_ChatResponse].
  destruct (requires_credentials r); [reflexivity |].
  destruct (negb (success r)); [reflexivity |].
  cbn [resource_entry bind ret].
  destruct (json_dumps (data r)) as [err | serialized]; reflexivity.
Qed.

End Dispatch.

(* ================================================================== *)
(** ** The orchestrator: the loop and the request *)
(* ================================================================== *)

Section Loop.
Context {PY : PythonRuntime} {W : Type} {SDK : AWSSDK W} {AI : OpenAIClient W}.
Import AWSTools OrchestratorAgent.

Lemma execute_except_not_next e (st : State W) l st' :
  execute_except e st = (inr (Next l), st') -> False.
Proof.
  unfold execute_except.
  destruct (str_in "credentials" (lower (exn_text e))
            || str_in "access" (lower (exn_text e))); cbn; discriminate.
Qed.

(** A round that goes on to the next tool call dispatched its own, and the
    tool reported success. *)
Lemma process_tool_call_next aws_credentials tool_call l (st : State W) l' st' :
  process_tool_call aws_credentials tool_call l st = (inr (Next l'), st') ->
  exists arguments r serialized,
    dispatched aws_credentials tool_call st arguments r st'
    /\ requires_credentials r = false /\ success r = true
    /\ json_dumps (data r) = inr serialized
    /\ l_actions_taken l'
       = (l_actions_taken l ++ [("Successfully executed " ++ tc_name tool_call)%string])%list
    /\ length (l_aws_resources_affected l') = S (length (l_aws_resources_affected l))
    /\ l_openai_messages l' = (l_openai_messages l ++ recorded tool_call serialized)%list.
Proof.
  intros H. pose proof H as Hrun. unfold process_tool_call in H.
  bind_inv H as prepared st1 Hprep.
  destruct prepared as [resp | arguments]; [ret_inv H |].
  unfold try_except in H.
  destruct (execute_and_record tool_call (tc_name tool_call) arguments l st1)
    as [[e | flow] st2] eqn:He.
  { exfalso. eapply execute_except_not_next; eassumption. }
  unfold execute_and_record in He. bind_inv He as result st3 Hexec.
  destruct (execute_function_facts _ _ _ Hexec) as (r & _ & -> & _).
  assert (Hd : dispatched aws_credentials tool_call st arguments r st3)
    by (exists st1; split; assumption).
  destruct (process_tool_call_dispatched l Hd) as (text & d & _ & _ & Heq).
  rewrite Hrun in Heq. clear He H.
  destruct (requires_credentials r) eqn:Hrc; [discriminate Heq |].
  destruct (success r) eqn:Hs; [| discriminate Heq]. cbn [negb] in Heq.
  destruct (json_dumps (data r)) as [err | serialized] eqn:Hj.
  { exfalso. symmetry in Heq. eapply execute_except_not_next; eassumption. }
  inversion Heq; subst. exists arguments, r, serialized.
  split; [exact Hd |].
  repeat split; try assumption; try reflexivity.
  cbn [l_aws_resources_affected]. rewrite length_app. cbn. lia.
Qed.

Lemma process_tool_calls_app aws_credentials pre rest : forall l (st : State W),
  process_tool_calls aws_credentials (pre ++ rest) l st
  = bind (process_tool_calls aws_credentials pre l)
         (fun flow => match flow with
                      | Return r => ret (Return r)
                      | Next l' => process_tool_calls aws_credentials rest l'
                      end) st.
Proof.
  induction pre as [| tc pre IH]; intros l st.
  - reflexivity.
  - cbn [app process_tool_calls]. unfold bind.
    destruct (process_tool_call aws_credentials tc l st) as [[e | [r | l1]] st1].
    + reflexivity.
    + reflexivity.
    + rewrite IH. reflexivity.
Qed.

(** When every call of a batch went through: one label and one resource
    entry per call, the conversation only grew, one dispatch per call, and
    the model was not asked in between. *)
Lemma process_tool_calls_next aws_credentials tool_calls :
  forall l (st : State W) l' st',
  process_tool_calls aws_credentials tool_calls l st = (inr (Next l'), st') ->
  l_actions_taken l' = (l_actions_taken l ++ map executed tool_calls)%list
  /\ length (l_aws_resources_affected l')
     = (length (l_aws_resources_affected l) + length tool_calls)%nat
  /\ (exists more, l_openai_messages l' = (l_openai_messages l ++ more)%list)
  /\ count_events is_tool_dispatch st'
     = (count_events is_tool_dispatch st + length tool_calls)%nat
  /\ filter is_model_call (trace st') = filter is_model_call (trace st).
Proof.
  induction tool_calls as [| tc tcs IH]; intros l st l' st' H;
    cbn [process_tool_calls] in H.
  - ret_inv H. cbn [map length]. rewrite app_nil_r, !Nat.add_0_r.
    repeat split; try reflexivity. exists []. symmetry. apply app_nil_r.
  - bind_inv H as flow st1 Hstep. destruct flow as [r | l1]; [ret_inv H |].
    apply process_tool_call_next in Hstep.
    destruct Hstep as (arguments & r & s & Hd & _ & _ & _ & Ha & Hr & Hm).
    destruct (dispatched_facts Hd) as (_ & _ & _ & Hc & Hf).
    destruct (IH _ _ _ _ H) as (Ha' & Hr' & [more Hm'] & Hc' & Hf').
    split; [| split; [| split; [| split]]].
    + rewrite Ha', Ha, <- app_assoc. reflexivity.
    + rewrite Hr', Hr. cbn [length]. lia.
    + exists (recorded tc s ++ more)%list. rewrite Hm', Hm, <- app_assoc. reflexivity.
    + rewrite Hc', Hc. cbn [length]. lia.
    + rewrite Hf', Hf. reflexivity.
Qed.

Lemma create_returns messages with_tools (st : State W) reply st' :
  create messages with_tools st = (inr reply, st') ->
  trace st' = (trace st ++ [ChatCompletionsCreate model messages with_tools])%list.
Proof.
  unfold create, call_exn, bind, call.
  destruct (chat_completions_create model messages with_tools (world st)) as [[e | a] w'].
  - cbn. discriminate.
  - cbn. intros H. inversion H. reflexivity.
Qed.

(** [process_request] once the first reply asked for tool calls and the
    loop over them has run. *)
Lemma process_request_run messages aws_credentials (st0 : State W) reply st1
    tool_calls flow st2 :
  create (initial messages) (Some tools) st0 = (inr reply, st1) ->
  msg_tool_calls reply = tool_calls -> tool_calls <> [] ->
  process_tool_calls aws_credentials tool_calls (mkLocals [] [] (initial messages)) st1
    = (inr flow, st2) ->
  process_request messages aws_credentials st0
  = match flow with
    | Return r => (inr r, st2)
    | Next l =>
        try_except
          (final_response <- create (l_openai_messages l) None ;;
           new_ChatResponse (msg_content final_response) (l_actions_taken l)
                            (l_aws_resources_affected l) (Some false))
          (fun e => raise (Exception ("Error in process_request: " ++ exn_text e))) st2
    end.
Proof.
  intros Hc Htc Hne Hloop. unfold process_request. fold (initial messages).
  unfold try_except at 1. rewrite (bind_returns _ _ _ Hc). rewrite Htc.
  destruct tool_calls as [| tc tcs]; [contradiction |].
  rewrite (bind_returns _ _ _ Hloop).
  destruct flow as [r | l]; reflexivity.
Qed.

(** The loop at the tool call that [reaches] names. *)
Lemma reaches_run messages aws_credentials (st0 : State W) pre tool_call post l st
    flow st' :
  reaches messages aws_credentials st0 pre tool_call post l st ->
  process_tool_calls aws_credentials (tool_call :: post) l st = (inr flow, st') ->
  process_request messages aws_credentials st0
  = match flow with
    | Return r => (inr r, st')
    | Next l =>
        try_except
          (final_response <- create (l_openai_messages l) None ;;
           new_ChatResponse (msg_content final_response) (l_actions_taken l)
                            (l_aws_resources_affected l) (Some false))
          (fun e => raise (Exception ("Error in process_request: " ++ exn_text e))) st'
    end.
Proof.
  intros (reply & st1 & Hc & Htc & Hpre) Hrest.
  eapply process_request_run; [exact Hc | exact Htc | |].
  - destruct pre; discriminate.
  - rewrite process_tool_calls_app. rewrite (bind_returns _ _ _ Hpre). exact Hrest.
Qed.

(** What the loop had recorded and what the trace holds when [reaches]. *)
Lemma reaches_facts messages aws_credentials (st0 : State W) pre tool_call post l st :
  reaches messages aws_credentials st0 pre tool_call post l st ->
  l_actions_taken l = map executed pre
  /\ length (l_aws_resources_affected l) = length pre
  /\ count_events is_tool_dispatch st
     = (count_events is_tool_dispatch st0 + length pre)%nat
  /\ filter is_model_call (trace st)
     = (filter is_model_call (trace st0)
        ++ [ChatCompletionsCreate model (initial messages) (Some tools)])%list.
Proof.
  intros (reply & st1 & Hc & Htc & Hpre).
  apply create_returns in Hc.
  destruct (process_tool_calls_next _ _ _ _ Hpre) as (Ha & Hr & _ & Hd & Hf).
  cbn [l_actions_taken l_aws_resources_affected length app] in *.
  repeat split; try assumption.
  - rewrite Hd. unfold count_events. rewrite Hc, filter_app. cbn.
    rewrite app_nil_r. reflexivity.
  - rewrite Hf, Hc, filter_app. reflexivity.
Qed.

(** The request ends in the round of a dispatched tool call whose result
    asks for credentials or reports failure. *)
Lemma process_request_stops messages aws_credentials (st0 : State W) pre tool_call post
    l st arguments r st' :
  reaches messages aws_credentials st0 pre tool_call post l st ->
  dispatched aws_credentials tool_call st arguments r st' ->
  requires_credentials r = true \/ success r = false ->
  exists text,
    message r = Some text
    /\ process_request messages aws_credentials st0
       = (inr (if requires_credentials r
               then mkChatResponse text [] [] None (Some true) None
               else mkChatResponse text (l_actions_taken l) [] None None None), st').
Proof.
  intros Hreach Hd Hflag.
  destruct (process_tool_call_dispatched l Hd) as (text & d & Hm & _ & Hstep).
  exists text. split; [exact Hm |].
  assert (Hloop : process_tool_calls aws_credentials (tool_call :: post) l st
                  = (inr (Return (if requires_credentials r
                                  then mkChatResponse text [] [] None (Some true) None
                                  else mkChatResponse text (l_actions_taken l) [] None
                                                      None None)), st')).
  { cbn [process_tool_calls]. unfold bind. rewrite Hstep.
    destruct (requires_credentials r); [reflexivity |].
    destruct Hflag as [Hflag | Hflag]; [discriminate Hflag |].
    rewrite Hflag. reflexivity. }
  rewrite (reaches_run Hreach Hloop). reflexivity.
Qed.

End Loop.

(* ================================================================== *)
(** ** The orchestrator: the claims *)
(* ================================================================== *)

Section OrchestratorClaims.
Context {PY : PythonRuntime} {W : Type} {SDK : AWSSDK W} {AI : OpenAIClient W}.
Import AWSTools OrchestratorAgent.

Lemma dispatched_functional aws_credentials tool_call (st : State W)
    arguments r st1 arguments' r' st1' :
  dispatched aws_credentials tool_call st arguments r st1 ->
  dispatched aws_credentials tool_call st arguments' r' st1' ->
  arguments = arguments' /\ r = r' /\ st1 = st1'.
Proof.
  intros (sa & Hp & He) (sb & Hp' & He').
  rewrite Hp in Hp'. inversion Hp'; subst.
  rewrite He in He'. inversion He'; subst. repeat split.
Qed.

Lemma final_reply_trace l (st : State W) :
  exists evs,
    trace (snd (try_except
                  (final_response <- create (l_openai_messages l) None ;;
                   new_ChatResponse (msg_content final_response) (l_actions_taken l)
                                    (l_aws_resources_affected l) (Some false))
                  (fun e => raise (Exception ("Error in process_request: " ++ exn_text e)))
                  st))
    = (trace st ++ ChatCompletionsCreate model (l_openai_messages l) None :: evs)%list.
Proof.
  unfold try_except, create, call_exn, bind, call.
  destruct (chat_completions_create model (l_openai_messages l) None (world st))
    as [[e | a] w'].
  - exists [Raised e]. cbn. rewrite <- app_assoc. reflexivity.
  - cbn. destruct (msg_content a); exists []; reflexivity.
Qed.

(** C2. When the tool call the loop has reached is dispatched and its
    result asks for credentials or reports failure, [process_request]
    returns in the state the tool left: the response carries the message of
    the result; on a failure that does not ask for credentials it carries
    the labels of the calls that succeeded before, one per call; the trace
    holds one dispatch per call up to this one and none after, and the one
    model call that opened the request, so the failing result never reaches
    the model. *)
Theorem short_circuit messages aws_credentials (st0 : State W) pre tool_call post
    l st arguments r st' :
  reaches messages aws_credentials st0 pre tool_call post l st ->
  dispatched aws_credentials tool_call st arguments r st' ->
  requires_credentials r = true \/ success r = false ->
  exists text,
    message r = Some text
    /\ process_request messages aws_credentials st0
       = (inr (if requires_credentials r
               then mkChatResponse text [] [] None (Some true) None
               else mkChatResponse text (l_actions_taken l) [] None None None), st')
    /\ l_actions_taken l = map executed pre
    /\ count_events is_tool_dispatch st'
       = (count_events is_tool_dispatch st0 + length pre + 1)%nat
    /\ filter is_model_call (trace st')
       = (filter is_model_call (trace st0)
          ++ [ChatCompletionsCreate model (initial messages) (Some tools)])%list.
Proof.
  intros Hreach Hd Hflag.
  destruct (process_request_stops Hreach Hd Hflag) as (text & Hm & Hrun).
  destruct (reaches_facts Hreach) as (Ha & _ & Hc & Hf).
  destruct (dispatched_facts Hd) as (_ & _ & _ & Hc' & Hf').
  exists text. repeat split; try assumption.
  - rewrite Hc', Hc. lia.
  - rewrite Hf', Hf. reflexivity.
Qed.

(** C10. When the result that asks for credentials comes after one or more
    tool calls that succeeded, the response has [requiresCredentials] set
    and empty [actions_taken] and [aws_resources_affected], while the loop
    had a label and a resource entry for each of those calls. *)
Theorem credentials_result_drops_record messages aws_credentials (st0 : State W)
    pre tool_call post l st arguments r st' :
  reaches messages aws_credentials st0 pre tool_call post l st ->
  pre <> [] ->
  dispatched aws_credentials tool_call st arguments r st' ->
  requires_credentials r = true ->
  exists text,
    message r = Some text
    /\ process_request messages aws_credentials st0
       = (inr (mkChatResponse text [] [] None (Some true) None), st')
    /\ l_actions_taken l = map executed pre
    /\ l_actions_taken l <> []
    /\ length (l_aws_resources_affected l) = length pre
    /\ l_aws_resources_affected l <> [].
Proof.
  intros Hreach Hne Hd Hrc.
  destruct (process_request_stops Hreach Hd (or_introl Hrc)) as (text & Hm & Hrun).
  rewrite Hrc in Hrun.
  destruct (reaches_facts Hreach) as (Ha & Hr & _ & _).
  exists text. repeat split; try assumption.
  - rewrite Ha. destruct pre; [contradiction | discriminate].
  - destruct (l_aws_resources_affected l); [| discriminate].
    destruct pre; [contradiction | discriminate Hr].
Qed.

(** Where [json.dumps] accepts the data. For a tool call that is dispatched
    and succeeds, in a batch whose calls all go through: the result's
    [data] serialises, the conversation grows, right where it stood, by the
    assistant's record of the call and a tool message whose content is that
    serialisation, and the conversation that holds them is the one sent to
    the model for the final reply. *)
Theorem tool_result_round_trip messages aws_credentials (st0 : State W)
    pre tool_call post l st arguments r st1 lf stf :
  reaches messages aws_credentials st0 pre tool_call post l st ->
  dispatched aws_credentials tool_call st arguments r st1 ->
  success r = true -> requires_credentials r = false ->
  process_tool_calls aws_credentials (tool_call :: post) l st = (inr (Next lf), stf) ->
  exists serialized more evs,
    json_dumps (data r) = inr serialized
    /\ l_openai_messages lf
       = (l_openai_messages l ++ recorded tool_call serialized ++ more)%list
    /\ trace (snd (process_request messages aws_credentials st0))
       = (trace stf ++ ChatCompletionsCreate model (l_openai_messages lf) None :: evs)%list.
Proof.
  intros Hreach Hd _ _ Hloop. pose proof Hloop as Hrest.
  cbn [process_tool_calls] in Hrest. bind_inv Hrest as flow st2 Hstep.
  destruct flow as [resp | l1]; [ret_inv Hrest |].
  apply process_tool_call_next in Hstep.
  destruct Hstep as (arguments' & r' & serialized & Hd' & _ & _ & Hj & _ & _ & Hm).
  destruct (dispatched_functional Hd Hd') as (_ & <- & _).
  destruct (process_tool_calls_next _ _ _ _ Hrest) as (_ & _ & [more Hmore] & _ & _).
  destruct (final_reply_trace lf stf) as [evs Hfinal].
  exists serialized, more, evs. split; [exact Hj |]. split.
  - rewrite Hmore, Hm, <- app_assoc. reflexivity.
  - rewrite (reaches_run Hreach Hloop). exact Hfinal.
Qed.

(** C6, as the code has it. A tool call that is dispatched and succeeds
    with [data] that [json.dumps] refuses (the role of a successful
    [describe_iam_role] holds a datetime) leaves no tool message: the
    TypeError ends the request in the state the tool left, as "Error in
    process_request: ..." or, when its text happens to mention credentials
    or access, as a request for credentials, and the model is not called
    again, so the result never reaches it. *)
Theorem unserialisable_result_lost messages aws_credentials (st0 : State W)
    pre tool_call post l st arguments r st' text :
  reaches messages aws_credentials st0 pre tool_call post l st ->
  dispatched aws_credentials tool_call st arguments r st' ->
  success r = true ->
  json_dumps (data r) = inl text ->
  process_request messages aws_credentials st0
  = (if str_in "credentials" (lower text) || str_in "access" (lower text)
     then inr (mkChatResponse
                 ("I need valid AWS credentials to perform this operation: " ++ text)
                 [] [] None (Some true) None)
     else inl (Exception ("Error in process_request: " ++ text)), st')
  /\ filter is_model_call (trace st')
     = (filter is_model_call (trace st0)
        ++ [ChatCompletionsCreate model (initial messages) (Some tools)])%list.
Proof.
  intros Hreach Hd Hs Hj.
  destruct (reaches_facts Hreach) as (_ & _ & _ & Hf).
  destruct (dispatched_facts Hd) as ([_ Hwf] & _ & _ & _ & Hf').
  split; [| rewrite Hf', Hf; reflexivity].
  destruct (process_tool_call_dispatched l Hd) as (text' & d & _ & _ & Hstep).
  destruct (requires_credentials r) eqn:Hrc;
    [rewrite (Hwf eq_refl) in Hs; discriminate Hs |].
  rewrite Hs, Hj in Hstep. cbn [negb] in Hstep.
  unfold execute_except in Hstep. cbn [exn_text] in Hstep.
  destruct Hreach as (reply & st1 & Hc & Htc & Hpre).
  unfold process_request. fold (initial messages).
  unfold try_except. rewrite (bind_returns _ _ _ Hc). rewrite Htc.
  assert (Hne : exists tc tcs, (pre ++ tool_call :: post)%list = tc :: tcs)
    by (destruct pre; eexists _, _; reflexivity).
  destruct Hne as (tc & tcs & Hne).
  assert (Hloop : process_tool_calls aws_credentials (pre ++ tool_call :: post)
                    (mkLocals [] [] (initial messages)) st1
                  = bind (process_tool_call aws_credentials tool_call l)
                         (fun flow => match flow with
                                      | Return r0 => ret (Return r0)
                                      | Next l' =>
                                          process_tool_calls aws_credentials post l'
                                      end) st).
  { rewrite process_tool_calls_app. rewrite (bind_returns _ _ _ Hpre). reflexivity. }
  rewrite Hne in Hloop. rewrite Hne. unfold bind at 1. rewrite Hloop.
  unfold bind. rewrite Hstep.
  destruct (str_in "credentials" (lower text) || str_in "access" (lower text));
    reflexivity.
Qed.

(** C5, as the code has it. When the request has no credentials and the
    first tool call the model asks for needs them, [process_request] falls
    back on nothing, whatever the environment holds: when the arguments of
    the tool call parse, it returns the prompt for credentials with
    [requiresCredentials] set; when they do not, the parse error ends the
    request; either way the trace has the opening model call and no call
    to AWS. *)
Theorem no_credentials_no_fallback messages (st0 : State W) reply st1
    tool_call rest :
  create (initial messages) (Some tools) st0 = (inr reply, st1) ->
  msg_tool_calls reply = tool_call :: rest ->
  _requires_aws_credentials (tc_name tool_call) = true ->
  process_request messages None st0
  = (match json_loads (tc_arguments tool_call) with
     | inr _ => inr (mkChatResponse credentials_prompt [] [] None (Some true) None)
     | inl text => inl (Exception ("Error in process_request: " ++ text))
     end, st1)
  /\ trace st1
     = (trace st0 ++ [ChatCompletionsCreate model (initial messages) (Some tools)])%list.
Proof.
  intros Hc Htc Hreq. split; [| eapply create_returns; exact Hc].
  unfold process_request. fold (initial messages).
  unfold try_except. rewrite (bind_returns _ _ _ Hc). rewrite Htc.
  cbn [process_tool_calls]. unfold bind, process_tool_call, bind, prepare_arguments.
  rewrite Hreq.
  destruct (json_loads (tc_arguments tool_call)) as [text | arguments]; reflexivity.
Qed.

Lemma not_an_attribute name :
  mem name aws_tools_attributes = false -> prefix "__" name = false ->
  hasattr_aws_tools name = false.
Proof.
  intros Hm Hp. unfold hasattr_aws_tools. rewrite Hm. cbn [orb].
  destruct (py_object_attr name) eqn:Ho; [| reflexivity].
  apply py_object_attr_dunder in Ho. congruence.
Qed.

(** C4, as the code has it. Each of the four creation operations is in the
    tool schema and in [aws_operations], and dispatching it raises "Unknown
    function" before anything is logged or called: [AWSTools] has no such
    attribute. *)
Theorem creation_operations_unknown :
  Forall (fun name =>
            In name (map tool_name tools)
            /\ _requires_aws_credentials name = true
            /\ forall arguments (st : State W),
                 _execute_function name arguments st
                 = (inl (Exception ("Unknown function: " ++ name)), st))
         ["create_s3_bucket"; "create_lambda_function"; "create_iam_role";
          "assign_policy_to_role"].
Proof.
  assert (H : forall name,
             In name (map tool_name tools) ->
             _requires_aws_credentials name = true ->
             mem name aws_tools_attributes = false -> prefix "__" name = false ->
             In name (map tool_name tools)
             /\ _requires_aws_credentials name = true
             /\ forall arguments (st : State W),
                  _execute_function name arguments st
                  = (inl (Exception ("Unknown function: " ++ name)), st)).
  { intros name Hin Hreq Hm Hp. split; [exact Hin |]. split; [exact Hreq |].
    intros arguments st. unfold _execute_function.
    rewrite (not_an_attribute _ Hm Hp). reflexivity. }
  repeat (apply Forall_cons;
          [apply H;
           [cbn [map tools tool_name]; repeat (first [left; reflexivity | right])
           | reflexivity | reflexivity | reflexivity] |]).
  apply Forall_nil.
Qed.

End OrchestratorClaims.

(* ================================================================== *)
(** ** The policy reviewer: the claims *)
(* ================================================================== *)

Section ReviewerClaims.
Context {PY : PythonRuntime} {W : Type} {SDK : AWSSDK W}.
Import BedrockAgent.

(** C7, as the code has it. On an agent that has not made a session yet,
    [validate_aws_operation] with credentials returns the invalid-credentials
    verdict for the AttributeError on the missing session, and leaves the
    state as it was: no session is made from the credentials and no
    identity call is sent. *)
Theorem identity_check_on_missing_session (operation : Val) (c : AWSCredentials)
    (w : W) (t : list Event) (tools_session : option AWSCredentials) (model_id : string) :
  validate_aws_operation operation (VCreds c) (mkState w t tools_session None model_id)
  = (inr (invalid_credentials_verdict (no_attribute (@VNone Float) "client")),
     mkState w t tools_session None model_id).
Proof. reflexivity. Qed.


End ReviewerClaims.

(* ================================================================== *)
(** ** The claims on the concrete world *)
(* ================================================================== *)

Section Witnesses.
Import Scenario Runs AWSTools OrchestratorAgent BedrockAgent.
#[local] Existing Instance python.
#[local] Existing Instance aws.
#[local] Existing Instance openai.

(** An expired key: listing the buckets is answered with InvalidAccessKeyId,
    as the SDK's record shows, and the response asks for credentials with
    the text for that code. *)
Lemma client_error_mapping_witness :
  exists r,
    fst (invoke GetS3BucketSizes (VCreds expired) fresh) = inr r
    /\ success r = false
    /\ requires_credentials r = mem "InvalidAccessKeyId" credential_codes
    /\ (mem "InvalidAccessKeyId" credential_codes = true ->
        message r = Some (credential_error_message GetS3BucketSizes "InvalidAccessKeyId"))
    /\ (mem "InvalidAccessKeyId" credential_codes = false ->
        not_found_code GetS3BucketSizes "InvalidAccessKeyId" = false ->
        message r = Some ("AWS error: " ++ exn_text (unknown_key "ListBuckets"))).
Proof.
  apply (@client_error_mapping python nat aws GetS3BucketSizes (VCreds expired)
           Cases.fresh_recording (unknown_key "ListBuckets") "InvalidAccessKeyId").
  - exists [unknown_key "ListBuckets"]. split; [reflexivity | left; reflexivity].
  - reflexivity.
Defined.

Lemma reaches_ghost :
  reaches (ask ghost_request) (Some alice) fresh [call_sizes] call_role [call_count]
          (fst (reached (Some alice) ghost_request 1))
          (snd (reached (Some alice) ghost_request 1)).
Proof.
  exists (plan ghost_request),
         (snd (create (initial (ask ghost_request)) (Some tools) fresh)).
  split; [reflexivity |]. split; reflexivity.
Defined.

Lemma reaches_instances :
  reaches (ask instances_request) (Some alice) fresh [call_sizes] call_instances
          [call_count]
          (fst (reached (Some alice) instances_request 1))
          (snd (reached (Some alice) instances_request 1)).
Proof.
  exists (plan instances_request),
         (snd (create (initial (ask instances_request)) (Some tools) fresh)).
  split; [reflexivity |]. split; reflexivity.
Defined.

Lemma reaches_sizes :
  reaches (ask "list my buckets") (Some alice) fresh [] call_sizes []
          (fst (reached (Some alice) "list my buckets" 0))
          (snd (reached (Some alice) "list my buckets" 0)).
Proof.
  exists (plan "list my buckets"),
         (snd (create (initial (ask "list my buckets")) (Some tools) fresh)).
  split; [reflexivity |]. split; reflexivity.
Defined.

(** The role [ghost] does not exist: the second tool call fails without
    asking for credentials, the third is never dispatched. *)
Lemma short_circuit_witness :
  let at_role := reached (Some alice) ghost_request 1 in
  let out := dispatch (Some alice) call_role (snd at_role) in
  let r := snd (fst out) in
  exists text,
    message r = Some text
    /\ process_request (ask ghost_request) (Some alice) fresh
       = (inr (if requires_credentials r
               then mkChatResponse text [] [] None (Some true) None
               else mkChatResponse text (l_actions_taken (fst at_role)) [] None None None),
          snd out)
    /\ l_actions_taken (fst at_role) = map executed [call_sizes]
    /\ count_events is_tool_dispatch (snd out)
       = (count_events is_tool_dispatch fresh + length [call_sizes] + 1)%nat
    /\ filter is_model_call (trace (snd out))
       = (filter is_model_call (trace fresh)
          ++ [ChatCompletionsCreate model (initial (ask ghost_request)) (Some tools)])%list.
Proof.
  intros at_role out r.
  apply (@short_circuit python nat aws openai (ask ghost_request) (Some alice) fresh
           [call_sizes] call_role [call_count] (fst at_role) (snd at_role)
           (fst (fst out)) r (snd out)).
  - exact reaches_ghost.
  - exists (snd at_role). split; reflexivity.
  - right. reflexivity.
Defined.

(** Listing the instances is denied: the second tool call asks for
    credentials after the first succeeded, and the response keeps no record
    of the first. *)
Lemma credentials_result_drops_record_witness :
  let at_instances := reached (Some alice) instances_request 1 in
  let out := dispatch (Some alice) call_instances (snd at_instances) in
  let r := snd (fst out) in
  exists text,
    message r = Some text
    /\ process_request (ask instances_request) (Some alice) fresh
       = (inr (mkChatResponse text [] [] None (Some true) None), snd out)
    /\ l_actions_taken (fst at_instances) = map executed [call_sizes]
    /\ l_actions_taken (fst at_instances) <> []
    /\ length (l_aws_resources_affected (fst at_instances)) = length [call_sizes]
    /\ l_aws_resources_affected (fst at_instances) <> [].
Proof.
  intros at_instances out r.
  apply (@credentials_result_drops_record python nat aws openai (ask instances_request)
           (Some alice) fresh [call_sizes] call_instances [call_count]
           (fst at_instances) (snd at_instances) (fst (fst out)) r (snd out)).
  - exact reaches_instances.
  - discriminate.
  - exists (snd at_instances). split; reflexivity.
  - reflexivity.
Defined.

(** One bucket of ten objects: the sizes are serialised into the tool
    message, which is in the conversation of the final request. *)
Lemma tool_result_round_trip_witness :
  let before := reached (Some alice) "list my buckets" 0 in
  let after := reached (Some alice) "list my buckets" 1 in
  let out := dispatch (Some alice) call_sizes (snd before) in
  let r := snd (fst out) in
  exists serialized more evs,
    json_dumps (data r) = inr serialized
    /\ l_openai_messages (fst after)
       = (l_openai_messages (fst before) ++ recorded call_sizes serialized ++ more)%list
    /\ trace (snd (process_request (ask "list my buckets") (Some alice) fresh))
       = (trace (snd after)
          ++ ChatCompletionsCreate model (l_openai_messages (fst after)) None :: evs)%list.
Proof.
  intros before after out r.
  apply (@tool_result_round_trip python nat aws openai (ask "list my buckets")
           (Some alice) fresh [] call_sizes [] (fst before) (snd before)
           (fst (fst out)) r (snd out) (fst after) (snd after)).
  - exact reaches_sizes.
  - exists (snd before). split; reflexivity.
  - reflexivity.
  - reflexivity.
  - reflexivity.
Defined.

(** No credentials in the request and arguments that parse: the prompt for
    credentials, and a trace with the model call only. *)
Lemma no_credentials_no_fallback_witness :
  let st1 := snd (create (initial (ask "list my buckets")) (Some tools) fresh) in
  process_request (ask "list my buckets") None fresh
  = (inr (mkChatResponse credentials_prompt [] [] None (Some true) None), st1)
  /\ trace st1
     = (trace fresh
        ++ [ChatCompletionsCreate model (initial (ask "list my buckets")) (Some tools)])%list.
Proof.
  intros st1.
  apply (@no_credentials_no_fallback python nat aws openai (ask "list my buckets") fresh
           (plan "list my buckets") st1 call_sizes []).
  - reflexivity.
  - reflexivity.
  - reflexivity.
Defined.

(** The role [admin] exists and Alice may read it: the tool succeeds, its
    data holds the datetime of the role's creation, and the request ends in
    the TypeError of [json.dumps]; the model was asked once. *)
Lemma unserialisable_result_lost_witness :
  let question := ask "describe the role admin" in
  let st1 := snd (create (AI := Cases.analyst) (initial question) (Some tools) fresh) in
  let out := dispatch (Some alice) Cases.call_admin st1 in
  process_request (AI := Cases.analyst) question (Some alice) fresh
  = (inl (Exception "Error in process_request: Object is not JSON serializable"),
     snd out)
  /\ filter is_model_call (trace (snd out))
     = (filter is_model_call (trace fresh)
        ++ [ChatCompletionsCreate model (initial question) (Some tools)])%list.
Proof.
  intros question st1 out.
  apply (@unserialisable_result_lost python nat aws Cases.analyst question (Some alice)
           fresh [] Cases.call_admin [] (mkLocals [] [] (initial question)) st1
           (fst (fst out)) (snd (fst out)) (snd out) "Object is not JSON serializable").
  - exists (mkCompletion None [Cases.call_admin]), st1.
    split; [reflexivity |]. split; reflexivity.
  - exists st1. split; reflexivity.
  - reflexivity.
  - reflexivity.
Defined.


(** Against C5 as stated. The deployment sets the default AWS
    credentials that [main.py] requires; a chat request without credentials
    makes the model ask for the bucket sizes; the answer is the prompt for
    credentials, and the trace has no call to AWS, with any credentials. *)
Lemma default_credentials_unused :
  Main.startup environ 0%nat = inr fresh
  /\ environ "AWS_ACCESS_KEY_ID" = Some (accessKeyId alice)
  /\ let run := Main.chat (Main.mkChatRequest (ask "list my buckets") None None None)
                          fresh in
     fst run = inr (mkChatResponse credentials_prompt [] [] None (Some true) None)
     /\ existsb is_aws_call (trace (snd run)) = false.
Proof.
  split; [reflexivity |]. split; [reflexivity |]. split; reflexivity.
Qed.

(** With credentials, a request to create a bucket ends in the exception
    for an unknown function. *)
Example create_bucket_raises :
  fst (process_request (ask "create a bucket") (Some alice) fresh)
  = inl (Exception "Error in process_request: Unknown function: create_s3_bucket").
Proof. reflexivity. Qed.

(** With valid credentials and a fresh agent, the verdict is the one for
    invalid credentials, and nothing was sent. *)
Example fresh_agent_rejects_valid_credentials :
  validate_aws_operation (VDict []) (VCreds alice) fresh
  = (inr (invalid_credentials_verdict (no_attribute (@VNone Z) "client")), fresh).
Proof. reflexivity. Qed.

(** After a policy suggestion made with Alice's key, the identity check for
    the expired key is sent with Alice's session. *)
Example stale_session_checked :
  let st := snd (suggest_iam_policy "read my buckets" (VCreds alice) fresh) in
  exists evs,
    trace (snd (validate_aws_operation (VDict []) (VCreds expired) st))
    = (trace st ++ BotoClient alice "sts"
                :: STSGetCallerIdentity (mkClient alice "sts") :: evs)%list.
Proof. eexists. reflexivity. Qed.

End Witnesses.

(* ================================================================== *)
(** ** Further properties: the tools' arithmetic and the start-up *)
(* ================================================================== *)

Section Pages.
Context {PY : PythonRuntime}.
Import AWSTools.

Lemma fold_add_total objs : forall size, fold_left Z.add objs size = (size + total objs)%Z.
Proof.
  induction objs as [| x objs IH]; intros size; cbn [fold_left total fold_right].
  - lia.
  - rewrite IH. unfold total. lia.
Qed.

Lemma total_app xs ys : total (xs ++ ys) = (total xs + total ys)%Z.
Proof.
  unfold total. induction xs as [| x xs IH]; cbn [app fold_right]; [reflexivity | lia].
Qed.

Lemma pages_size_from pages : forall size,
  fold_left (fun size page =>
               match page with
               | Some objs => fold_left Z.add objs size
               | None => size
               end) pages size
  = (size + total (contents pages))%Z.
Proof.
  induction pages as [| page pages IH]; intros size.
  - cbn. lia.
  - cbn [fold_left]. rewrite IH. unfold contents. cbn [map concat].
    fold (contents pages). rewrite total_app.
    destruct page as [objs |]; [rewrite fold_add_total | cbn]; lia.
Qed.

Lemma pages_count_from pages : forall n,
  fold_left (fun n page =>
               match page with
               | Some objs => (n + length objs)%nat
               | None => n
               end) pages n
  = (n + length (contents pages))%nat.
Proof.
  induction pages as [| page pages IH]; intros n.
  - cbn. lia.
  - cbn [fold_left]. rewrite IH. unfold contents. cbn [map concat].
    fold (contents pages). rewrite length_app.
    destruct page as [objs |]; cbn [length]; lia.
Qed.

Lemma pages_size_total pages : pages_size pages = total (contents pages).
Proof. unfold pages_size. rewrite pages_size_from. lia. Qed.

Lemma pages_count_total pages : pages_count pages = length (contents pages).
Proof. unfold pages_count. rewrite pages_count_from. lia. Qed.

End Pages.

Section Listed.
Context {PY : PythonRuntime} {W : Type} {SDK : AWSSDK W}.
Import AWSTools.

Lemma paginate_listed s3 bucket (st : State W) pages w1 :
  paginate_list_objects_v2 s3 bucket (world st) = ((pages, None), w1) ->
  exists st1, paginate s3 bucket st = (inr pages, st1) /\ world st1 = w1.
Proof.
  intros H. unfold paginate, bind, call. rewrite H. cbn.
  eexists. split; reflexivity.
Qed.

Lemma bucket_sizes_listed s3 names : forall (st : State W) ls w',
  listings s3 (map (@VStr Float) names) (world st) = (Some ls, w') ->
  exists st',
    for_each (bucket_size_entry s3) names st
    = (inr (map size_entry
                (combine names (map (fun pages => total (contents pages)) ls))), st')
    /\ world st' = w' /\ length ls = length names.
Proof.
  induction names as [| name names IH]; intros st ls w' H; cbn [map listings] in H.
  - inversion H. cbn. eexists. repeat split.
  - destruct (paginate_list_objects_v2 s3 (VStr name) (world st))
      as [[pages [e |]] w1] eqn:Hp; [discriminate H |].
    destruct (listings s3 (map (@VStr Float) names) w1) as [[more |] w2] eqn:Hl;
      [| discriminate H].
    inversion H; subst ls w'. clear H.
    destruct (paginate_listed _ _ _ Hp) as (st1 & Hrun & Hw). subst w1.
    destruct (IH _ _ _ Hl) as (st2 & Hrest & Hw2 & Hlen).
    exists st2. cbn [for_each]. unfold bind at 1. unfold bucket_size_entry at 1.
    unfold bind at 1. rewrite Hrun. cbn [ret]. unfold bind. rewrite Hrest. cbn [ret].
    rewrite pages_size_total. cbn [map combine length]. rewrite Hlen.
    repeat split. exact Hw2.
Qed.

Lemma count_buckets_listed s3 buckets : forall acc (st : State W) ls w',
  listings s3 buckets (world st) = (Some ls, w') ->
  exists st',
    count_buckets s3 buckets acc st
    = (inr (inr (acc ++ map (fun row => stat_of (fst row) (snd row))
                            (combine buckets ls))%list), st')
    /\ world st' = w'.
Proof.
  induction buckets as [| bucket buckets IH]; intros acc st ls w' H; cbn [listings] in H.
  - inversion H. cbn. rewrite app_nil_r. eexists. split; reflexivity.
  - destruct (paginate_list_objects_v2 s3 bucket (world st))
      as [[pages [e |]] w1] eqn:Hp; [discriminate H |].
    destruct (listings s3 buckets w1) as [[more |] w2] eqn:Hl; [| discriminate H].
    inversion H; subst ls w'. clear H.
    destruct (paginate_listed _ _ _ Hp) as (st1 & Hrun & Hw). subst w1.
    destruct (IH (acc ++ [stat_of bucket pages])%list _ _ _ Hl) as (st2 & Hrest & Hw2).
    exists st2. cbn [count_buckets]. unfold bind, count_bucket, try_except, bind.
    rewrite Hrun. cbn [ret]. rewrite pages_size_total, pages_count_total.
    fold (stat_of bucket pages). rewrite Hrest. cbn [combine map fst snd].
    rewrite <- app_assoc. split; [reflexivity | exact Hw2].
Qed.

(** X1. What the two S3 operations report for a bucket is computed from
    all the pages the SDK answered for that bucket's listing: with a
    session and a client made for the credentials, when the SDK lists the
    buckets as [names] and answers their listings with [ls],
    [get_s3_bucket_sizes] reports for each bucket the sum of the sizes of
    all objects of all its pages, and [get_s3_bucket_file_count] without a
    bucket name reports for each the number and the sum; with a bucket
    name, it reports them for the one listing of that bucket.  A page
    without ['Contents'] adds nothing. *)
Theorem pagination_totals (c : AWSCredentials) (st : State W) (w1 w2 : W) :
  boto3_Session c (world st) = (None, w1) ->
  session_client c "s3" w1 = (None, w2) ->
  (forall names w3 ls w4,
     list_buckets (mkClient c "s3") w2 = (inr names, w3) ->
     listings (mkClient c "s3") (map (@VStr Float) names) w3 = (Some ls, w4) ->
     fst (get_s3_bucket_sizes (VCreds c) st)
     = inr (mkAWSResponse true
              (VList (map size_entry
                          (combine names (map (fun pages => total (contents pages)) ls))))
              (Some ("Successfully retrieved information for "
                     ++ str_of_nat (length names) ++ " bucket(s)"))
              false)
     /\ forall bucket,
          truthy bucket = false ->
          let stats := map (fun row => stat_of (fst row) (snd row))
                           (combine (map (@VStr Float) names) ls) in
          fst (get_s3_bucket_file_count bucket (VCreds c) st)
          = inr (mkAWSResponse true (VList (map bucket_stat_entry stats))
                   (Some (file_count_message stats)) false))
  /\ (forall bucket pages w3,
        truthy bucket = true ->
        paginate_list_objects_v2 (mkClient c "s3") bucket w2 = ((pages, None), w3) ->
        fst (get_s3_bucket_file_count bucket (VCreds c) st)
        = inr (mkAWSResponse true (VList [bucket_stat_entry (stat_of bucket pages)])
                 (Some (file_count_message [stat_of bucket pages])) false)).
Proof.
  intros Hsession Hclient.
  assert (Hget : exists st2,
             _get_client "s3" (VCreds c) st = (inr (mkClient c "s3"), st2)
             /\ world st2 = w2).
  { unfold _get_client, _init_session, bind, call, set_tools_session,
      get_tools_session, ret. cbn [truthy]. rewrite Hsession. cbn.
    rewrite Hclient. cbn. eexists. split; reflexivity. }
  destruct Hget as (st2 & Hget & Hw2). subst w2.
  split.
  - intros names w3 ls w4 Hnames Hls.
    assert (Hlist : exists st3,
               call_exn (S3ListBuckets (mkClient c "s3")) (list_buckets (mkClient c "s3"))
                        st2 = (inr names, st3) /\ world st3 = w3).
    { unfold call_exn, bind, call. rewrite Hnames. cbn. eexists. split; reflexivity. }
    destruct Hlist as (st3 & Hlist & Hw3). subst w3.
    split.
    + destruct (bucket_sizes_listed _ _ _ Hls) as (st4 & Hentries & _ & Hlen).
      unfold get_s3_bucket_sizes. cbn [truthy negb].
      unfold try_except, get_s3_bucket_sizes_try.
      rewrite (bind_returns _ _ _ Hget), (bind_returns _ _ _ Hlist),
        (bind_returns _ _ _ Hentries).
      cbn [ret fst]. rewrite length_map, length_combine, length_map, Hlen, Nat.min_id.
      reflexivity.
    + intros bucket Hfalse stats.
      edestruct count_buckets_listed with (acc := @nil BucketStat)
        as (st4 & Hcount & _); [exact Hls |].
      unfold get_s3_bucket_file_count. cbn [truthy negb].
      unfold try_except at 1. rewrite (bind_returns _ _ _ Hget).
      unfold try_except, get_s3_bucket_file_count_try. rewrite Hfalse. cbn [negb].
      unfold bind. rewrite Hlist. cbn [ret]. rewrite Hcount. reflexivity.
  - intros bucket pages w3 Htrue Hpages.
    assert (Hls : listings (mkClient c "s3") [bucket] (world st2) = (Some [pages], w3))
      by (cbn [listings]; rewrite Hpages; reflexivity).
    edestruct count_buckets_listed with (acc := @nil BucketStat)
      as (st4 & Hcount & _); [exact Hls |].
    unfold get_s3_bucket_file_count. cbn [truthy negb].
    unfold try_except at 1. rewrite (bind_returns _ _ _ Hget).
    unfold try_except, get_s3_bucket_file_count_try. rewrite Htrue. cbn [negb].
    unfold bind. cbn [ret]. rewrite Hcount. reflexivity.
Qed.

End Listed.


Section Startup.
Context {PY : PythonRuntime} {W : Type}.
Import Main.

Lemma filter_nil_forallb {A} (f : A -> bool) l :
  filter (fun x => negb (f x)) l = [] <-> forallb f l = true.
Proof.
  induction l as [| x l IH]; cbn [filter forallb]; [tauto |].
  destruct (f x); cbn [negb andb].
  - exact IH.
  - split; discriminate.
Qed.

(** X2. The start-up check passes exactly when each of OPENAI_API_KEY,
    AWS_ACCESS_KEY_ID, AWS_SECRET_ACCESS_KEY and AWS_REGION is set to a
    non-empty value; then the agents start without a session and with an
    empty trace. Otherwise it raises, and the variables it lists are the
    required ones that are unset or empty. *)
Theorem startup_check (environ : string -> option string) (w : W) :
  ((forall var, In var required_env_vars ->
                exists value, environ var = Some value /\ value <> EmptyString)
   <-> startup environ w
       = inr (mkState w [] None None (BedrockAgent.model_id_of environ)))
  /\ (forall e, startup environ w = inl e ->
        e = Exception ("Missing required environment variables: "
                       ++ String.concat ", " (missing_vars environ))
        /\ missing_vars environ <> []
        /\ forall var, In var (missing_vars environ)
                       <-> In var required_env_vars
                           /\ (environ var = None \/ environ var = Some EmptyString)).
Proof.
  assert (Hset : forall var,
             error_set (environ var) = true
             <-> exists value, environ var = Some value /\ value <> EmptyString).
  { intros var. unfold error_set. destruct (environ var) as [value |].
    - destruct (String.eqb_spec value EmptyString) as [-> | Hne]; cbn [negb].
      + split; [discriminate |]. intros (v & Hv & Hn). inversion Hv. congruence.
      + split; [| reflexivity]. intros _. exists value. split; [reflexivity | exact Hne].
    - split; [discriminate |]. intros (v & Hv & _). discriminate Hv. }
  assert (Hunset : forall var,
             error_set (environ var) = false
             <-> environ var = None \/ environ var = Some EmptyString).
  { intros var. unfold error_set. destruct (environ var) as [value |].
    - destruct (String.eqb_spec value EmptyString) as [-> | Hne]; cbn [negb].
      + split; [intros _; right; reflexivity | reflexivity].
      + split; [discriminate |]. intros [H | H]; [discriminate H |].
        inversion H. congruence.
    - split; [intros _; left; reflexivity | reflexivity]. }
  split.
  - unfold startup. split.
    + intros H.
      assert (Hm : missing_vars environ = []).
      { unfold missing_vars. apply filter_nil_forallb. apply forallb_forall.
        intros var Hin. apply Hset. apply H. exact Hin. }
      rewrite Hm. reflexivity.
    + intros H var Hin. apply Hset.
      destruct (missing_vars environ) eqn:Hm; [| discriminate H].
      unfold missing_vars in Hm. apply filter_nil_forallb in Hm.
      rewrite forallb_forall in Hm. apply Hm. exact Hin.
  - intros e H. unfold startup in H.
    destruct (missing_vars environ) as [| v vs] eqn:Hm; [discriminate H |].
    inversion H. split; [reflexivity |]. split; [discriminate |].
    intros var. rewrite <- Hm. unfold missing_vars. rewrite filter_In.
    rewrite negb_true_iff. rewrite Hunset. tauto.
Qed.

End Startup.

(* ================================================================== *)
(** ** Further properties: the policy reviewer *)
(* ================================================================== *)

Section Reviewer.
Context {PY : PythonRuntime} {W : Type} {SDK : AWSSDK W}.
Import BedrockAgent.

Lemma invoke_bedrock_without_credentials prompt credentials (st : State W) :
  truthy credentials = false ->
  _invoke_bedrock prompt credentials st = (inl credentials_required, st).
Proof.
  intros H. unfold _invoke_bedrock, try_except, bind, _get_bedrock_client, bind,
    _init_session.
  rewrite H. reflexivity.
Qed.

(** X3. Without credentials (None, or any falsy value) the reviewer has no
    fallback: [suggest_iam_policy] raises "AWS credentials are required for
    this operation" under the caption of [_invoke_bedrock], and
    [validate_aws_operation] raises as well; neither touches the world, the
    trace or the session. *)
Theorem reviewer_requires_credentials (description : string)
    (operation credentials : Val) (st : State W) :
  truthy credentials = false ->
  suggest_iam_policy description credentials st = (inl credentials_required, st)
  /\ exists e, validate_aws_operation operation credentials st = (inl e, st).
Proof.
  intros H. split.
  - unfold suggest_iam_policy, bind.
    rewrite invoke_bedrock_without_credentials by exact H. reflexivity.
  - unfold validate_aws_operation, review. rewrite H.
    destruct (json_dumps_indent2 operation) as [text | operation_json].
    + eexists. reflexivity.
    + exists credentials_required. unfold bind.
      rewrite invoke_bedrock_without_credentials by exact H. reflexivity.
Qed.

Lemma validate_aws_operation_returns (operation credentials : Val) (st : State W)
    (v : Val) (st' : State W) :
  validate_aws_operation operation credentials st = (inr v, st') ->
  exists d, v = VDict d /\ mem "is_valid" (dict_keys d) = true.
Proof.
  assert (Hreview : forall s s', review operation credentials s = (inr v, s') ->
                                 exists d, v = VDict d /\ mem "is_valid" (dict_keys d) = true).
  { intros s s' H. unfold review in H.
    destruct (json_dumps_indent2 operation) as [text | operation_json];
      [discriminate H |].
    bind_inv H as response s1 H1. bind_inv H as result s2 H2.
    destruct result; try discriminate H.
    destruct (mem "is_valid" (dict_keys d)) eqn:Hk; [| discriminate H].
    ret_inv H. exists d. split; [reflexivity | exact Hk]. }
  unfold validate_aws_operation. intros H.
  destruct (truthy credentials); [| eapply Hreview; exact H].
  bind_inv H as checked s1 Hcheck. destruct checked as [verdict |].
  - ret_inv H. unfold identity_check, try_except in Hcheck.
    match type of Hcheck with
    | context [match ?m st with _ => _ end] => destruct (m st) as [[e | x] s2] eqn:Hm
    end.
    + ret_inv Hcheck. eexists. split; reflexivity.
    + bind_inv Hm as sts s3 H3. bind_inv Hm as identity s4 H4. ret_inv Hm.
      inversion Hcheck.
  - eapply Hreview; exact H.
Qed.

(** X4. Whatever [validate_aws_operation] returns is a dict with the key
    [is_valid]: the verdict for invalid credentials has it, and a reply of
    the model without it is refused. *)
Theorem validation_result_has_is_valid (operation credentials : Val) (st : State W)
    (v : Val) (st' : State W) :
  validate_aws_operation operation credentials st = (inr v, st') ->
  exists d, v = VDict d /\ mem "is_valid" (dict_keys d) = true.
Proof. apply validate_aws_operation_returns. Qed.

(** X5. An exception of the model invocation leaves [_invoke_bedrock] as a
    plain Exception captioned by its kind: access denied, invalid request
    and throttling by their ClientError codes, any other ClientError as a
    Bedrock error, a BotoCoreError as a connection error, anything else by
    its own text; all under "Error in _invoke_bedrock: ". *)
Theorem bedrock_error_caption (prompt : string) (credentials : Val) (st : State W)
    (bedrock : Client) (st1 : State W) (e : Exn) (w' : W) :
  _get_bedrock_client credentials st = (inr bedrock, st1) ->
  invoke_model bedrock (bedrock_model_id st1) (bedrock_request prompt) (world st1)
    = (inl e, w') ->
  fst (_invoke_bedrock prompt credentials st)
  = inl (Exception ("Error in _invoke_bedrock: " ++ bedrock_caption e)).
Proof.
  intros Hclient Hinvoke.
  unfold _invoke_bedrock, try_except. unfold bind at 1. unfold bind at 1.
  rewrite Hclient. cbn [get_model_id bind].
  unfold call_exn, bind, call. rewrite Hinvoke. cbn [raised bind log raise].
  unfold bedrock_caption.
  destruct (exn_class e); try reflexivity.
  destruct (code =? "AccessDeniedException"); [reflexivity |].
  destruct (code =? "ValidationException"); [reflexivity |].
  destruct (code =? "ThrottlingException"); reflexivity.
Qed.

(** X6. A completion [_invoke_bedrock] returns is never empty: an empty or
    missing [completion] in the body is raised as "Empty response from
    Bedrock". *)
Theorem bedrock_completion_not_empty (prompt : string) (credentials : Val)
    (st : State W) (completion : Val) (st' : State W) :
  _invoke_bedrock prompt credentials st = (inr completion, st') ->
  truthy completion = true.
Proof.
  unfold _invoke_bedrock, try_except. intros H.
  match type of H with
  | context [match ?m st with _ => _ end] => destruct (m st) as [[e | x] s1] eqn:Hm
  end; [discriminate H |].
  inversion H; subst x s1. clear H.
  bind_inv Hm as response s2 H2.
  match type of Hm with
  | context [match ?m s2 with _ => _ end] => destruct (m s2) as [[e | x] s3] eqn:Hp
  end.
  - destruct (exn_class e); discriminate Hm.
  - inversion Hm; subst x s3. clear Hm.
    bind_inv Hp as body s4 H4. bind_inv Hp as c s5 H5.
    destruct (truthy c) eqn:Ht; cbn [negb] in Hp; [| discriminate Hp].
    ret_inv Hp. exact Ht.
Qed.

End Reviewer.

(* ================================================================== *)
(** ** Further properties: the orchestrator *)
(* ================================================================== *)

Section OrchestratorMore.
Context {PY : PythonRuntime} {W : Type} {SDK : AWSSDK W} {AI : OpenAIClient W}.
Import AWSTools OrchestratorAgent.

(** X7. When the model's first reply asks for no tool call, its text is the
    response, with nothing in [actions_taken] and [aws_resources_affected]
    and [requiresCredentials] false, after that one model call; a reply
    without text makes the request fail on the response's validation. *)
Theorem direct_reply (messages : list Message) (aws_credentials : option AWSCredentials)
    (st0 : State W) (reply : CompletionMessage) (st1 : State W) :
  create (initial messages) (Some tools) st0 = (inr reply, st1) ->
  msg_tool_calls reply = [] ->
  process_request messages aws_credentials st0
  = match msg_content reply with
    | Some text => (inr (mkChatResponse text [] [] None (Some false) None), st1)
    | None => (inl (Exception ("Error in process_request: " ++ py_validation_error)), st1)
    end
  /\ trace st1
     = (trace st0 ++ [ChatCompletionsCreate model (initial messages) (Some tools)])%list.
Proof.
  intros Hc Htc. split; [| eapply create_returns; exact Hc].
  unfold process_request. fold (initial messages).
  unfold try_except. rewrite (bind_returns _ _ _ Hc). rewrite Htc.
  destruct (msg_content reply); reflexivity.
Qed.

(** X8. When every tool call of the batch goes through and the model then
    answers with a text, the response is that text, [actions_taken] has one
    "Successfully executed" label per tool call in the order of the batch,
    [aws_resources_affected] has one entry per tool call, and the trace
    gained one dispatch per tool call and two model calls, the second with
    the conversation the loop built. *)
Theorem batch_success (messages : list Message) (aws_credentials : option AWSCredentials)
    (st0 : State W) (reply : CompletionMessage) (st1 : State W) (l : Locals)
    (st2 : State W) (final : CompletionMessage) (st3 : State W) (text : string) :
  create (initial messages) (Some tools) st0 = (inr reply, st1) ->
  msg_tool_calls reply <> [] ->
  process_tool_calls aws_credentials (msg_tool_calls reply)
                     (mkLocals [] [] (initial messages)) st1 = (inr (Next l), st2) ->
  create (l_openai_messages l) None st2 = (inr final, st3) ->
  msg_content final = Some text ->
  process_request messages aws_credentials st0
  = (inr (mkChatResponse text (map executed (msg_tool_calls reply))
                         (l_aws_resources_affected l) None (Some false) None), st3)
  /\ length (l_aws_resources_affected l) = length (msg_tool_calls reply)
  /\ count_events is_tool_dispatch st3
     = (count_events is_tool_dispatch st0 + length (msg_tool_calls reply))%nat
  /\ filter is_model_call (trace st3)
     = (filter is_model_call (trace st0)
        ++ [ChatCompletionsCreate model (initial messages) (Some tools);
            ChatCompletionsCreate model (l_openai_messages l) None])%list.
Proof.
  intros Hc Hne Hloop Hfinal Htext.
  destruct (process_tool_calls_next _ _ _ _ Hloop) as (Ha & Hr & _ & Hd & Hf).
  cbn [l_actions_taken l_aws_resources_affected app length] in Ha, Hr.
  pose proof (create_returns _ _ _ Hc) as T1.
  pose proof (create_returns _ _ _ Hfinal) as T3.
  split; [| split; [exact Hr | split]].
  - eapply eq_trans;
      [eapply process_request_run; [exact Hc | reflexivity | exact Hne | exact Hloop] |].
    cbn beta iota. unfold try_except. rewrite (bind_returns _ _ _ Hfinal).
    rewrite Htext, Ha. reflexivity.
  - unfold count_events in *. rewrite T3, filter_app. cbn [filter is_tool_dispatch].
    rewrite app_nil_r, Hd, T1, filter_app. cbn [filter is_tool_dispatch].
    rewrite app_nil_r. reflexivity.
  - rewrite T3, filter_app. cbn [filter is_model_call].
    rewrite Hf, T1, filter_app. cbn [filter is_model_call].
    rewrite <- app_assoc. reflexivity.
Qed.

Lemma process_request_raises_plain messages aws_credentials (st : State W) e st' :
  process_request messages aws_credentials st = (inl e, st') ->
  exn_class e = PlainException
  /\ exists inner, exn_text e = "Error in process_request: " ++ inner.
Proof.
  unfold process_request, try_except. intros H.
  match type of H with
  | context [match ?m st with _ => _ end] => destruct (m st) as [[e0 | r] s1]
  end.
  - inversion H. split; [reflexivity | eexists; reflexivity].
  - discriminate H.
Qed.

Lemma dict_get_set k (v : Val) d : dict_get k (dict_set k v d) = Some v.
Proof.
  induction d as [| [k' v'] d IH]; cbn [dict_set dict_get].
  - rewrite String.eqb_refl. reflexivity.
  - destruct (k' =? k) eqn:Hk; cbn [dict_get]; rewrite ?Hk, ?String.eqb_refl.
    + reflexivity.
    + exact IH.
Qed.

(** X9. A tool call is dispatched with the credentials of the request under
    ['credentials'], whatever the model wrote under that key, and the line
    [_execute_function] logs for the call holds these arguments, the
    credentials included. *)
Theorem dispatch_carries_credentials (c : AWSCredentials) (tool_call : ToolCall)
    (st : State W) (arguments : Val) (r : AWSResponse) (st' : State W) :
  dispatched (Some c) tool_call st arguments r st' ->
  exists d,
    arguments = VDict d
    /\ dict_get "credentials" d = Some (VCreds c)
    /\ In (LogExecuting (tc_name tool_call) arguments) (trace st').
Proof.
  intros Hd. destruct (dispatched_facts Hd) as (_ & Hreq & _ & _ & _).
  destruct Hd as (st1 & Hprep & Hexec).
  destruct (execute_function_facts _ _ _ Hexec) as (_ & evs & _ & _ & _ & E & _).
  unfold prepare_arguments in Hprep.
  destruct (json_loads (tc_arguments tool_call)) as [text | v]; [discriminate Hprep |].
  unfold _requires_aws_credentials in Hprep. rewrite Hreq in Hprep.
  bind_inv Hprep as a s1 Hset. ret_inv Hprep.
  unfold set_credentials in Hset. destruct v; try discriminate Hset.
  ret_inv Hset. eexists. split; [reflexivity |]. split; [apply dict_get_set |].
  rewrite E. apply in_or_app. right. left. reflexivity.
Qed.

Lemma dict_without_key key (d : list (string * Val)) :
  mem key (dict_keys (dict_without key d)) = false.
Proof.
  unfold mem, dict_keys, dict_without.
  induction d as [| [k v] d IH]; cbn [filter map existsb fst]; [reflexivity |].
  destruct (k =? key) eqn:Hk; cbn [negb map existsb fst].
  - exact IH.
  - rewrite String.eqb_sym, Hk, IH. reflexivity.
Qed.

Lemma process_tool_call_return aws_credentials tool_call l (st : State W) r st' :
  process_tool_call aws_credentials tool_call l st = (inr (Return r), st') ->
  aws_resources_affected r = [].
Proof.
  unfold process_tool_call. intros H. bind_inv H as prepared s1 Hprep.
  destruct prepared as [resp | arguments].
  - ret_inv H. unfold prepare_arguments in Hprep.
    destruct (json_loads (tc_arguments tool_call)); [discriminate Hprep |].
    destruct (_requires_aws_credentials (tc_name tool_call)); [| ret_inv Hprep].
    destruct aws_credentials as [c |].
    + bind_inv Hprep as args s2 Hs. ret_inv Hprep.
    + bind_inv Hprep as resp0 s2 Hs. ret_inv Hprep.
      unfold new_ChatResponse in Hs. ret_inv Hs. reflexivity.
  - unfold try_except in H.
    match type of H with
    | context [match ?m s1 with _ => _ end] => destruct (m s1) as [[e | flow] s2] eqn:Hm
    end.
    + unfold execute_except in H.
      destruct (_ || _); [| discriminate H].
      cbn in H. inversion H. reflexivity.
    + inversion H; subst flow s2. unfold execute_and_record in Hm.
      bind_inv Hm as result s3 Hexec.
      destruct result as [res | v].
      * destruct (requires_credentials res).
        -- bind_inv Hm as resp s4 Hn. ret_inv Hm. unfold new_ChatResponse in Hn.
           destruct (message res); [ret_inv Hn; reflexivity | discriminate Hn].
        -- destruct (negb (success res)).
           ++ bind_inv Hm as resp s4 Hn. ret_inv Hm. unfold new_ChatResponse in Hn.
              destruct (message res); [ret_inv Hn; reflexivity | discriminate Hn].
           ++ bind_inv Hm as resources s4 Hn.
              destruct (json_dumps (data res)); [discriminate Hm | ret_inv Hm].
      * bind_inv Hm as resources s4 Hn.
        destruct (json_dumps v); [discriminate Hm | ret_inv Hm].
Qed.

Lemma process_tool_call_next_clean aws_credentials tool_call l (st : State W) l' st' :
  process_tool_call aws_credentials tool_call l st = (inr (Next l'), st') ->
  exists entry,
    l_aws_resources_affected l' = (l_aws_resources_affected l ++ [entry])%list
    /\ clean_entry entry.
Proof.
  intros H. pose proof H as Hrun. apply process_tool_call_next in H.
  destruct H as (arguments & r & s & Hd & Hrc & Hs & Hj & _).
  destruct (process_tool_call_dispatched l Hd) as (text & d & _ & -> & Heq).
  rewrite Hrun, Hrc, Hs, Hj in Heq. cbn [negb] in Heq. inversion Heq.
  eexists. split; [reflexivity |].
  eexists _, _. split; [reflexivity | apply dict_without_key].
Qed.

Lemma process_tool_calls_clean aws_credentials tool_calls :
  forall l (st : State W) flow st',
  process_tool_calls aws_credentials tool_calls l st = (inr flow, st') ->
  Forall clean_entry (l_aws_resources_affected l) ->
  match flow with
  | Return r => aws_resources_affected r = []
  | Next l' => Forall clean_entry (l_aws_resources_affected l')
  end.
Proof.
  induction tool_calls as [| tc tcs IH]; intros l st flow st' H Hclean;
    cbn [process_tool_calls] in H.
  - ret_inv H. exact Hclean.
  - bind_inv H as step s1 Hstep. destruct step as [r | l1].
    + ret_inv H. eapply process_tool_call_return; exact Hstep.
    + apply (IH _ _ _ _ H).
      destruct (process_tool_call_next_clean _ _ _ _ Hstep) as (entry & -> & He).
      apply Forall_app. split; [exact Hclean |]. constructor; [exact He | constructor].
Qed.

(** X10. The credentials never come back in a response: every entry of
    [aws_resources_affected] of a response of [process_request] names an
    operation and holds its parameters without the key ['credentials']. *)
Theorem response_holds_no_credentials (messages : list Message)
    (aws_credentials : option AWSCredentials) (st : State W)
    (r : ChatResponse) (st' : State W) :
  process_request messages aws_credentials st = (inr r, st') ->
  Forall clean_entry (aws_resources_affected r).
Proof.
  unfold process_request, try_except. intros H.
  match type of H with
  | context [match ?m st with _ => _ end] => destruct (m st) as [[e | r0] s1] eqn:Hm
  end; [discriminate H |].
  inversion H; subst r0 s1. clear H.
  bind_inv Hm as reply s2 Hc.
  destruct (msg_tool_calls reply) as [| tc tcs] eqn:Htc.
  - unfold new_ChatResponse in Hm. destruct (msg_content reply); [| discriminate Hm].
    ret_inv Hm. constructor.
  - bind_inv Hm as flow s3 Hloop.
    pose proof (process_tool_calls_clean _ _ _ _ Hloop (Forall_nil _)) as Hclean.
    destruct flow as [r0 | l].
    + ret_inv Hm. rewrite Hclean. constructor.
    + bind_inv Hm as final s4 Hf. unfold new_ChatResponse in Hm.
      destruct (msg_content final); [| discriminate Hm].
      ret_inv Hm. exact Hclean.
Qed.

End OrchestratorMore.

(* ================================================================== *)
(** ** Further properties: what the tools return *)
(* ================================================================== *)

Section ToolShapes.
Context {PY : PythonRuntime} {W : Type} {SDK : AWSSDK W}.
Import AWSTools.

(** X11. Credentials that are no [AWSCredentials] object (a dict, a string,
    a datetime, ...) and are not falsy make every operation fail on the
    session: the response reports failure without asking for credentials,
    the message is the operation's generic text around the AttributeError,
    which names the type as CPython does ([tp_name]), and nothing is sent
    to boto3 or AWS. *)
Theorem foreign_credentials_fail (op : Operation) (credentials : Val) (st : State W) :
  truthy credentials = true ->
  (forall c, credentials <> VCreds c) ->
  invoke op credentials st
  = (inr (mkAWSResponse false VNone
            (Some (error_prefix op ++ "Failed to initialize AWS session: '"
                   ++ tp_name credentials
                   ++ "' object has no attribute 'accessKeyId'"))
            false), st).
Proof.
  intros Ht Hc.
  destruct op; cbn [invoke];
    unfold get_s3_bucket_sizes, list_ec2_instances, describe_iam_role,
      get_s3_bucket_file_count, get_s3_bucket_sizes_try, list_ec2_instances_try,
      describe_iam_role_try, try_except, bind, _get_client, bind, _init_session;
    rewrite Ht; cbn [negb];
    destruct credentials; try discriminate Ht;
    try (exfalso; eapply Hc; reflexivity); reflexivity.
Qed.

Lemma bucket_size_entries s3 names : forall (st : State W) entries st',
  for_each (bucket_size_entry s3) names st = (inr entries, st') ->
  exists sizes, length sizes = length names
                /\ entries = map size_entry (combine names sizes).
Proof.
  induction names as [| name names IH]; intros st entries st' H; cbn [for_each] in H.
  - ret_inv H. exists []. split; reflexivity.
  - bind_inv H as entry s1 He. bind_inv H as rest s2 Hr. ret_inv H.
    destruct (IH _ _ _ Hr) as (sizes & Hl & ->).
    unfold bucket_size_entry in He. bind_inv He as pages s3' Hp. ret_inv He.
    exists (pages_size pages :: sizes). split; [cbn [length]; lia | reflexivity].
Qed.

(** X12. When [get_s3_bucket_sizes] reports success, [data] is a list with
    one entry per bucket, each with its name, its size in bytes and, as
    size in megabytes, the rounding of that same size; the number in the
    message is the number of entries; and credentials are not asked for. *)
Theorem bucket_sizes_report (credentials : Val) (st : State W) (r : AWSResponse)
    (st' : State W) :
  get_s3_bucket_sizes credentials st = (inr r, st') ->
  success r = true ->
  exists rows : list (string * Z),
    data r = VList (map size_entry rows)
    /\ message r = Some ("Successfully retrieved information for "
                         ++ str_of_nat (length rows) ++ " bucket(s)")
    /\ requires_credentials r = false.
Proof.
  unfold get_s3_bucket_sizes. intros H Hs.
  destruct (negb (truthy credentials)); [ret_inv H; discriminate Hs |].
  unfold try_except in H.
  destruct (get_s3_bucket_sizes_try credentials st) as [[e | r0] s1] eqn:Hb.
  - ret_inv H. exfalso.
    destruct (get_s3_bucket_sizes_except_well_formed e) as [_ Hw].
    unfold get_s3_bucket_sizes_except in Hs.
    destruct (exn_class e); try discriminate Hs.
    repeat match type of Hs with
           | context [if ?b then _ else _] => destruct b
           end; discriminate Hs.
  - inversion H; subst r0 s1. unfold get_s3_bucket_sizes_try in Hb.
    bind_inv Hb as s3 s2 H2. bind_inv Hb as names s3' H3. bind_inv Hb as entries s4 H4.
    ret_inv Hb. destruct (bucket_size_entries _ _ _ H4) as (sizes & Hl & ->).
    exists (combine names sizes). cbn [data message requires_credentials].
    rewrite length_map. repeat split.
Qed.

Lemma count_bucket_stat s3 b (st : State W) stat st' :
  count_bucket s3 b st = (inr (inr stat), st') ->
  exists n size, stat = mkBucketStat b n size (py_round_mb size).
Proof.
  unfold count_bucket, try_except. intros H.
  match type of H with
  | context [match ?m st with _ => _ end] => destruct (m st) as [[e | x] s1] eqn:Hm
  end.
  - destruct (exn_class e); try discriminate H.
    destruct (code =? "NoSuchBucket"); discriminate H.
  - inversion H; subst x s1. bind_inv Hm as pages s2 Hp. ret_inv Hm.
    eexists _, _. reflexivity.
Qed.

Lemma count_buckets_stats s3 bs : forall acc (st : State W) stats st',
  count_buckets s3 bs acc st = (inr (inr stats), st') ->
  exists news,
    stats = (acc ++ news)%list
    /\ map bucket_name news = bs
    /\ Forall (fun s => total_size_mb s = py_round_mb (total_size_bytes s)) news.
Proof.
  induction bs as [| b bs IH]; intros acc st stats st' H; cbn [count_buckets] in H.
  - ret_inv H. exists []. split; [symmetry; apply app_nil_r |]. split; constructor.
  - bind_inv H as x s1 Hx. destruct x as [resp | stat]; [ret_inv H |].
    destruct (count_bucket_stat _ _ _ Hx) as (n & size & ->).
    destruct (IH _ _ _ _ H) as (news & -> & Hn & Hf).
    exists (mkBucketStat b n size (py_round_mb size) :: news).
    split; [rewrite <- app_assoc; reflexivity |].
    split; [cbn [map bucket_name]; rewrite Hn; reflexivity |].
    constructor; [reflexivity | exact Hf].
Qed.

(** X13. When [get_s3_bucket_file_count] reports success, [data] has one
    entry per bucket counted and the message is built from these same
    entries; the size in megabytes of an entry is the rounding of its size
    in bytes; and for a bucket given by name there is exactly one entry, for
    that bucket, so the message is the one that names it. *)
Theorem file_count_report (bucket credentials : Val) (st : State W)
    (r : AWSResponse) (st' : State W) :
  get_s3_bucket_file_count bucket credentials st = (inr r, st') ->
  success r = true ->
  exists stats,
    data r = VList (map bucket_stat_entry stats)
    /\ message r = Some (file_count_message stats)
    /\ Forall (fun s => total_size_mb s = py_round_mb (total_size_bytes s)) stats
    /\ (truthy bucket = true ->
        exists n size,
          stats = [mkBucketStat bucket n size (py_round_mb size)]
          /\ message r
             = Some ("Bucket '" ++ py_str bucket ++ "' contains " ++ str_of_nat n
                     ++ " files (" ++ py_float_str (py_round_mb size) ++ " MB)")).
Proof.
  unfold get_s3_bucket_file_count. intros H Hs.
  destruct (negb (truthy credentials)); [ret_inv H; discriminate Hs |].
  unfold try_except at 1 in H.
  match type of H with
  | context [match ?m st with _ => _ end] => destruct (m st) as [[e | r0] s1] eqn:Hb
  end; [ret_inv H; discriminate Hs |].
  inversion H; subst r0 s1. clear H.
  bind_inv Hb as s3 s2 H2. unfold try_except in Hb.
  destruct (get_s3_bucket_file_count_try s3 bucket s2) as [[e | r0] s3'] eqn:Ht.
  - exfalso. unfold get_s3_bucket_file_count_except in Hb.
    destruct (exn_class e); try discriminate Hb.
    repeat match type of Hb with
           | context [if ?b then _ else _] => destruct b
           end; ret_inv Hb; discriminate Hs.
  - inversion Hb; subst r0 s3'. clear Hb.
    unfold get_s3_bucket_file_count_try in Ht.
    bind_inv Ht as bs s4 H4. bind_inv Ht as x s5 H5.
    destruct x as [resp | stats].
    + ret_inv Ht. apply count_buckets_response in H5. destruct H5 as [b' ->].
      discriminate Hs.
    + ret_inv Ht. destruct (count_buckets_stats _ _ _ _ H5) as (news & -> & Hn & Hf).
      cbn [app] in *. exists news. cbn [data message].
      split; [reflexivity |]. split; [reflexivity |]. split; [exact Hf |].
      intros Htruthy. rewrite Htruthy in H4. cbn [negb] in H4.
      apply ret_inv in H4. destruct H4 as [E4 _]. rewrite <- E4 in Hn.
      destruct news as [| s [| s' news]]; try discriminate Hn.
      inversion Hn. inversion Hf as [| ? ? Hmb _]; subst.
      destruct s as [b n size mb]. cbn in *. subst mb.
      exists n, size. split; reflexivity.
Qed.

End ToolShapes.

(* ================================================================== *)
(** ** Further properties: whose credentials reach AWS *)
(* ================================================================== *)

Section EmitsMore.
Context {PY : PythonRuntime} {W : Type}.

Lemma emits_weaken (p q : Event -> bool) {A} (m : M W A) :
  (forall ev, p ev = true -> q ev = true) -> emits p m -> emits q m.
Proof.
  intros Hpq Hm st. destruct (Hm st) as (evs & E & P).
  exists evs. split; [exact E |].
  rewrite forallb_forall in *. intros ev Hin. apply Hpq, P, Hin.
Qed.

(** [bind], when what [m] returns is known to satisfy [Q]. *)
Lemma emits_bind_strong (p : Event -> bool) {A B} (Q : A -> Prop)
    (m : M W A) (k : A -> M W B) :
  emits p m ->
  (forall st a st', m st = (inr a, st') -> Q a) ->
  (forall a, Q a -> emits p (k a)) ->
  emits p (bind m k).
Proof.
  intros Hm HQ Hk st. unfold bind.
  destruct (Hm st) as (evs1 & E1 & P1).
  destruct (m st) as [[e | a] st1] eqn:Hrun; cbn [snd] in *.
  - exists evs1. split; assumption.
  - destruct (Hk a (HQ _ _ _ Hrun) st1) as (evs2 & E2 & P2).
    exists (evs1 ++ evs2)%list. split.
    + rewrite E2, E1. symmetry. apply app_assoc.
    + rewrite forallb_app, P1, P2. reflexivity.
Qed.

Lemma credentials_eqb_refl c : credentials_eqb c c = true.
Proof. unfold credentials_eqb. rewrite !String.eqb_refl. reflexivity. Qed.

End EmitsMore.

(** A step of a proof that a computation only emits calls made with the
    credentials at hand. *)
Ltac made_with_step :=
  match goal with
  | |- emits _ (ret _) => apply emits_ret
  | |- emits _ (raise _) => apply emits_raise
  | |- emits _ (bind _ _) => apply emits_bind; [| intros ?]
  | |- emits _ (try_except _ _) => apply emits_try_except; [| intros ?]
  | |- emits _ (call _ _) => apply emits_call; cbn; apply credentials_eqb_refl
  | |- emits _ (raised _) => apply emits_raised; reflexivity
  | |- emits _ (call_exn _ _) =>
      apply emits_call_exn; [cbn; apply credentials_eqb_refl | intros ?; reflexivity]
  | |- emits _ (for_each _ _) => apply emits_for_each; intros ?
  | |- emits _ (if ?b then _ else _) => destruct b
  | |- emits _ (match ?x with _ => _ end) => destruct x
  end.

Section ToolCredentials.
Context {PY : PythonRuntime} {W : Type} {SDK : AWSSDK W}.
Import AWSTools.

Lemma get_client_made_with c service :
  emits (made_with c) (_get_client service (VCreds c))
  /\ forall (st : State W) cl st',
       _get_client service (VCreds c) st = (inr cl, st') -> cl = mkClient c service.
Proof.
  split.
  - intros st.
    unfold _get_client, _init_session, bind, call, set_tools_session,
      get_tools_session, ret, raise.
    cbn [truthy].
    destruct (boto3_Session c (world st)) as [[text |] w1]; cbn.
    + exists [BotoSession c]. split; [reflexivity |].
      cbn. rewrite credentials_eqb_refl. reflexivity.
    + destruct (session_client c service w1) as [[text |] w2]; cbn;
        exists [BotoSession c; BotoClient c service];
        (split; [rewrite <- app_assoc; reflexivity |]);
        cbn; rewrite credentials_eqb_refl; reflexivity.
  - intros st cl st'.
    unfold _get_client, _init_session, bind, call, set_tools_session,
      get_tools_session, ret, raise.
    cbn [truthy].
    destruct (boto3_Session c (world st)) as [[text |] w1]; cbn; [discriminate |].
    destruct (session_client c service w1) as [[text |] w2]; cbn; [discriminate |].
    intros H. inversion H. reflexivity.
Qed.

Lemma emits_with_client c service {B} (k : Client -> M W B) :
  emits (made_with c) (k (mkClient c service)) ->
  emits (made_with c) (bind (_get_client service (VCreds c)) k).
Proof.
  intros Hk. destruct (get_client_made_with c service) as [He Hcl].
  apply emits_bind_strong with (Q := fun cl => cl = mkClient c service).
  - exact He.
  - exact Hcl.
  - intros cl ->. exact Hk.
Qed.

Lemma paginate_made_with c service b :
  emits (made_with c) (paginate (mkClient c service) b).
Proof. unfold paginate. repeat made_with_step. Qed.

Lemma count_buckets_made_with c service bs :
  forall acc, emits (made_with c) (count_buckets (mkClient c service) bs acc).
Proof.
  induction bs as [| b bs IH]; intros acc; cbn [count_buckets].
  - apply emits_ret.
  - apply emits_bind.
    + unfold count_bucket. apply emits_try_except.
      * apply emits_bind; [apply paginate_made_with | intros ?; apply emits_ret].
      * intros e. repeat made_with_step.
    + intros [resp | stat]; [apply emits_ret | apply IH].
Qed.

Lemma invoke_made_with (op : Operation) (c : AWSCredentials) :
  emits (made_with c) (invoke op (VCreds c)).
Proof.
  destruct op as [ | | role_name | bucket_name]; cbn [invoke].
  - unfold get_s3_bucket_sizes. cbn [truthy negb].
    apply emits_try_except; [| intros e; apply emits_ret].
    unfold get_s3_bucket_sizes_try. apply emits_with_client.
    apply emits_bind; [repeat made_with_step | intros names].
    apply emits_bind; [| intros ?; apply emits_ret].
    apply emits_for_each. intros name. unfold bucket_size_entry.
    apply emits_bind; [apply paginate_made_with | intros ?; apply emits_ret].
  - unfold list_ec2_instances. cbn [truthy negb].
    apply emits_try_except; [| intros e; apply emits_ret].
    unfold list_ec2_instances_try. apply emits_with_client. repeat made_with_step.
  - unfold describe_iam_role. cbn [truthy negb].
    apply emits_try_except; [| intros e; apply emits_ret].
    unfold describe_iam_role_try. apply emits_with_client. repeat made_with_step.
  - unfold get_s3_bucket_file_count. cbn [truthy negb].
    apply emits_try_except; [| intros e; apply emits_ret].
    apply emits_with_client. apply emits_try_except.
    + unfold get_s3_bucket_file_count_try.
      apply emits_bind; [repeat made_with_step | intros bs].
      apply emits_bind; [apply count_buckets_made_with |].
      intros [resp | stats]; apply emits_ret.
    + intros e. unfold get_s3_bucket_file_count_except. repeat made_with_step.
Qed.

(** X14. An operation called with an [AWSCredentials] object makes its
    session, its client and every request to AWS with these credentials: a
    session left by an earlier call is never used. *)
Theorem tool_uses_given_credentials (op : Operation) (c : AWSCredentials)
    (st : State W) :
  exists evs,
    trace (snd (invoke op (VCreds c) st)) = (trace st ++ evs)%list
    /\ forallb (made_with c) evs = true.
Proof. apply invoke_made_with. Qed.

End ToolCredentials.

Section OrchestratorEmits.
Context {PY : PythonRuntime} {W : Type} {SDK : AWSSDK W} {AI : OpenAIClient W}.
Import AWSTools OrchestratorAgent.

Variable p : Event -> bool.
Hypothesis p_log : forall name arguments, p (LogExecuting name arguments) = true.
Hypothesis p_model : forall m messages t, p (ChatCompletionsCreate m messages t) = true.
Hypothesis p_raised : forall e, p (Raised e) = true.

Lemma bind_arguments_kwargs name params required arguments (st : State W) kw st' :
  bind_arguments name params required arguments st = (inr kw, st') ->
  kw = kwargs_of arguments.
Proof.
  unfold bind_arguments. destruct (truthy arguments) eqn:Ht.
  - destruct arguments; try discriminate.
    destruct (_ && _); [| discriminate]. intros H. ret_inv H. reflexivity.
  - destruct (_ && _); [| discriminate]. intros H. ret_inv H.
    destruct arguments; try reflexivity.
    destruct d; [reflexivity | discriminate Ht].
Qed.

Lemma emits_bind_arguments name params required arguments :
  emits (W := W) p (bind_arguments name params required arguments).
Proof.
  apply emits_silent. intros st.
  destruct (bind_arguments name params required arguments st) as [res st'] eqn:H.
  apply bind_arguments_state in H. subst st'. reflexivity.
Qed.

Lemma emits_new_ChatResponse response actions resources flag :
  emits (W := W) p (new_ChatResponse response actions resources flag).
Proof. unfold new_ChatResponse. destruct response; [apply emits_ret | apply emits_raise]. Qed.

(** [_execute_function], given what the tools emit on the credentials the
    call hands them. *)
Lemma emits_execute_function name arguments :
  (forall op, emits p (invoke op (dict_get_default "credentials" VNone
                                                   (kwargs_of arguments)))) ->
  emits p (_execute_function name arguments).
Proof.
  intros Htool. unfold _execute_function.
  destruct (negb (hasattr_aws_tools name)); [apply emits_raise |].
  apply emits_bind; [apply emits_log, p_log | intros _].
  assert (Hcall : forall params required
                         (opk : list (string * Val) -> Operation),
             emits p (kw <- bind_arguments name params required arguments ;;
                      r <- invoke (opk kw) (dict_get_default "credentials" VNone kw) ;;
                      ret (ResAWS r))).
  { intros params required opk.
    apply emits_bind_strong with (Q := fun kw => kw = kwargs_of arguments).
    - apply emits_bind_arguments.
    - intros st kw st'. apply bind_arguments_kwargs.
    - intros kw ->. apply emits_bind; [apply Htool | intros r; apply emits_ret]. }
  destruct (name =? "get_s3_bucket_sizes");
    [exact (Hcall _ _ (fun _ => GetS3BucketSizes)) |].
  destruct (name =? "list_ec2_instances");
    [exact (Hcall _ _ (fun _ => ListEC2Instances)) |].
  destruct (name =? "describe_iam_role");
    [exact (Hcall _ _
              (fun kw => DescribeIAMRole (dict_get_default "role_name" VNone kw))) |].
  destruct (name =? "get_s3_bucket_file_count");
    [exact (Hcall _ _
              (fun kw => GetS3BucketFileCount (dict_get_default "bucket_name" VNone kw))) |].
  apply emits_raise.
Qed.

(** A name that is not in [aws_operations] is none of the tools. *)
Lemma emits_execute_function_other name arguments :
  _requires_aws_credentials name = false ->
  emits p (_execute_function name arguments).
Proof.
  intros Hreq. unfold _execute_function.
  destruct (negb (hasattr_aws_tools name)); [apply emits_raise |].
  apply emits_bind; [apply emits_log, p_log | intros _].
  destruct (String.eqb_spec name "get_s3_bucket_sizes") as [-> | _]; [discriminate Hreq |].
  destruct (String.eqb_spec name "list_ec2_instances") as [-> | _]; [discriminate Hreq |].
  destruct (String.eqb_spec name "describe_iam_role") as [-> | _]; [discriminate Hreq |].
  destruct (String.eqb_spec name "get_s3_bucket_file_count") as [-> | _];
    [discriminate Hreq |].
  apply emits_raise.
Qed.

Lemma emits_resource_entry name arguments :
  emits (W := W) p (resource_entry name arguments).
Proof. unfold resource_entry. destruct arguments; first [apply emits_ret | apply emits_raise]. Qed.

Lemma emits_execute_and_record tool_call name arguments l :
  emits p (_execute_function name arguments) ->
  emits p (try_except (execute_and_record tool_call name arguments l) execute_except).
Proof.
  intros Hexec. apply emits_try_except.
  - unfold execute_and_record. apply emits_bind; [exact Hexec | intros result].
    cbv zeta.
    destruct result as [r | v];
      [destruct (requires_credentials r);
         [apply emits_bind; [apply emits_new_ChatResponse | intros ?; apply emits_ret] |];
       destruct (negb (success r));
         [apply emits_bind; [apply emits_new_ChatResponse | intros ?; apply emits_ret] |] |];
      (apply emits_bind;
       [destruct (mem name aws_operations); [| apply emits_ret];
        apply emits_bind; [apply emits_resource_entry | intros ?; apply emits_ret]
       | intros resources;
         destruct (json_dumps _); [apply emits_raise | apply emits_ret]]).
  - intros e. unfold execute_except. cbv zeta. destruct (_ || _); [| apply emits_raise].
    apply emits_bind; [apply emits_new_ChatResponse | intros ?; apply emits_ret].
Qed.

Lemma emits_prepare_arguments aws_credentials tool_call :
  emits (W := W) p (prepare_arguments aws_credentials tool_call).
Proof.
  apply emits_silent. intros st.
  destruct (prepare_arguments aws_credentials tool_call st) as [res st'] eqn:H.
  apply prepare_arguments_state in H. subst st'. reflexivity.
Qed.

(** The loop, given what dispatching emits on the arguments that
    [prepare_arguments] can return. *)
Lemma emits_process_tool_calls aws_credentials :
  (forall tool_call arguments (st st' : State W),
     prepare_arguments aws_credentials tool_call st = (inr (inr arguments), st') ->
     emits p (_execute_function (tc_name tool_call) arguments)) ->
  forall tool_calls l, emits p (process_tool_calls aws_credentials tool_calls l).
Proof.
  intros Hexec tool_calls.
  induction tool_calls as [| tc tcs IH]; intros l; cbn [process_tool_calls].
  - apply emits_ret.
  - apply emits_bind.
    + unfold process_tool_call.
      apply emits_bind_strong
        with (Q := fun prepared =>
                     forall arguments, prepared = inr arguments ->
                       emits p (_execute_function (tc_name tc) arguments)).
      * apply emits_prepare_arguments.
      * intros st prepared st' Hp arguments ->. eapply Hexec. exact Hp.
      * intros [resp | arguments] HQ; [apply emits_ret |].
        apply emits_execute_and_record. apply HQ. reflexivity.
    + intros [r | l']; [apply emits_ret | apply IH].
Qed.

Lemma emits_create messages with_tools : emits p (create messages with_tools).
Proof.
  unfold create. apply emits_call_exn; [apply p_model | apply p_raised].
Qed.

Lemma emits_process_request messages aws_credentials :
  (forall tool_call arguments (st st' : State W),
     prepare_arguments aws_credentials tool_call st = (inr (inr arguments), st') ->
     emits p (_execute_function (tc_name tool_call) arguments)) ->
  emits p (process_request messages aws_credentials).
Proof.
  intros Hexec. unfold process_request.
  apply emits_try_except; [| intros e; apply emits_raise].
  apply emits_bind; [apply emits_create | intros reply].
  destruct (msg_tool_calls reply) as [| tc tcs]; [apply emits_new_ChatResponse |].
  apply emits_bind; [apply emits_process_tool_calls; exact Hexec | intros flow].
  destruct flow as [r | l]; [apply emits_ret |].
  apply emits_bind; [apply emits_create | intros final].
  apply emits_new_ChatResponse.
Qed.

End OrchestratorEmits.

Section RequestCredentials.
Context {PY : PythonRuntime} {W : Type} {SDK : AWSSDK W} {AI : OpenAIClient W}.
Import AWSTools OrchestratorAgent.

(** X15. While [process_request] serves a request that carries credentials,
    every session, client and request to AWS is made with these
    credentials, whatever the model asked for and whatever it wrote in the
    arguments. *)
Theorem request_uses_its_credentials (messages : list Message) (c : AWSCredentials)
    (st : State W) :
  exists evs,
    trace (snd (process_request messages (Some c) st)) = (trace st ++ evs)%list
    /\ forallb (made_with c) evs = true.
Proof.
  revert st. change (emits (made_with c) (process_request messages (Some c))).
  apply emits_process_request; try reflexivity.
  intros tool_call arguments st st' Hprep.
  destruct (_requires_aws_credentials (tc_name tool_call)) eqn:Hreq;
    [| apply emits_execute_function_other; [reflexivity | exact Hreq]].
  apply emits_execute_function; [reflexivity |].
  intros op. unfold prepare_arguments in Hprep. rewrite Hreq in Hprep.
  destruct (json_loads (tc_arguments tool_call)) as [text | v]; [discriminate Hprep |].
  bind_inv Hprep as a s1 Hset. ret_inv Hprep.
  unfold set_credentials in Hset. destruct v; try discriminate Hset. ret_inv Hset.
  cbn [kwargs_of]. unfold dict_get_default. rewrite dict_get_set.
  apply invoke_made_with.
Qed.

Lemma process_request_opens messages aws_credentials (st : State W) :
  exists evs,
    trace (snd (process_request messages aws_credentials st))
    = (trace st ++ ChatCompletionsCreate model (initial messages) (Some tools) :: evs)%list.
Proof.
  assert (Hany : forall tool_call arguments,
             emits any_event (_execute_function (tc_name tool_call) arguments)).
  { intros tool_call arguments. apply emits_execute_function; [reflexivity |].
    intros op. eapply emits_weaken; [| apply emits_invoke]. reflexivity. }
  unfold process_request. fold (initial messages). unfold try_except.
  unfold bind at 1. unfold create at 1, call_exn, bind, call.
  destruct (chat_completions_create model (initial messages) (Some tools) (world st))
    as [[e | reply] w'].
  - exists [Raised e]. cbn. rewrite <- app_assoc. reflexivity.
  - cbn [ret].
    set (st1 := mkState w' (trace st ++ [ChatCompletionsCreate model (initial messages)
                                           (Some tools)])
                        (tools_session st) (bedrock_session st) (bedrock_model_id st)).
    assert (Hrest : emits any_event
              (match msg_tool_calls reply with
               | [] => new_ChatResponse (msg_content reply) [] [] (Some false)
               | tool_calls =>
                   flow <- process_tool_calls aws_credentials tool_calls
                             (mkLocals [] [] (initial messages)) ;;
                   match flow with
                   | Return r => ret r
                   | Next l =>
                       final_response <- create (l_openai_messages l) None ;;
                       new_ChatResponse (msg_content final_response) (l_actions_taken l)
                                        (l_aws_resources_affected l) (Some false)
                   end
               end)).
    { destruct (msg_tool_calls reply) as [| tc tcs];
        [apply emits_new_ChatResponse |].
      apply emits_bind.
      - apply emits_process_tool_calls; try reflexivity.
        intros tool_call arguments s s' _. apply Hany.
      - intros [r | l]; [apply emits_ret |].
        apply emits_bind; [apply emits_create; reflexivity | intros final].
        apply emits_new_ChatResponse. }
    destruct (Hrest st1) as (evs & E & _).
    match goal with
    | |- context [match ?m st1 with _ => _ end] =>
        change (trace (snd (m st1)) = (trace st1 ++ evs)%list) in E;
        destruct (m st1) as [[e | r] s2]
    end; cbn [snd raise] in *; exists evs; rewrite E; subst st1; cbn [trace];
      rewrite <- app_assoc; reflexivity.
Qed.

(** X16. The conversation [chat] opens with the model always has a system
    message: the conversation of the request when it has one, the fixed
    CloudPilot prompt put before it otherwise. *)
Theorem chat_has_system_prompt (request : Main.ChatRequest) (st : State W) :
  exists conversation evs,
    trace (snd (Main.chat request st))
    = (trace st ++ ChatCompletionsCreate model conversation (Some tools) :: evs)%list
    /\ existsb is_system conversation = true
    /\ conversation
       = if existsb is_system (initial (Main.messages request))
         then initial (Main.messages request)
         else initial (Main.system_message :: Main.messages request).
Proof.
  assert (Hsys : forall ms,
             existsb (fun msg => MessageRole_eqb (role msg) SYSTEM) ms
             = existsb is_system (initial ms)).
  { induction ms as [| m ms IH]; [reflexivity |].
    cbn [existsb initial map]. unfold initial in IH. rewrite IH.
    destruct (role m); reflexivity. }
  unfold Main.chat. rewrite Hsys.
  destruct (existsb is_system (initial (Main.messages request))) eqn:Hex.
  - destruct (process_request_opens (Main.messages request)
                (Main.awsCredentials request) st) as [evs E].
    exists (initial (Main.messages request)), evs.
    split; [exact E |]. split; [exact Hex | reflexivity].
  - destruct (process_request_opens (Main.system_message :: Main.messages request)
                (Main.awsCredentials request) st) as [evs E].
    exists (initial (Main.system_message :: Main.messages request)), evs.
    split; [exact E |]. split; reflexivity.
Qed.

End RequestCredentials.

(* ================================================================== *)
(** ** Further properties: the routes *)
(* ================================================================== *)

Section RouteFacts.
Context {PY : PythonRuntime} {W : Type} {SDK : AWSSDK W} {AI : OpenAIClient W}.
Import BedrockAgent.

Variable str_HTTPException : nat -> Val -> string.
Variable validate_policy_document : Val -> string + list (string * Val).
Variable boto3_exceptions_has : string -> bool.

(** X17. Whatever goes wrong while [process_request] serves a chat request,
    the route answers with status 500: [process_request] re-raises every
    exception as a plain Exception, so the handlers of the route for the
    OpenAI errors (401, 429, 400) and for the two ClientError codes never
    run; a response of the route is the response of [process_request]. *)
Theorem chat_failure_is_500 (request : Main.ChatRequest) (st : State W) :
  match Routes.chat boto3_exceptions_has request st with
  | (inl h, st') =>
      Routes.status_code h = 500%nat
      /\ exists e, Main.chat request st = (inl e, st')
  | (inr response, st') => Main.chat request st = (inr response, st')
  end.
Proof.
  unfold Routes.chat.
  destruct (Main.chat request st) as [[e | response] st'] eqn:Hrun; [| reflexivity].
  assert (Hplain : exn_class e = PlainException).
  { unfold Main.chat in Hrun. cbv zeta in Hrun.
    apply process_request_raises_plain in Hrun. exact (proj1 Hrun). }
  unfold Routes.chat_except. rewrite Hplain.
  destruct (negb (boto3_exceptions_has "BotoCoreError"));
    [split; [reflexivity | exists e; reflexivity] |].
  destruct (negb (boto3_exceptions_has "ClientError"));
    split; first [reflexivity | exists e; reflexivity].
Qed.


Lemma session_client_of_quiet service :
  emits (W := W) (fun ev => negb (is_invoke_model ev)) (session_client_of service).
Proof. unfold session_client_of. repeat emits_step. Qed.

Lemma invoke_bedrock_json_credentials prompt credentials (st : State W) :
  is_credentials_object credentials = false ->
  exists e, _invoke_bedrock prompt credentials st = (inl e, st).
Proof.
  intros H.
  unfold _invoke_bedrock, try_except, bind, _get_bedrock_client, bind, _init_session.
  destruct (truthy credentials); [| eexists; reflexivity].
  destruct credentials; try discriminate H; eexists; reflexivity.
Qed.

Lemma review_json_credentials operation credentials (st : State W) :
  is_credentials_object credentials = false ->
  exists e, review operation credentials st = (inl e, st).
Proof.
  intros H. unfold review.
  destruct (json_dumps_indent2 operation) as [text | operation_json];
    [eexists; reflexivity |].
  destruct (@invoke_bedrock_json_credentials (validation_prompt operation_json)
              credentials st H)
    as [e He].
  exists e. unfold bind. rewrite He. reflexivity.
Qed.

(** X19. The body of [POST /validate-aws-operation] is a dict, so the
    credentials the reviewer receives are a value of that dict and never an
    [AWSCredentials] object: the route never sends the operation to the
    model.  Its answer is status 500, or the verdict for invalid
    credentials when the identity check raised. *)
Theorem validate_route_never_reviews (operation : list (string * Val))
    (st : State W) :
  is_credentials_object (dict_get_default "awsCredentials" VNone operation) = false ->
  (exists evs,
     trace (snd (Routes.validate_aws_operation str_HTTPException operation st))
     = (trace st ++ evs)%list
     /\ forallb (fun ev => negb (is_invoke_model ev)) evs = true)
  /\ match fst (Routes.validate_aws_operation str_HTTPException operation st) with
     | inl h => Routes.status_code h = 500%nat
     | inr v => exists e, v = invalid_credentials_verdict e
     end.
Proof.
  intros Hjson. unfold Routes.validate_aws_operation, Routes.answer_500.
  set (credentials := dict_get_default "awsCredentials" VNone operation) in *.
  unfold validate_aws_operation.
  assert (Hcheck : emits (fun ev => negb (is_invoke_model ev)) (identity_check (W := W))).
  { unfold identity_check. apply emits_try_except.
    - apply emits_bind; [apply session_client_of_quiet | intros sts].
      repeat emits_step.
    - intros e. apply emits_ret. }
  destruct (truthy credentials).
  - unfold bind. destruct (Hcheck st) as (evs & E & P).
    destruct (identity_check st) as [[e | checked] s1] eqn:Hrun; cbn [snd] in E.
    + split; [exists evs; split; assumption | reflexivity].
    + destruct checked as [verdict |].
      * cbn [ret fst snd]. split; [exists evs; split; assumption |].
        unfold identity_check, try_except in Hrun.
        match type of Hrun with
        | context [match ?m st with _ => _ end] => destruct (m st) as [[e | x] s2] eqn:Hm
        end.
        -- ret_inv Hrun. eexists. reflexivity.
        -- bind_inv Hm as sts s3 H3. bind_inv Hm as identity s4 H4. ret_inv Hm.
           inversion Hrun.
      * destruct (@review_json_credentials (VDict operation) credentials s1 Hjson) as [e He].
        rewrite He. cbn [fst snd].
        split; [exists evs; split; assumption | reflexivity].
  - destruct (@review_json_credentials (VDict operation) credentials st Hjson) as [e He].
    rewrite He. cbn [fst snd]. split; [| reflexivity].
    exists []. split; [symmetry; apply app_nil_r | reflexivity].
Qed.

End RouteFacts.

(* ================================================================== *)
(** ** Further properties: instances, roles and the orchestrator's review *)
(* ================================================================== *)

Section MoreReports.
Context {PY : PythonRuntime} {W : Type} {SDK : AWSSDK W}.
Import AWSTools.

(** X20. When [list_ec2_instances] reports success, [data] has one entry
    for every instance of every reservation that [describe_instances]
    answered, in their order, and the number in the message is their
    number. *)
Theorem ec2_report (credentials : Val) (st : State W) (r : AWSResponse)
    (st' : State W) :
  list_ec2_instances credentials st = (inr r, st') ->
  success r = true ->
  exists (ec2 : Client) (w : W) (reservations : list (list Instance)),
    describe_instances ec2 w = (inr reservations, world st')
    /\ data r = VList (map instance_entry (concat reservations))
    /\ message r = Some ("Successfully retrieved information for "
                         ++ str_of_nat (length (concat reservations)) ++ " instance(s)")
    /\ requires_credentials r = false.
Proof.
  unfold list_ec2_instances. intros H Hs.
  destruct (negb (truthy credentials)); [ret_inv H; discriminate Hs |].
  unfold try_except in H.
  destruct (list_ec2_instances_try credentials st) as [[e | r0] s1] eqn:Hb.
  - ret_inv H. exfalso. unfold list_ec2_instances_except in Hs.
    destruct (exn_class e); try discriminate Hs.
    repeat match type of Hs with
           | context [if ?b then _ else _] => destruct b
           end; discriminate Hs.
  - inversion H; subst r0 s1. unfold list_ec2_instances_try in Hb.
    bind_inv Hb as ec2 s2 H2. bind_inv Hb as response s3 H3. ret_inv Hb.
    unfold call_exn, bind, call in H3.
    destruct (describe_instances ec2 (world s2)) as [[e | reservations] w'] eqn:Hd;
      [discriminate H3 |].
    ret_inv H3. exists ec2, (world s2), response. cbn [world data message requires_credentials].
    rewrite length_map. repeat split. exact Hd.
Qed.

(** X21. A successful [describe_iam_role] was called with an
    [AWSCredentials] object and made, with it, a session, an IAM client,
    one [get_role] and then one [list_attached_role_policies] for the same
    role, and nothing else; [data] holds, under [role], what [get_role]
    answered and, under [attached_policies], what
    [list_attached_role_policies] answered right after it. *)
Theorem iam_role_report (role_name credentials : Val) (st : State W)
    (r : AWSResponse) (st' : State W) :
  describe_iam_role role_name credentials st = (inr r, st') ->
  success r = true ->
  exists (c : AWSCredentials) (role policies : Val) (w1 w2 : W),
    credentials = VCreds c
    /\ get_role (mkClient c "iam") role_name w1 = (inr role, w2)
    /\ list_attached_role_policies (mkClient c "iam") role_name w2
       = (inr policies, world st')
    /\ trace st'
       = (trace st ++ [BotoSession c; BotoClient c "iam";
                       IAMGetRole (mkClient c "iam") role_name;
                       IAMListAttachedRolePolicies (mkClient c "iam") role_name])%list
    /\ data r = VDict [("role", role); ("attached_policies", policies)]
    /\ requires_credentials r = false.
Proof.
  unfold describe_iam_role. intros H Hs.
  destruct (truthy credentials) eqn:Ht; cbn [negb] in H;
    [| ret_inv H; discriminate Hs].
  unfold try_except in H.
  destruct (describe_iam_role_try role_name credentials st) as [[e | r0] s1] eqn:Hb.
  - ret_inv H. exfalso. unfold describe_iam_role_except in Hs.
    destruct (exn_class e); try discriminate Hs.
    repeat match type of Hs with
           | context [if ?b then _ else _] => destruct b
           end; discriminate Hs.
  - inversion H; subst r0 s1. clear H. revert Hb.
    unfold describe_iam_role_try, _get_client, _init_session, call_exn, bind, call,
      set_tools_session, get_tools_session, raised, ret, raise.
    rewrite Ht.
    destruct credentials as [ | | | | | | | c | ];
      try (cbn; discriminate).
    destruct (boto3_Session c (world st)) as [[text |] w1]; cbn; [discriminate |].
    destruct (session_client c "iam" w1) as [[text |] w2]; cbn; [discriminate |].
    destruct (get_role (mkClient c "iam") role_name w2) as [[e | role] w3] eqn:Hrole;
      cbn; [discriminate |].
    destruct (list_attached_role_policies (mkClient c "iam") role_name w3)
      as [[e | policies] w4] eqn:Hpolicies; cbn; [discriminate |].
    intros H. inversion H. subst. cbn.
    exists c, role, policies, w2, w3. repeat split; try assumption.
    rewrite <- !app_assoc. reflexivity.
Qed.

Lemma dict_get_mem (k : string) (d : list (string * Val)) :
  mem k (dict_keys d) = true -> exists v, dict_get k d = Some v.
Proof.
  induction d as [| [k' v'] d IH]; cbn; [discriminate |].
  rewrite (String.eqb_sym k k').
  destruct (k' =? k); [intros _; exists v'; reflexivity | exact IH].
Qed.

(** X22. [OrchestratorAgent.validate_aws_operation] returns the entry
    [is_valid] of the reviewer's result: the default False of its [get] is
    never used, since the reviewer only returns dicts that have the key.
    An exception of the reviewer is re-raised as a plain Exception under
    "Error validating AWS operation: ". *)
Theorem orchestrator_review_verdict (operation credentials : Val) (st : State W) :
  match Orchestrator.validate_aws_operation operation credentials st with
  | (inr is_valid, st') =>
      exists d,
        BedrockAgent.validate_aws_operation operation credentials st = (inr (VDict d), st')
        /\ dict_get "is_valid" d = Some is_valid
  | (inl e, st') =>
      exists inner,
        BedrockAgent.validate_aws_operation operation credentials st = (inl inner, st')
        /\ e = Exception ("Error validating AWS operation: " ++ exn_text inner)
  end.
Proof.
  unfold Orchestrator.validate_aws_operation, try_except, bind.
  destruct (BedrockAgent.validate_aws_operation operation credentials st)
    as [[inner | v] s1] eqn:Hrun.
  - exists inner. split; reflexivity.
  - destruct (validate_aws_operation_returns _ _ _ Hrun) as (d & -> & Hk).
    destruct (dict_get_mem _ _ Hk) as [is_valid Hget].
    unfold ret, dict_get_default. rewrite Hget.
    exists d. split; [reflexivity | exact Hget].
Qed.

End MoreReports.

(* ================================================================== *)
(** ** The further properties on the concrete world *)
(* ================================================================== *)

Section MoreWitnesses.
Import Scenario Runs Cases AWSTools OrchestratorAgent BedrockAgent.
#[local] Existing Instance python.
#[local] Existing Instance aws.
#[local] Existing Instance openai.

(** One bucket, [photos], listed in one page of ten objects of 524288
    bytes: 5242880 bytes in ten files, by either operation. *)
Lemma pagination_totals_witness :
  let photos := mkBucketStat (VStr "photos") 10 5242880%Z (py_round_mb 5242880%Z) in
  fst (get_s3_bucket_sizes (VCreds alice) fresh)
  = inr (mkAWSResponse true
           (VList [size_entry ("photos", 5242880%Z)])
           (Some ("Successfully retrieved information for " ++ str_of_nat 1
                  ++ " bucket(s)")) false)
  /\ fst (get_s3_bucket_file_count VNone (VCreds alice) fresh)
     = inr (mkAWSResponse true (VList [bucket_stat_entry photos])
              (Some (file_count_message [photos])) false).
Proof.
  intros photos.
  destruct (@pagination_totals python nat aws alice fresh 0%nat 0%nat eq_refl eq_refl)
    as [Hall _].
  destruct (Hall ["photos"] 1%nat [[Some (repeat 524288%Z 10)]] 2%nat eq_refl eq_refl)
    as [Hsizes Hcount].
  split; [exact Hsizes | exact (Hcount VNone eq_refl)].
Defined.

(** No credentials at all: the reviewer raises and the state is as it was. *)
Lemma reviewer_requires_credentials_witness :
  suggest_iam_policy "read my buckets" VNone fresh = (inl credentials_required, fresh)
  /\ exists e, validate_aws_operation (VDict []) VNone fresh = (inl e, fresh).
Proof.
  apply (@reviewer_requires_credentials python nat aws "read my buckets" (VDict [])
           VNone fresh).
  reflexivity.
Defined.

(** The verdict of a fresh agent has the key. *)
Lemma validation_result_has_is_valid_witness :
  exists d,
    invalid_credentials_verdict (no_attribute (@VNone Z) "client") = VDict d
    /\ mem "is_valid" (dict_keys d) = true.
Proof.
  apply (@validation_result_has_is_valid python nat aws (VDict []) (VCreds alice) fresh
           (invalid_credentials_verdict (no_attribute (@VNone Z) "client")) fresh).
  reflexivity.
Defined.

(** The expired key: InvalidAccessKeyId is none of the three codes with a
    caption of their own. *)
Lemma bedrock_error_caption_witness :
  fst (_invoke_bedrock "hello" (VCreds expired) fresh)
  = inl (Exception ("Error in _invoke_bedrock: "
                    ++ bedrock_caption (unknown_key "InvokeModel"))).
Proof.
  apply (@bedrock_error_caption python nat aws "hello" (VCreds expired) fresh
           (mkClient expired "bedrock-runtime")
           (snd (_get_bedrock_client (VCreds expired) fresh))
           (unknown_key "InvokeModel") 1%nat).
  - reflexivity.
  - reflexivity.
Defined.

Lemma bedrock_completion_not_empty_witness :
  truthy (VStr reply_text : Value Z) = true.
Proof.
  apply (@bedrock_completion_not_empty python nat aws "hello" (VCreds alice) fresh
           (VStr reply_text) (snd (_invoke_bedrock "hello" (VCreds alice) fresh))).
  reflexivity.
Defined.

(** A greeting: the model answers without a tool call. *)
Lemma direct_reply_witness :
  let st1 := snd (create (initial (ask "hello")) (Some tools) fresh) in
  process_request (ask "hello") None fresh
  = match msg_content (plan "hello") with
    | Some text => (inr (mkChatResponse text [] [] None (Some false) None), st1)
    | None => (inl (Exception ("Error in process_request: " ++ py_validation_error)), st1)
    end
  /\ trace st1
     = (trace fresh ++ [ChatCompletionsCreate model (initial (ask "hello")) (Some tools)])%list.
Proof.
  intros st1.
  apply (@direct_reply python nat aws openai (ask "hello") None fresh (plan "hello") st1).
  - reflexivity.
  - reflexivity.
Defined.

(** The bucket sizes with Alice's key: one tool call, one record. *)
Lemma batch_success_witness :
  let after := reached (Some alice) "list my buckets" 1 in
  let st3 := snd (create (l_openai_messages (fst after)) None (snd after)) in
  process_request (ask "list my buckets") (Some alice) fresh
  = (inr (mkChatResponse "Here is what I found."
            (map executed (msg_tool_calls (plan "list my buckets")))
            (l_aws_resources_affected (fst after)) None (Some false) None), st3)
  /\ length (l_aws_resources_affected (fst after))
     = length (msg_tool_calls (plan "list my buckets"))
  /\ count_events is_tool_dispatch st3
     = (count_events is_tool_dispatch fresh
        + length (msg_tool_calls (plan "list my buckets")))%nat
  /\ filter is_model_call (trace st3)
     = (filter is_model_call (trace fresh)
        ++ [ChatCompletionsCreate model (initial (ask "list my buckets")) (Some tools);
            ChatCompletionsCreate model (l_openai_messages (fst after)) None])%list.
Proof.
  intros after st3.
  apply (@batch_success python nat aws openai (ask "list my buckets") (Some alice) fresh
           (plan "list my buckets")
           (snd (create (initial (ask "list my buckets")) (Some tools) fresh))
           (fst after) (snd after)
           (mkCompletion (Some "Here is what I found.") []) st3 "Here is what I found.").
  - reflexivity.
  - discriminate.
  - reflexivity.
  - reflexivity.
  - reflexivity.
Defined.

Lemma dispatch_carries_credentials_witness :
  let before := reached (Some alice) "list my buckets" 0 in
  let out := dispatch (Some alice) call_sizes (snd before) in
  exists d,
    fst (fst out) = VDict d
    /\ dict_get "credentials" d = Some (VCreds alice)
    /\ In (LogExecuting (tc_name call_sizes) (fst (fst out))) (trace (snd out)).
Proof.
  intros before out.
  apply (@dispatch_carries_credentials python nat aws alice call_sizes (snd before)
           (fst (fst out)) (snd (fst out)) (snd out)).
  exists (snd before). split; reflexivity.
Defined.

Lemma response_holds_no_credentials_witness :
  Forall clean_entry
         [VDict [("operation", VStr "get_s3_bucket_sizes");
                 ("parameters", VDict ([] : list (string * Value Z)))]].
Proof.
  apply (@response_holds_no_credentials python nat aws openai (ask "list my buckets")
           (Some alice) fresh
           (mkChatResponse "Here is what I found."
              ["Successfully executed get_s3_bucket_sizes"]
              [VDict [("operation", VStr "get_s3_bucket_sizes");
                      ("parameters", VDict [])]]
              None (Some false) None)
           (snd (process_request (ask "list my buckets") (Some alice) fresh))).
  reflexivity.
Defined.

(** The key as a bare string instead of the object. *)
Lemma foreign_credentials_fail_witness :
  invoke GetS3BucketSizes (VStr "AKIAALICE") fresh
  = (inr (mkAWSResponse false VNone
            (Some (error_prefix GetS3BucketSizes ++ "Failed to initialize AWS session: '"
                   ++ tp_name (VStr "AKIAALICE" : Value Z)
                   ++ "' object has no attribute 'accessKeyId'"))
            false), fresh).
Proof.
  apply (@foreign_credentials_fail python nat aws GetS3BucketSizes (VStr "AKIAALICE") fresh).
  - reflexivity.
  - intros c. discriminate.
Defined.

(** A datetime in the place of the credentials: the type is named with
    its module. *)
Example datetime_credentials_fail :
  message (response_of (invoke ListEC2Instances
                               (VDatetime "2024-01-01T00:00:00+00:00") fresh))
  = Some "Error listing EC2 instances: Failed to initialize AWS session: 'datetime.datetime' object has no attribute 'accessKeyId'".
Proof. reflexivity. Qed.

(** One bucket of ten objects of half a megabyte. *)
Lemma bucket_sizes_report_witness :
  let r := response_of (get_s3_bucket_sizes (VCreds alice) fresh) in
  exists rows : list (string * Z),
    data r = VList (map size_entry rows)
    /\ message r = Some ("Successfully retrieved information for "
                         ++ str_of_nat (length rows) ++ " bucket(s)")
    /\ requires_credentials r = false.
Proof.
  intros r.
  apply (@bucket_sizes_report python nat aws (VCreds alice) fresh r
           (snd (get_s3_bucket_sizes (VCreds alice) fresh))).
  - reflexivity.
  - reflexivity.
Defined.

Lemma file_count_report_witness :
  let r := response_of (get_s3_bucket_file_count (VStr "photos") (VCreds alice) fresh) in
  exists stats,
    data r = VList (map bucket_stat_entry stats)
    /\ message r = Some (file_count_message stats)
    /\ Forall (fun s => total_size_mb s = py_round_mb (total_size_bytes s)) stats
    /\ (truthy (VStr "photos" : Value Z) = true ->
        exists n size,
          stats = [mkBucketStat (VStr "photos") n size (py_round_mb size)]
          /\ message r
             = Some ("Bucket '" ++ py_str (VStr "photos" : Value Z) ++ "' contains "
                     ++ str_of_nat n
                     ++ " files (" ++ py_float_str (py_round_mb size) ++ " MB)")).
Proof.
  intros r.
  apply (@file_count_report python nat aws (VStr "photos") (VCreds alice) fresh r
           (snd (get_s3_bucket_file_count (VStr "photos") (VCreds alice) fresh))).
  - reflexivity.
  - reflexivity.
Defined.

(** The account with instances: three entries from two reservations. *)
Lemma ec2_report_witness :
  let run := @list_ec2_instances python nat fleet (VCreds alice) fresh in
  let r := response_of run in
  exists (ec2 : Client) (w : nat) (reservations : list (list Instance)),
    @describe_instances python nat fleet ec2 w = (inr reservations, world (snd run))
    /\ data r = VList (map instance_entry (concat reservations))
    /\ message r = Some ("Successfully retrieved information for "
                         ++ str_of_nat (length (concat reservations)) ++ " instance(s)")
    /\ requires_credentials r = false.
Proof.
  intros run r.
  apply (@ec2_report python nat fleet (VCreds alice) fresh r (snd run)).
  - reflexivity.
  - reflexivity.
Defined.

(** The role [admin] with Alice's key: the role and its (no) policies as
    the account answers them. *)
Lemma iam_role_report_witness :
  let run := describe_iam_role (VStr "admin") (VCreds alice) fresh in
  let r := response_of run in
  exists (c : AWSCredentials) (role policies : Value Z) (w1 w2 : nat),
    (VCreds alice : Value Z) = VCreds c
    /\ get_role (mkClient c "iam") (VStr "admin") w1 = (inr role, w2)
    /\ list_attached_role_policies (mkClient c "iam") (VStr "admin") w2
       = (inr policies, world (snd run))
    /\ trace (snd run)
       = (trace fresh ++ [BotoSession c; BotoClient c "iam";
                          IAMGetRole (mkClient c "iam") (VStr "admin");
                          IAMListAttachedRolePolicies (mkClient c "iam") (VStr "admin")])%list
    /\ data r = VDict [("role", role); ("attached_policies", policies)]
    /\ requires_credentials r = false.
Proof.
  intros run r.
  apply (@iam_role_report python nat aws (VStr "admin") (VCreds alice) fresh r (snd run)).
  - reflexivity.
  - reflexivity.
Defined.


(** Credentials in the body of the request are a JSON object. *)
Lemma validate_route_never_reviews_witness :
  let run := Routes.validate_aws_operation str_HTTPException validation_body fresh in
  (exists evs,
     trace (snd run) = (trace fresh ++ evs)%list
     /\ forallb (fun ev => negb (is_invoke_model ev)) evs = true)
  /\ match fst run with
     | inl h => Routes.status_code h = 500%nat
     | inr v => exists e, v = invalid_credentials_verdict e
     end.
Proof.
  intros run.
  apply (@validate_route_never_reviews python nat aws str_HTTPException validation_body
           fresh).
  reflexivity.
Defined.

End MoreWitnesses.
